(** * riven-tui: the application loop, the screens and the event stream

    A shallow embedding of the Bubble Tea program in [pkg/tui] (the [App]
    router and its screen models) and of [Client.StreamEventsSSE] in
    [pkg/api], followed by the properties the specification states about
    them.

    Conventions.
    - A [tea.Msg] is a value of the tagged union [Msg]; a key press is
      identified by the text [msg.String()] returns, which is all the
      program ever inspects.
    - A [tea.Cmd] is the list of asynchronous operations it stands for:
      [nil] is the empty list and [tea.Batch] is concatenation, so the
      operations a handler emits can be counted.
    - A Go [int] is a [Z]; [++], [--] and subtraction wrap at 64 bits.
    - A pointer that may be [nil] is an [option]; dereferencing [nil] and
      indexing out of range are the [Panic] result.
    - Colours, borders, padding and alignment of lipgloss styles are not
      modelled: a style contributes its [Render] call only. *)

From Stdlib Require Import String List ZArith Lia Bool Ascii DecimalString.
Import ListNotations.
Open Scope string_scope.
Open Scope Z_scope.

Set Implicit Arguments.
Set Warnings "-register-all".

(** ** Go values *)

(** Outcome of a computation that may panic. *)
Inductive result (A : Type) : Type :=
| Ok (a : A)
| Panic (why : string).
Arguments Ok {A} a.
Arguments Panic {A} why.

Definition bind {A B : Type} (r : result A) (k : A -> result B) : result B :=
  match r with
  | Ok a => k a
  | Panic w => Panic w
  end.

Notation "x <- r ;; k" := (bind r (fun x => k))
  (at level 61, r at next level, right associativity).

Fixpoint mapM {A B : Type} (f : A -> result B) (l : list A) : result (list B) :=
  match l with
  | [] => Ok []
  | a :: rest => b <- f a ;; bs <- mapM f rest ;; Ok (b :: bs)
  end.

(** 64-bit two's complement wrap-around of Go's [int]. *)
Definition wrap64 (z : Z) : Z := (z + 2 ^ 63) mod 2 ^ 64 - 2 ^ 63.
Definition int_add (a b : Z) : Z := wrap64 (a + b).
Definition int_sub (a b : Z) : Z := wrap64 (a - b).

Definition len (s : string) : Z := Z.of_nat (String.length s).
Definition llen {A : Type} (l : list A) : Z := Z.of_nat (List.length l).

(** [l[i]]: panics outside [0 <= i < len(l)]. *)
Definition index {A : Type} (l : list A) (i : Z) : result A :=
  if (i <? 0) || (llen l <=? i) then Panic "index out of range"
  else match nth_error l (Z.to_nat i) with
       | Some a => Ok a
       | None => Panic "index out of range"
       end.

(** [s[:n]]: panics outside [0 <= n <= len(s)]. *)
Definition slice_to (s : string) (n : Z) : result string :=
  if (n <? 0) || (len s <? n) then Panic "slice bounds out of range"
  else Ok (substring 0 (Z.to_nat n) s).

(** [fmt.Sprintf("%d", z)]. *)
Definition itoa (z : Z) : string := NilZero.string_of_int (Z.to_int z).

Definition digit_of (c : ascii) : option Z :=
  let n := Z.of_nat (nat_of_ascii c) in
  if (48 <=? n) && (n <=? 57) then Some (n - 48) else None.

Fixpoint atoi_digits (s : string) (acc : Z) : option Z :=
  match s with
  | EmptyString => Some acc
  | String c rest =>
      match digit_of c with
      | Some d => atoi_digits rest (10 * acc + d)
      | None => None
      end
  end.

(** [strconv.Atoi]: an optional sign and decimal digits that fit an
    [int]; [None] stands for a non-nil error. *)
Definition Atoi (s : string) : option Z :=
  let in_range (z : Z) :=
    if (- 2 ^ 63 <=? z) && (z <? 2 ^ 63) then Some z else None in
  match s with
  | EmptyString => None
  | String "+"%char EmptyString => None
  | String "-"%char EmptyString => None
  | String "+"%char rest =>
      match atoi_digits rest 0 with Some z => in_range z | None => None end
  | String "-"%char rest =>
      match atoi_digits rest 0 with Some z => in_range (- z) | None => None end
  | _ => match atoi_digits s 0 with Some z => in_range z | None => None end
  end.

(** [strings.HasPrefix] and [strings.TrimPrefix]. *)
Definition HasPrefix (s p : string) : bool := String.prefix p s.
Definition TrimPrefix (s p : string) : string :=
  if HasPrefix s p
  then substring (String.length p) (String.length s - String.length p) s
  else s.

(** [strings.Join]. *)
Fixpoint Join (l : list string) (sep : string) : string :=
  match l with
  | [] => ""
  | [s] => s
  | s :: rest => s ++ sep ++ Join rest sep
  end.

Definition nl : string := String (ascii_of_nat 10) "".

(** A decoded JSON value held in an [interface{}]: a string, an object,
    or any other value; a value that is not a string comes with the text
    [fmt.Sprintf("%v", val)] prints for it. *)
Inductive Value : Type :=
| VString (s : string)
| VMap (entries : list (string * Value)) (printed : string)
| VOther (printed : string).

Definition print_v (v : Value) : string :=
  match v with
  | VString s => s
  | VMap _ printed => printed
  | VOther printed => printed
  end.

(** [map[string]interface{}]; lookup takes the entry of the key. *)
Definition JSONMap : Type := list (string * Value).

Fixpoint lookup {V : Type} (m : list (string * V)) (key : string) : option V :=
  match m with
  | [] => None
  | (k, v) :: rest => if String.eqb k key then Some v else lookup rest key
  end.

(** ** [pkg/models] *)

Module models.

Definition SortOrder : Type := string.
Definition SortDateDesc : SortOrder := "date_desc".
Definition SortDateAsc : SortOrder := "date_asc".
Definition SortTitleAsc : SortOrder := "title_asc".
Definition SortTitleDesc : SortOrder := "title_desc".

Definition StateCompleted : string := "Completed".
Definition StateDownloaded : string := "Downloaded".
Definition StateSymlinked : string := "Symlinked".
Definition StateFailed : string := "Failed".
Definition StatePaused : string := "Paused".
Definition StateRequested : string := "Requested".

Record ItemsResponse : Type := {
  Success : bool;
  Items : list JSONMap;
  Page : Z;
  Limit : Z;
  TotalItems : Z;
  TotalPages : Z
}.

Record StateResponse : Type := {
  StatesSuccess : bool;
  StatesList : list string
}.

Record StatsResponse : Type := {
  StatsTotalItems : Z;
  TotalMovies : Z;
  TotalShows : Z;
  TotalSeasons : Z;
  TotalEpisodes : Z;
  TotalSymlinks : Z;
  IncompleteItems : Z;
  States : list (string * Z)
}.

(** [map[string]bool]; a [nil] map is [None]. *)
Definition ServicesResponse : Type := option (list (string * bool)).

Record RDUser : Type := {
  Username : string;
  UserType : string;
  Points : Z;
  Premium : Z
}.

Record LogsResponse : Type := { Logs : list string }.

Record Event : Type := {
  Type_ : string;
  Timestamp : string;
  Data : option JSONMap;
  Message : string
}.

End models.

(** ** Messages and commands *)

(** The result pair [(value, err)] a fetch delivers. *)
Inductive fetched (A : Type) : Type :=
| Fetched (a : A)
| Failed (err : string).
Arguments Fetched {A} a.
Arguments Failed {A} err.

Inductive Msg : Type :=
| WindowSizeMsg (Width Height : Z)
| KeyMsg (key : string)
| refreshMsg
| errorMsg (err : string)
| statsMsg (r : fetched (option models.StatsResponse))
| servicesMsg (r : fetched models.ServicesResponse)
| rdUserMsg (r : fetched (option models.RDUser))
| itemsMsg (r : fetched (option models.ItemsResponse))
| statesMsg (r : fetched (option models.StateResponse))
| itemDetailMsg (r : fetched (option JSONMap))
| itemStreamsMsg (r : fetched (option Value))
| settingsMsg (r : fetched (option Value))
| logsMsg (r : fetched (option models.LogsResponse))
| showItemDetailMsg (itemID : string)
| eventMsg (event : models.Event)
| eventsErrorMsg (err : string).

(** One asynchronous operation: what a non-nil [tea.Cmd] does when the
    runtime runs it.  A fetch reads its request parameters from the model
    it was made from at the time it runs. *)
Inductive Op : Type :=
| Quit
| EnterAltScreen
| fetchStats
| fetchServices
| fetchRDUser
| fetchItems
| fetchStates
| fetchItemDetail (itemID : string)
| fetchItemStreams (itemID : string)
| fetchSettings
| fetchLogs
| Tick (seconds : Z) (produces : Msg)
| showItemDetailCmd (itemID : string)
| Blink
| startEventStreaming
| listenForEvents
| Paste.

Definition Cmd : Type := list Op.

(** [tea.Batch]: nil commands vanish, the rest run together. *)
Definition Batch (cmds : list Cmd) : Cmd := List.concat cmds.

Definition is_tick (o : Op) : bool :=
  match o with Tick _ _ => true | _ => false end.

Definition is_fetch (o : Op) : bool :=
  match o with
  | fetchStats | fetchServices | fetchRDUser | fetchItems | fetchStates
  | fetchItemDetail _ | fetchItemStreams _ | fetchSettings | fetchLogs => true
  | _ => false
  end.

Definition count_ops (p : Op -> bool) (c : Cmd) : nat :=
  List.length (List.filter p c).

(** Keys of [table.DefaultKeyMap] in bubbles. *)
Definition table_keys : list string :=
  ["up"; "k"; "down"; "j"; "b"; "pgup"; "f"; "pgdown"; " ";
   "u"; "ctrl+u"; "d"; "ctrl+d"; "home"; "g"; "end"; "G"].

Definition mem (k : string) (l : list string) : bool :=
  existsb (String.eqb k) l.

(** ** Third-party widgets and library calls

    The bubbles widgets, lipgloss rendering and [time] are not part of
    the repository.  They are taken as an interface; the only behaviour
    assumed of them is that a table leaves itself alone, and returns no
    command, on a key outside its key map. *)
Class Deps : Type := {
  table_Model : Type;
  table_New : Z -> table_Model;
  table_SetHeight : table_Model -> Z -> table_Model;
  table_SetRows : table_Model -> list (list string) -> table_Model;
  table_Cursor : table_Model -> Z;
  table_Update : table_Model -> Msg -> table_Model * Cmd;
  table_View : table_Model -> string;
  table_Update_unbound :
    forall t k, mem k table_keys = false -> table_Update t (KeyMsg k) = (t, []);

  textinput_Model : Type;
  textinput_New : textinput_Model;
  textinput_SetWidth : textinput_Model -> Z -> textinput_Model;
  textinput_Width : textinput_Model -> Z;
  textinput_Value : textinput_Model -> string;
  textinput_SetValue : textinput_Model -> string -> textinput_Model;
  textinput_Focus : textinput_Model -> textinput_Model;
  textinput_Update : textinput_Model -> Msg -> textinput_Model * Cmd;
  textinput_View : textinput_Model -> string;

  viewport_Model : Type;
  viewport_New : Z -> Z -> viewport_Model;
  viewport_SetSize : viewport_Model -> Z -> Z -> viewport_Model;
  viewport_SetContent : viewport_Model -> string -> viewport_Model;
  viewport_GotoBottom : viewport_Model -> viewport_Model;
  viewport_Update : viewport_Model -> Msg -> viewport_Model * Cmd;
  viewport_View : viewport_Model -> string;

  (** [style.Width(w).Height(h).Render(s)] and [style.Render(s)]. *)
  Render_sized : Z -> Z -> string -> string;
  Render : string -> string;
  JoinVertical : list string -> string;
  JoinHorizontal : list string -> string;

  (** [json.Unmarshal([]byte(data), &event)] into a zero [models.Event]:
      the event when the error is nil. *)
  json_Unmarshal : string -> option models.Event;

  (** [time.Parse(time.RFC3339, s)] then [Format(layout)]; [None] when
      the parse fails. *)
  time_reformat : string -> string -> option string;
  (** [t.Format("15:04:05")] of a non-zero time. *)
  time_Format : Z -> string
}.

Notation "a == b" := (String.eqb a b) (at level 70, no associativity).

(** [getStringFromMap] of items.go. *)
Definition getStringFromMap (m : JSONMap) (key defaultValue : string) : string :=
  match lookup m key with
  | Some val => print_v val
  | None => defaultValue
  end.

(** [truncateString] of items.go. *)
Definition truncateString (s : string) (maxLen : Z) : result string :=
  if len s <=? maxLen then Ok s
  else head <- slice_to s (int_sub maxLen 3) ;; Ok (head ++ "...").

Definition min (a b : Z) : Z := if a <? b then a else b.

(** ** The media items screen (items.go) *)

Module ItemsModel.
Section WithDeps.
Context {deps : Deps}.

Record t : Type := mk {
  width : Z;
  height : Z;
  loading : bool;
  error : string;
  items : option models.ItemsResponse;
  states : option models.StateResponse;
  table : table_Model;
  searchInput : textinput_Model;
  currentPage : Z;
  pageSize : Z;
  searchQuery : string;
  filterState : string;
  sortOrder : models.SortOrder;
  showSearch : bool;
  lastUpdate : option Z;
  selectedItems : list string;
  showActions : bool
}.

Definition set_width (m : t) (v : Z) : t :=
  let 'mk _ b c d e f g h i j k l n o p q r := m in mk v b c d e f g h i j k l n o p q r.
Definition set_height (m : t) (v : Z) : t :=
  let 'mk a _ c d e f g h i j k l n o p q r := m in mk a v c d e f g h i j k l n o p q r.
Definition set_loading (m : t) (v : bool) : t :=
  let 'mk a b _ d e f g h i j k l n o p q r := m in mk a b v d e f g h i j k l n o p q r.
Definition set_error (m : t) (v : string) : t :=
  let 'mk a b c _ e f g h i j k l n o p q r := m in mk a b c v e f g h i j k l n o p q r.
Definition set_items (m : t) (v : option models.ItemsResponse) : t :=
  let 'mk a b c d _ f g h i j k l n o p q r := m in mk a b c d v f g h i j k l n o p q r.
Definition set_states (m : t) (v : option models.StateResponse) : t :=
  let 'mk a b c d e _ g h i j k l n o p q r := m in mk a b c d e v g h i j k l n o p q r.
Definition set_table (m : t) (v : table_Model) : t :=
  let 'mk a b c d e f _ h i j k l n o p q r := m in mk a b c d e f v h i j k l n o p q r.
Definition set_searchInput (m : t) (v : textinput_Model) : t :=
  let 'mk a b c d e f g _ i j k l n o p q r := m in mk a b c d e f g v i j k l n o p q r.
Definition set_currentPage (m : t) (v : Z) : t :=
  let 'mk a b c d e f g h _ j k l n o p q r := m in mk a b c d e f g h v j k l n o p q r.
Definition set_searchQuery (m : t) (v : string) : t :=
  let 'mk a b c d e f g h i j _ l n o p q r := m in mk a b c d e f g h i j v l n o p q r.
Definition set_filterState (m : t) (v : string) : t :=
  let 'mk a b c d e f g h i j k _ n o p q r := m in mk a b c d e f g h i j k v n o p q r.
Definition set_sortOrder (m : t) (v : models.SortOrder) : t :=
  let 'mk a b c d e f g h i j k l _ o p q r := m in mk a b c d e f g h i j k l v o p q r.
Definition set_showSearch (m : t) (v : bool) : t :=
  let 'mk a b c d e f g h i j k l n _ p q r := m in mk a b c d e f g h i j k l n v p q r.
Definition set_lastUpdate (m : t) (v : option Z) : t :=
  let 'mk a b c d e f g h i j k l n o _ q r := m in mk a b c d e f g h i j k l n o v q r.
Definition set_showActions (m : t) (v : bool) : t :=
  let 'mk a b c d e f g h i j k l n o p q _ := m in mk a b c d e f g h i j k l n o p q v.

(** [NewItemsModel]. *)
Definition New : t :=
  {| width := 0; height := 0; loading := true; error := "";
     items := None; states := None;
     table := table_New 20;
     searchInput := textinput_SetWidth textinput_New 50;
     currentPage := 1; pageSize := 50; searchQuery := ""; filterState := "";
     sortOrder := models.SortDateDesc; showSearch := false;
     lastUpdate := None; selectedItems := []; showActions := false |}.

Definition SetSize (m : t) (w h : Z) : t :=
  let m := set_width m w in
  let m := set_height m (int_sub h 3) in
  let m := set_table m (table_SetHeight (table m) (int_sub (height m) 10)) in
  set_searchInput m (textinput_SetWidth (searchInput m) (min (int_sub w 20) 80)).

Definition autoRefresh : Cmd := [Tick 30 refreshMsg].

Definition Init (m : t) : Cmd :=
  Batch [[fetchItems]; [fetchStates]; autoRefresh].

Definition row_of (item : JSONMap) : result (list string) :=
  let id := getStringFromMap item "id" "" in
  let title := getStringFromMap item "title" "Unknown" in
  let itemType := getStringFromMap item "type" "" in
  let state := getStringFromMap item "state" "" in
  let year := getStringFromMap item "year" "" in
  let updatedAt := getStringFromMap item "updated_at" "" in
  let updatedAt :=
    if updatedAt == "" then updatedAt
    else match time_reformat updatedAt "2006-01-02" with
         | Some formatted => formatted
         | None => updatedAt
         end in
  short <- truncateString title 38 ;;
  Ok [id; short; itemType; state; year; updatedAt].

Definition updateTable (m : t) : result t :=
  match items m with
  | None => Ok (set_table m (table_SetRows (table m) []))
  | Some r =>
      if llen (models.Items r) =? 0
      then Ok (set_table m (table_SetRows (table m) []))
      else rows <- mapM row_of (models.Items r) ;;
           Ok (set_table m (table_SetRows (table m) rows))
  end.

Definition next_filter (f : string) : string :=
  if f == "" then "Failed"
  else if f == "Failed" then "Completed"
  else if f == "Completed" then "Downloaded"
  else "".

Definition next_sort (s : models.SortOrder) : models.SortOrder :=
  if s == models.SortDateDesc then models.SortDateAsc
  else if s == models.SortDateAsc then models.SortTitleAsc
  else if s == models.SortTitleAsc then models.SortTitleDesc
  else if s == models.SortTitleDesc then models.SortDateDesc
  else s.

Definition digit_keys : list string :=
  ["1"; "2"; "3"; "4"; "5"; "6"; "7"; "8"; "9"].

(** The [switch msg.String()] of normal navigation: [Some] where a case
    returns, [None] where control reaches the table update below it. *)
Definition navigate (m : t) (k : string) : result (option (t * Cmd)) :=
  if mem k ["/"; "ctrl+f"] then
    let m := set_showSearch m true in
    let m := set_searchInput m (textinput_Focus (searchInput m)) in
    Ok (Some (m, [Blink]))
  else if k == "r" then
    Ok (Some (set_loading m true, [fetchItems]))
  else if mem k ["n"; "right"] then
    match items m with
    | Some r =>
        if currentPage m <? models.TotalPages r then
          let m := set_currentPage m (int_add (currentPage m) 1) in
          Ok (Some (set_loading m true, [fetchItems]))
        else Ok None
    | None => Ok None
    end
  else if mem k ["p"; "left"] then
    if currentPage m >? 1 then
      let m := set_currentPage m (int_sub (currentPage m) 1) in
      Ok (Some (set_loading m true, [fetchItems]))
    else Ok None
  else if mem k digit_keys then
    match Atoi k, items m with
    | Some page, Some r =>
        if page <=? models.TotalPages r then
          let m := set_currentPage m page in
          Ok (Some (set_loading m true, [fetchItems]))
        else Ok None
    | _, _ => Ok None
    end
  else if k == "a" then
    Ok (Some (set_showActions m (negb (showActions m)), []))
  else if k == "f" then
    let m := set_filterState m (next_filter (filterState m)) in
    let m := set_currentPage m 1 in
    Ok (Some (set_loading m true, [fetchItems]))
  else if k == "s" then
    let m := set_sortOrder m (next_sort (sortOrder m)) in
    let m := set_currentPage m 1 in
    Ok (Some (set_loading m true, [fetchItems]))
  else if k == "c" then
    let m := set_searchQuery m "" in
    let m := set_filterState m "" in
    let m := set_sortOrder m models.SortDateDesc in
    let m := set_currentPage m 1 in
    Ok (Some (set_loading m true, [fetchItems]))
  else if k == "enter" then
    match items m with
    | Some r =>
        if llen (models.Items r) >? 0 then
          let selectedRow := table_Cursor (table m) in
          if selectedRow <? llen (models.Items r) then
            item <- index (models.Items r) selectedRow ;;
            let itemID := getStringFromMap item "id" "" in
            if negb (itemID == "") then Ok (Some (m, [showItemDetailCmd itemID]))
            else Ok None
          else Ok None
        else Ok None
    | None => Ok None
    end
  else Ok None.

Definition Update (now : Z) (m : t) (msg : Msg) : result (t * Cmd) :=
  match msg with
  | itemsMsg r =>
      let m := set_loading m false in
      match r with
      | Failed err =>
          Ok (set_error m ("Failed to fetch items: " ++ err), Batch [])
      | Fetched its =>
          let m := set_items m its in
          let m := set_error m "" in
          m <- updateTable m ;; Ok (m, Batch [])
      end
  | statesMsg r =>
      match r with
      | Failed _ => Ok (m, Batch [])
      | Fetched sts => Ok (set_states m sts, Batch [])
      end
  | refreshMsg =>
      let m := set_lastUpdate m (Some now) in
      Ok (m, Batch [[fetchItems]; [fetchStates]; autoRefresh])
  | KeyMsg k =>
      if showSearch m then
        if k == "enter" then
          let m := set_searchQuery m (textinput_Value (searchInput m)) in
          let m := set_showSearch m false in
          let m := set_currentPage m 1 in
          Ok (m, [fetchItems])
        else if k == "esc" then
          let m := set_showSearch m false in
          let m := set_searchInput m (textinput_SetValue (searchInput m) "") in
          Ok (m, [])
        else
          let (input, cmd) := textinput_Update (searchInput m) msg in
          Ok (set_searchInput m input, cmd)
      else
        handled <- navigate m k ;;
        match handled with
        | Some out => Ok out
        | None =>
            let (tbl, cmd) := table_Update (table m) msg in
            Ok (set_table m tbl, Batch [cmd])
        end
  | _ => Ok (m, Batch [])
  end.

Definition renderLoading (m : t) : string :=
  Render_sized (width m) (height m) "Loading media items...".

Definition renderError (m : t) : string :=
  Render_sized (width m) (height m)
    ("Error: " ++ error m ++ nl ++ nl ++ "Press 'r' to refresh").

Definition sortName (s : models.SortOrder) : string :=
  if s == models.SortDateDesc then "Date v"
  else if s == models.SortDateAsc then "Date ^"
  else if s == models.SortTitleAsc then "Title ^"
  else if s == models.SortTitleDesc then "Title v"
  else "".

Definition renderItems (m : t) : result string :=
  let search :=
    if showSearch m then [Render (textinput_View (searchInput m))]
    else if negb (searchQuery m == "")
    then [Render ("Search: " ++ searchQuery m ++ " (Press '/' to search again)")]
    else [] in
  let tbl := [table_View (table m)] in
  let status :=
    match items m with
    | Some r =>
        let filter :=
          if negb (filterState m == "") then ["Filter: " ++ filterState m] else [] in
        let statusParts :=
          List.app filter
            ["Sort: " ++ sortName (sortOrder m);
             "Page " ++ itoa (currentPage m) ++ "/" ++ itoa (models.TotalPages r);
             itoa (models.TotalItems r) ++ " items"] in
        [Render (Join statusParts " | ");
         Render "Controls: [/] search [f] filter [s] sort [c] clear [n/p] page [a] actions [enter] details"]
    | None => []
    end in
  let actions :=
    if showActions m
    then [Render "Actions: [r]etry [R]eset [d]elete [p]ause [u]npause [ESC] close"]
    else [] in
  Ok (JoinVertical (List.concat [search; tbl; status; actions])).

Definition View (m : t) : result string :=
  if loading m then Ok (renderLoading m)
  else if negb (error m == "") then Ok (renderError m)
  else renderItems m.

End WithDeps.
End ItemsModel.

(** ** The dashboard screen *)

Module DashboardModel.
Section WithDeps.
Context {deps : Deps}.

Record t : Type := mk {
  width : Z;
  height : Z;
  loading : bool;
  error : string;
  stats : option models.StatsResponse;
  services : models.ServicesResponse;
  rdUser : option models.RDUser;
  lastUpdate : option Z
}.

Definition set_loading (m : t) (v : bool) : t :=
  let 'mk a b _ d e f g h := m in mk a b v d e f g h.
Definition set_error (m : t) (v : string) : t :=
  let 'mk a b c _ e f g h := m in mk a b c v e f g h.
Definition set_stats (m : t) (v : option models.StatsResponse) : t :=
  let 'mk a b c d _ f g h := m in mk a b c d v f g h.
Definition set_services (m : t) (v : models.ServicesResponse) : t :=
  let 'mk a b c d e _ g h := m in mk a b c d e v g h.
Definition set_rdUser (m : t) (v : option models.RDUser) : t :=
  let 'mk a b c d e f _ h := m in mk a b c d e f v h.
Definition set_lastUpdate (m : t) (v : option Z) : t :=
  let 'mk a b c d e f g _ := m in mk a b c d e f g v.

(** [NewDashboardModel]. *)
Definition New : t :=
  {| width := 0; height := 0; loading := true; error := "";
     stats := None; services := None; rdUser := None; lastUpdate := None |}.

Definition SetSize (m : t) (w h : Z) : t :=
  let 'mk _ _ c d e f g i := m in mk w (int_sub h 3) c d e f g i.

Definition autoRefresh : Cmd := [Tick 30 refreshMsg].

Definition Init (m : t) : Cmd :=
  Batch [[fetchStats]; [fetchServices]; [fetchRDUser]; autoRefresh].

Definition Update (now : Z) (m : t) (msg : Msg) : t * Cmd :=
  match msg with
  | statsMsg r =>
      let m := set_loading m false in
      match r with
      | Failed err => (set_error m ("Failed to fetch stats: " ++ err), [])
      | Fetched st => (set_error (set_stats m st) "", [])
      end
  | servicesMsg r =>
      match r with
      | Failed err => (set_error m ("Failed to fetch services: " ++ err), [])
      | Fetched sv => (set_services m sv, [])
      end
  | rdUserMsg r =>
      match r with
      | Failed _ => (m, [])
      | Fetched u => (set_rdUser m u, [])
      end
  | refreshMsg =>
      let m := set_lastUpdate m (Some now) in
      (m, Batch [[fetchStats]; [fetchServices]; [fetchRDUser]; autoRefresh])
  | _ => (m, [])
  end.

Definition renderLoading (m : t) : string :=
  Render_sized (width m) (height m) "Loading dashboard...".

Definition renderError (m : t) : string :=
  Render_sized (width m) (height m)
    ("Error: " ++ error m ++ nl ++ nl ++ "Press 'r' to refresh").

(** [m.stats.States[key]]: zero for a missing key or a nil map. *)
Definition state_count (st : models.StatsResponse) (key : string) : Z :=
  match lookup (models.States st) key with Some n => n | None => 0 end.

(** Dereferences [m.stats]. *)
Definition renderStats (m : t) : result string :=
  match stats m with
  | None => Panic "nil pointer dereference"
  | Some st =>
      let title := Render "System Statistics" in
      let content :=
        "Total Items: " ++ itoa (models.StatsTotalItems st) ++ nl ++
        "Movies: " ++ itoa (models.TotalMovies st) ++
        " | Shows: " ++ itoa (models.TotalShows st) ++
        " | Seasons: " ++ itoa (models.TotalSeasons st) ++
        " | Episodes: " ++ itoa (models.TotalEpisodes st) ++ nl ++
        "Symlinks: " ++ itoa (models.TotalSymlinks st) ++
        " | Incomplete: " ++ itoa (models.IncompleteItems st) ++ nl ++ nl ++
        "States:" ++ nl ++
        "  Completed: " ++ itoa (state_count st models.StateCompleted) ++
        " | Downloaded: " ++ itoa (state_count st models.StateDownloaded) ++
        " | Symlinked: " ++ itoa (state_count st models.StateSymlinked) ++ nl ++
        "  Failed: " ++ itoa (state_count st models.StateFailed) ++
        " | Paused: " ++ itoa (state_count st models.StatePaused) ++
        " | Requested: " ++ itoa (state_count st models.StateRequested) in
      Ok (JoinVertical [title; Render content])
  end.

(** Ranges over [m.services]; ranging over a nil map runs no
    iteration. *)
Definition renderServices (m : t) : string :=
  let title := Render "Services Status" in
  let entries := match services m with Some sv => sv | None => [] end in
  let serviceList :=
    List.map (fun e : string * bool =>
                let (service, status) := e in
                Render (if status then "up" else "down") ++ " " ++ service)
             entries in
  JoinVertical [title; Render (JoinVertical serviceList)].

(** Dereferences [m.rdUser]. *)
Definition renderRDUser (m : t) : result string :=
  match rdUser m with
  | None => Panic "nil pointer dereference"
  | Some u =>
      let title := Render "Real-Debrid User" in
      let premiumDays := Z.quot (models.Premium u) (24 * 60 * 60) in
      let content :=
        "Username: " ++ models.Username u ++ nl ++
        "Type: " ++ models.UserType u ++ nl ++
        "Points: " ++ itoa (models.Points u) ++ nl ++
        "Premium Days Left: " ++ itoa premiumDays in
      Ok (JoinVertical [title; Render content])
  end.

Definition renderLastUpdate (m : t) : string :=
  match lastUpdate m with
  | None => ""
  | Some at_ => Render ("Last updated: " ++ time_Format at_)
  end.

Definition renderDashboard (m : t) : result string :=
  s1 <- match stats m with
        | Some _ => r <- renderStats m ;; Ok [r]
        | None => Ok []
        end ;;
  let s2 := match services m with
            | Some _ => [renderServices m]
            | None => []
            end in
  s3 <- match rdUser m with
        | Some _ => r <- renderRDUser m ;; Ok [r]
        | None => Ok []
        end ;;
  let content :=
    JoinVertical (List.concat [s1; s2; s3; [renderLastUpdate m]]) in
  Ok (Render_sized (width m) (height m) content).

Definition View (m : t) : result string :=
  if loading m then Ok (renderLoading m)
  else if negb (error m == "") then Ok (renderError m)
  else renderDashboard m.

End WithDeps.
End DashboardModel.

(** ** The settings screen (settings.go) *)

(** [strings.ToUpper] on one ASCII byte. *)
Definition upper_ascii (c : ascii) : ascii :=
  let n := nat_of_ascii c in
  if (Nat.leb 97 n && Nat.leb n 122)%bool then ascii_of_nat (n - 32) else c.

Fixpoint ToUpper (s : string) : string :=
  match s with
  | EmptyString => EmptyString
  | String c rest => String (upper_ascii c) (ToUpper rest)
  end.

(** [s[n:]]: panics outside [0 <= n <= len(s)]. *)
Definition slice_from (s : string) (n : Z) : result string :=
  if (n <? 0) || (len s <? n) then Panic "slice bounds out of range"
  else Ok (substring (Z.to_nat n) (String.length s - Z.to_nat n) s).

Module SettingsModel.
Section WithDeps.
Context {deps : Deps}.

Record t : Type := mk {
  width : Z;
  height : Z;
  loading : bool;
  error : string;
  settings : option Value;
  lastUpdate : option Z
}.

Definition set_loading (m : t) (v : bool) : t :=
  let 'mk a b _ d e f := m in mk a b v d e f.
Definition set_error (m : t) (v : string) : t :=
  let 'mk a b c _ e f := m in mk a b c v e f.
Definition set_settings (m : t) (v : option Value) : t :=
  let 'mk a b c d _ f := m in mk a b c d v f.
Definition set_lastUpdate (m : t) (v : option Z) : t :=
  let 'mk a b c d e _ := m in mk a b c d e v.

(** [NewSettingsModel]. *)
Definition New : t :=
  {| width := 0; height := 0; loading := true; error := "";
     settings := None; lastUpdate := None |}.

Definition SetSize (m : t) (w h : Z) : t :=
  let 'mk _ _ c d e f := m in mk w (int_sub h 3) c d e f.

Definition autoRefresh : Cmd := [Tick 60 refreshMsg].

Definition Init (m : t) : Cmd := Batch [[fetchSettings]; autoRefresh].

Definition Update (now : Z) (m : t) (msg : Msg) : t * Cmd :=
  match msg with
  | settingsMsg r =>
      let m := set_loading m false in
      match r with
      | Failed err => (set_error m ("Failed to fetch settings: " ++ err), [])
      | Fetched st => (set_error (set_settings m st) "", [])
      end
  | refreshMsg =>
      let m := set_lastUpdate m (Some now) in
      (m, Batch [[fetchSettings]; autoRefresh])
  | KeyMsg k =>
      if k == "r" then (set_loading m true, [fetchSettings]) else (m, [])
  | _ => (m, [])
  end.

Definition renderLoading (m : t) : string :=
  Render_sized (width m) (height m) "Loading settings...".

Definition renderError (m : t) : string :=
  Render_sized (width m) (height m)
    ("Error: " ++ error m ++ nl ++ nl ++ "Press 'r' to refresh").

Definition categories : list string :=
  ["general"; "scraping"; "content"; "downloaders"; "indexers"].

(** One iteration of the loop over [categories]. *)
Definition category_line (settingsMap : JSONMap) (category : string)
  : result (list string) :=
  match lookup settingsMap category with
  | Some (VMap categoryMap _) =>
      first <- slice_to category 1 ;;
      rest <- slice_from category 1 ;;
      Ok ["- " ++ ToUpper first ++ rest ++ ": " ++ itoa (llen categoryMap)
          ++ " settings configured"]
  | _ => Ok []
  end.

Definition renderSettings (m : t) : result string :=
  let title := Render "Riven Settings" in
  content <-
    match settings m with
    | Some (VMap settingsMap _) =>
        lines <- mapM (category_line settingsMap) categories ;;
        let settingsInfo :=
          List.concat
            [["Current Settings Overview:"; ""];
             List.concat lines;
             [""; "Available Actions:";
              "- View detailed settings (coming soon)";
              "- Export settings configuration";
              "- Validate current settings";
              "";
              "Note: Settings editing requires the Riven web interface.";
              "Press 'r' to refresh settings."]] in
        Ok (Join settingsInfo nl)
    | Some _ =>
        Ok ("Settings loaded successfully!" ++ nl ++ nl ++
            "Note: Settings editing is read-only in this version." ++ nl ++
            "Use the Riven web interface to modify settings." ++ nl ++ nl ++
            "Press 'r' to refresh settings.")
    | None =>
        Ok ("No settings data available." ++ nl ++ nl ++ "Press 'r' to refresh.")
    end ;;
  let body := JoinVertical [title; Render_sized 0 (int_sub (height m) 8) content] in
  Ok (Render_sized (width m) (height m) body).

Definition View (m : t) : result string :=
  if loading m then Ok (renderLoading m)
  else if negb (error m == "") then Ok (renderError m)
  else renderSettings m.

End WithDeps.
End SettingsModel.

(** ** The logs screen *)

Module LogsModel.
Section WithDeps.
Context {deps : Deps}.

Record t : Type := mk {
  width : Z;
  height : Z;
  loading : bool;
  error : string;
  logs : option models.LogsResponse;
  viewport : viewport_Model
}.

Definition set_loading (m : t) (v : bool) : t :=
  let 'mk a b _ d e f := m in mk a b v d e f.
Definition set_error (m : t) (v : string) : t :=
  let 'mk a b c _ e f := m in mk a b c v e f.
Definition set_logs (m : t) (v : option models.LogsResponse) : t :=
  let 'mk a b c d _ f := m in mk a b c d v f.
Definition set_viewport (m : t) (v : viewport_Model) : t :=
  let 'mk a b c d e _ := m in mk a b c d e v.

(** [NewLogsModel]. *)
Definition New : t :=
  {| width := 0; height := 0; loading := true; error := "";
     logs := None; viewport := viewport_New 80 20 |}.

Definition SetSize (m : t) (w h : Z) : t :=
  let 'mk _ _ c d e vp := m in
  mk w (int_sub h 3) c d e (viewport_SetSize vp (int_sub w 8) (int_sub h 10)).

Definition Init (m : t) : Cmd := [fetchLogs].

Definition updateViewport (m : t) : t :=
  match logs m with
  | None => m
  | Some l =>
      let content := Join (models.Logs l) nl in
      set_viewport m (viewport_GotoBottom (viewport_SetContent (viewport m) content))
  end.

Definition Update (m : t) (msg : Msg) : t * Cmd :=
  let scroll (m : t) :=
    let (vp, cmd) := viewport_Update (viewport m) msg in
    (set_viewport m vp, cmd) in
  match msg with
  | KeyMsg k =>
      if k == "r" then (set_loading m true, [fetchLogs]) else scroll m
  | logsMsg r =>
      let m := set_loading m false in
      match r with
      | Failed err => scroll (set_error m ("Failed to fetch logs: " ++ err))
      | Fetched l => scroll (updateViewport (set_error (set_logs m l) ""))
      end
  | _ => scroll m
  end.

Definition renderLoading (m : t) : string :=
  Render_sized (width m) (height m) "Loading logs...".

Definition renderError (m : t) : string :=
  Render_sized (width m) (height m)
    ("Error: " ++ error m ++ nl ++ nl ++ "Press 'r' to refresh").

Definition renderLogs (m : t) : string :=
  let sections :=
    [Render "System Logs";
     viewport_View (viewport m);
     Render "Controls: up/down scroll | r refresh | j/k scroll line by line"] in
  Render_sized (width m) (height m) (JoinVertical sections).

Definition View (m : t) : string :=
  if loading m then renderLoading m
  else if negb (error m == "") then renderError m
  else renderLogs m.

End WithDeps.
End LogsModel.

(** ** The help screen (help.go) *)

Module HelpModel.
Section WithDeps.
Context {deps : Deps}.

Record t : Type := mk { width : Z; height : Z }.

Definition New : t := {| width := 0; height := 0 |}.

Definition SetSize (m : t) (w h : Z) : t := mk w (int_sub h 3).

Definition Init (m : t) : Cmd := [].

Definition Update (m : t) (msg : Msg) : t * Cmd := (m, []).

(** The three sections of static text are kept by their titles. *)
Definition View (m : t) : string :=
  let title := Render "Help & Keyboard Shortcuts" in
  let sections :=
    [Render "Keyboard Shortcuts"; Render "Navigation: ... Application: ...";
     Render "Screen-Specific Controls"; Render "Dashboard: ... Media Items: ... Logs: ...";
     Render "About"; Render "Riven TUI - Terminal User Interface for Riven Media Management"] in
  Render_sized (width m) (height m) (JoinVertical (title :: sections)).

End WithDeps.
End HelpModel.

(** ** The item detail screen (item_detail.go) *)

Module ItemDetailModel.
Section WithDeps.
Context {deps : Deps}.

Record t : Type := mk {
  width : Z;
  height : Z;
  loading : bool;
  error : string;
  itemID : string;
  itemData : option JSONMap;
  streams : option Value;
  activeTab : Z;
  streamsTable : table_Model;
  lastUpdate : option Z
}.

Definition set_loading (m : t) (v : bool) : t :=
  let 'mk a b _ d e f g h i j := m in mk a b v d e f g h i j.
Definition set_error (m : t) (v : string) : t :=
  let 'mk a b c _ e f g h i j := m in mk a b c v e f g h i j.
Definition set_itemData (m : t) (v : option JSONMap) : t :=
  let 'mk a b c d e _ g h i j := m in mk a b c d e v g h i j.
Definition set_streams (m : t) (v : option Value) : t :=
  let 'mk a b c d e f _ h i j := m in mk a b c d e f v h i j.
Definition set_activeTab (m : t) (v : Z) : t :=
  let 'mk a b c d e f g _ i j := m in mk a b c d e f g v i j.
Definition set_streamsTable (m : t) (v : table_Model) : t :=
  let 'mk a b c d e f g h _ j := m in mk a b c d e f g h v j.
Definition set_lastUpdate (m : t) (v : option Z) : t :=
  let 'mk a b c d e f g h i _ := m in mk a b c d e f g h i v.

(** [NewItemDetailModel]. *)
Definition New (id : string) : t :=
  {| width := 0; height := 0; loading := true; error := "";
     itemID := id; itemData := None; streams := None; activeTab := 0;
     streamsTable := table_New 15; lastUpdate := None |}.

Definition SetSize (m : t) (w h : Z) : t :=
  let 'mk _ _ c d e f g i tbl j := m in
  mk w (int_sub h 3) c d e f g i
     (table_SetHeight tbl (int_sub (int_sub h 3) 15)) j.

Definition autoRefresh : Cmd := [Tick 30 refreshMsg].

Definition Init (m : t) : Cmd :=
  Batch [[fetchItemDetail (itemID m)]; [fetchItemStreams (itemID m)]; autoRefresh].

Definition updateStreamsTable (m : t) : t :=
  set_streamsTable m
    (table_SetRows (streamsTable m)
       [["Sample Stream"; "1080p"; "2.5GB"; "Yes"; "100"]]).

Definition Update (now : Z) (m : t) (msg : Msg) : t * Cmd :=
  match msg with
  | itemDetailMsg r =>
      let m := set_loading m false in
      match r with
      | Failed err =>
          (set_error m ("Failed to fetch item details: " ++ err), Batch [])
      | Fetched d => (set_error (set_itemData m d) "", Batch [])
      end
  | itemStreamsMsg r =>
      match r with
      | Failed _ => (m, Batch [])
      | Fetched st => (updateStreamsTable (set_streams m st), Batch [])
      end
  | refreshMsg =>
      let m := set_lastUpdate m (Some now) in
      (m, Batch [[fetchItemDetail (itemID m)]; [fetchItemStreams (itemID m)];
                 autoRefresh])
  | KeyMsg k =>
      if k == "tab" then
        (set_activeTab m (Z.rem (int_add (activeTab m) 1) 3), [])
      else if k == "shift+tab" then
        (set_activeTab m (Z.rem (int_add (int_sub (activeTab m) 1) 3) 3), [])
      else if k == "r" then
        (set_loading m true,
         Batch [[fetchItemDetail (itemID m)]; [fetchItemStreams (itemID m)]])
      else if k == "1" then (set_activeTab m 0, [])
      else if k == "2" then (set_activeTab m 1, [])
      else if k == "3" then (set_activeTab m 2, [])
      else if activeTab m =? 1 then
        let (tbl, cmd) := table_Update (streamsTable m) msg in
        (set_streamsTable m tbl, Batch [cmd])
      else (m, Batch [])
  | _ => (m, Batch [])
  end.

Definition renderLoading (m : t) : string :=
  Render_sized (width m) (height m) "Loading item details...".

Definition renderError (m : t) : string :=
  Render_sized (width m) (height m)
    ("Error: " ++ error m ++ nl ++ nl ++ "Press 'r' to refresh").

Definition renderTabs (m : t) : string :=
  let tab (i : Z) (name : string) :=
    Render (name ++ " (" ++ itoa (i + 1) ++ ")") in
  Render (JoinHorizontal [tab 0 "Details"; tab 1 "Streams"; tab 2 "Actions"]).

Definition detail_field (d : JSONMap) (key label : string) : list string :=
  let v := getStringFromMap d key "" in
  if negb (v == "") then [label ++ v] else [].

Definition renderDetailsTab (m : t) : string :=
  match itemData m with
  | None => "No item data available."
  | Some d =>
      let overview := getStringFromMap d "overview" "" in
      let details :=
        List.concat
          [detail_field d "id" "ID: ";
           detail_field d "type" "Type: ";
           detail_field d "state" "State: ";
           detail_field d "year" "Year: ";
           detail_field d "tmdb_id" "TMDB ID: ";
           detail_field d "tvdb_id" "TVDB ID: ";
           detail_field d "imdb_id" "IMDB ID: ";
           if negb (overview == "") then [""; "Overview:"; overview] else []] in
      Render_sized 0 (int_sub (height m) 10) (Join details nl)
  end.

Definition renderStreamsTab (m : t) : string :=
  match streams m with
  | None => Render_sized 0 (int_sub (height m) 10) "No streams data available."
  | Some _ => table_View (streamsTable m)
  end.

Definition renderActionsTab (m : t) : string :=
  let actions :=
    ["Available Actions:"; "";
     "- Retry item processing"; "- Reset item state"; "- Pause/unpause item";
     "- Remove item"; "- Reindex item"; "";
     "Note: Action implementation coming soon."] in
  Render_sized 0 (int_sub (height m) 10) (Join actions nl).

Definition renderItemDetail (m : t) : string :=
  let title :=
    match itemData m with
    | Some d =>
        let itemTitle := getStringFromMap d "title" "" in
        if negb (itemTitle == "") then itemTitle else "Item Details"
    | None => "Item Details"
    end in
  let content :=
    if activeTab m =? 0 then renderDetailsTab m
    else if activeTab m =? 1 then renderStreamsTab m
    else if activeTab m =? 2 then renderActionsTab m
    else "" in
  JoinVertical
    [Render title; renderTabs m; content;
     Render "Controls: [1-3] tabs [tab] next tab [r] refresh [esc] back"].

Definition View (m : t) : string :=
  if loading m then renderLoading m
  else if negb (error m == "") then renderError m
  else renderItemDetail m.

End WithDeps.
End ItemDetailModel.

(** ** The application (App) *)

Inductive Screen : Type :=
| ScreenDashboard
| ScreenItems
| ScreenItemDetail
| ScreenSettings
| ScreenLogs
| ScreenHelp.

Definition Screen_eqb (a b : Screen) : bool :=
  match a, b with
  | ScreenDashboard, ScreenDashboard | ScreenItems, ScreenItems
  | ScreenItemDetail, ScreenItemDetail | ScreenSettings, ScreenSettings
  | ScreenLogs, ScreenLogs | ScreenHelp, ScreenHelp => true
  | _, _ => false
  end.

(** Keys of [DefaultKeyMap]; [key.Matches] compares [msg.String()] with
    the keys of a binding. *)
Module keys.
Definition Quit : list string := ["q"; "ctrl+c"].
Definition Dashboard : list string := ["d"].
Definition Items : list string := ["m"].
Definition Settings : list string := ["s"].
Definition Logs : list string := ["l"].
Definition Help : list string := ["?"].
End keys.

Module App.
Section WithDeps.
Context {deps : Deps}.

Record t : Type := mk {
  currentScreen : Screen;
  width : Z;
  height : Z;
  dashboard : DashboardModel.t;
  items : ItemsModel.t;
  itemDetail : option ItemDetailModel.t;
  settings : SettingsModel.t;
  logs : LogsModel.t;
  help : HelpModel.t;
  showHelp : bool;
  showConfirm : bool;
  lastError : string
}.

Definition set_currentScreen (a : t) (v : Screen) : t :=
  let 'mk _ b c d e f g h i j k l := a in mk v b c d e f g h i j k l.
Definition set_dashboard (a : t) (v : DashboardModel.t) : t :=
  let 'mk s b c _ e f g h i j k l := a in mk s b c v e f g h i j k l.
Definition set_items (a : t) (v : ItemsModel.t) : t :=
  let 'mk s b c d _ f g h i j k l := a in mk s b c d v f g h i j k l.
Definition set_itemDetail (a : t) (v : option ItemDetailModel.t) : t :=
  let 'mk s b c d e _ g h i j k l := a in mk s b c d e v g h i j k l.
Definition set_settings (a : t) (v : SettingsModel.t) : t :=
  let 'mk s b c d e f _ h i j k l := a in mk s b c d e f v h i j k l.
Definition set_logs (a : t) (v : LogsModel.t) : t :=
  let 'mk s b c d e f g _ i j k l := a in mk s b c d e f g v i j k l.
Definition set_help (a : t) (v : HelpModel.t) : t :=
  let 'mk s b c d e f g h _ j k l := a in mk s b c d e f g h v j k l.

(** [NewApp]. *)
Definition New : t :=
  {| currentScreen := ScreenDashboard; width := 0; height := 0;
     dashboard := DashboardModel.New; items := ItemsModel.New;
     itemDetail := None; settings := SettingsModel.New;
     logs := LogsModel.New; help := HelpModel.New;
     showHelp := false; showConfirm := false; lastError := "" |}.

Definition Init (a : t) : Cmd :=
  Batch [DashboardModel.Init (dashboard a); [EnterAltScreen]].

(** The [switch a.currentScreen] that ends [Update]. *)
Definition updateCurrent (now : Z) (a : t) (msg : Msg) : result (t * Cmd) :=
  match currentScreen a with
  | ScreenDashboard =>
      let (m, cmd) := DashboardModel.Update now (dashboard a) msg in
      Ok (set_dashboard a m, Batch [cmd])
  | ScreenItems =>
      out <- ItemsModel.Update now (items a) msg ;;
      let (m, cmd) := out : ItemsModel.t * Cmd in
      Ok (set_items a m, Batch [cmd])
  | ScreenItemDetail =>
      match itemDetail a with
      | Some d =>
          let (m, cmd) := ItemDetailModel.Update now d msg in
          Ok (set_itemDetail a (Some m), Batch [cmd])
      | None => Ok (a, Batch [])
      end
  | ScreenSettings =>
      let (m, cmd) := SettingsModel.Update now (settings a) msg in
      Ok (set_settings a m, Batch [cmd])
  | ScreenLogs =>
      let (m, cmd) := LogsModel.Update (logs a) msg in
      Ok (set_logs a m, Batch [cmd])
  | ScreenHelp =>
      let (m, cmd) := HelpModel.Update (help a) msg in
      Ok (set_help a m, Batch [cmd])
  end.

Definition resize (a : t) (w h : Z) : t :=
  let 'mk s _ _ d e f g l hp j k le := a in
  mk s w h (DashboardModel.SetSize d w h) (ItemsModel.SetSize e w h) f
     (SettingsModel.SetSize g w h) (LogsModel.SetSize l w h)
     (HelpModel.SetSize hp w h) j k le.

Definition Update (now : Z) (a : t) (msg : Msg) : result (t * Cmd) :=
  match msg with
  | WindowSizeMsg w h => updateCurrent now (resize a w h) msg
  | KeyMsg k =>
      if (k == "esc") && Screen_eqb (currentScreen a) ScreenItemDetail then
        Ok (set_currentScreen a ScreenItems, [])
      else if mem k keys.Quit then Ok (a, [Quit])
      else if mem k keys.Dashboard then
        let a := set_currentScreen a ScreenDashboard in
        Ok (a, DashboardModel.Init (dashboard a))
      else if mem k keys.Items then
        let a := set_currentScreen a ScreenItems in
        Ok (a, ItemsModel.Init (items a))
      else if mem k keys.Settings then
        let a := set_currentScreen a ScreenSettings in
        Ok (a, SettingsModel.Init (settings a))
      else if mem k keys.Logs then
        let a := set_currentScreen a ScreenLogs in
        Ok (a, LogsModel.Init (logs a))
      else if mem k keys.Help then
        Ok (set_currentScreen a ScreenHelp, [])
      else updateCurrent now a msg
  | showItemDetailMsg id =>
      let d := ItemDetailModel.SetSize (ItemDetailModel.New id) (width a) (height a) in
      let a := set_itemDetail a (Some d) in
      let a := set_currentScreen a ScreenItemDetail in
      Ok (a, ItemDetailModel.Init d)
  | _ => updateCurrent now a msg
  end.

Definition nav_tabs : list (Screen * string * string) :=
  [(ScreenDashboard, "Dashboard", "d"); (ScreenItems, "Media", "m");
   (ScreenItemDetail, "Detail", ""); (ScreenSettings, "Settings", "s");
   (ScreenLogs, "Logs", "l"); (ScreenHelp, "Help", "?")].

Definition renderNavBar (a : t) : string :=
  let tab (e : Screen * string * string) : list string :=
    let '(screen, name, key) := e in
    if Screen_eqb screen ScreenItemDetail
       && negb (Screen_eqb (currentScreen a) ScreenItemDetail)
    then []
    else [Render (name ++ " (" ++ key ++ ")")] in
  Render_sized (width a) 0 (JoinHorizontal (List.flat_map tab nav_tabs)).

Definition View (a : t) : result string :=
  if (width a =? 0) || (height a =? 0) then Ok "Loading..."
  else
    content <-
      match currentScreen a with
      | ScreenDashboard => DashboardModel.View (dashboard a)
      | ScreenItems => ItemsModel.View (items a)
      | ScreenItemDetail =>
          match itemDetail a with
          | Some d => Ok (ItemDetailModel.View d)
          | None => Ok "Item detail not available"
          end
      | ScreenSettings => SettingsModel.View (settings a)
      | ScreenLogs => Ok (LogsModel.View (logs a))
      | ScreenHelp => Ok (HelpModel.View (help a))
      end ;;
    Ok (JoinVertical [renderNavBar a; content]).

(** The loop: messages handled in the order given, each at its time;
    the state reached and the operations emitted on the way. *)
Fixpoint run (a : t) (msgs : list (Z * Msg)) : result (t * Cmd) :=
  match msgs with
  | [] => Ok (a, [])
  | (now, msg) :: rest =>
      out <- Update now a msg ;;
      later <- run (fst out) rest ;;
      Ok (fst later, List.app (snd out) (snd later))
  end.

End WithDeps.
End App.

(** ** The event stream client ([Client.StreamEventsSSE]) *)

(** A buffered channel [make(chan models.Event, capacity)]: the queued
    events, oldest first. *)
Record Chan : Type := {
  buf : list models.Event;
  capacity : Z
}.

Definition make_chan (capacity : Z) : Chan := {| buf := []; capacity := capacity |}.

(** A send can proceed only while the buffer has room. *)
Definition can_send (c : Chan) : bool := llen (buf c) <? capacity c.

Definition send (c : Chan) (e : models.Event) : Chan :=
  {| buf := List.app (buf c) [e]; capacity := capacity c |}.

Module Client.
Section WithDeps.
Context {deps : Deps}.

(** What the HTTP exchange turns out to be: [httpClient.Do] fails, or a
    response arrives with a status code and a body that the scanner
    cuts into lines until the end of the stream or a read error. *)
Inductive Exchange : Type :=
| DoFailed (err : string)
| Responded (StatusCode : Z) (body : list string) (scanErr : option string).

(** Where the call stands: in the scan loop with the lines still to
    come, blocked in the [select] with a decoded event in hand, or
    returned with its error. *)
Inductive Reader : Type :=
| Scanning (lines : list string) (scanErr : option string)
| Sending (event : models.Event) (lines : list string) (scanErr : option string)
| Returned (err : option string).

(** From the call to the first [scanner.Scan()]. *)
Definition StreamEventsSSE (x : Exchange) : Reader :=
  match x with
  | DoFailed err => Returned (Some err)
  | Responded StatusCode body scanErr =>
      if negb (StatusCode =? 200)
      then Returned (Some ("event stream failed with status: " ++ itoa StatusCode))
      else Scanning body scanErr
  end.

(** The body of the scan loop up to the [select]. *)
Definition scan_line (line : string) : option models.Event :=
  if HasPrefix line "data: " then
    let data := TrimPrefix line "data: " in
    json_Unmarshal data
  else None.

(** One iteration of [for scanner.Scan()] up to the [select], or the
    return after the loop. *)
Definition scan (lines : list string) (scanErr : option string) : Reader :=
  match lines with
  | [] => Returned scanErr
  | line :: rest =>
      match scan_line line with
      | Some event => Sending event rest scanErr
      | None => Scanning rest scanErr
      end
  end.

(** The reader goroutine, the channel, what the consumer has taken off
    it so far, and whether [ctx] is cancelled. *)
Record System : Type := {
  reader : Reader;
  eventChan : Chan;
  received : list models.Event;
  ctx_done : bool
}.

(** The interleavings of the reader with its consumer and with
    cancellation.  The send case of the [select] needs room in the
    channel, the [ctx.Done()] case needs a cancelled context; with
    neither the reader has no step and stays blocked. *)
Inductive step : System -> System -> Prop :=
| step_scan : forall lines scanErr ch rc d,
    step {| reader := Scanning lines scanErr; eventChan := ch;
            received := rc; ctx_done := d |}
         {| reader := scan lines scanErr; eventChan := ch;
            received := rc; ctx_done := d |}
| step_send : forall e lines scanErr ch rc d,
    can_send ch = true ->
    step {| reader := Sending e lines scanErr; eventChan := ch;
            received := rc; ctx_done := d |}
         {| reader := Scanning lines scanErr; eventChan := send ch e;
            received := rc; ctx_done := d |}
| step_ctx_done : forall e lines scanErr ch rc,
    step {| reader := Sending e lines scanErr; eventChan := ch;
            received := rc; ctx_done := true |}
         {| reader := Returned (Some "context canceled"); eventChan := ch;
            received := rc; ctx_done := true |}
| step_receive : forall r e queued cap rc d,
    step {| reader := r; eventChan := {| buf := e :: queued; capacity := cap |};
            received := rc; ctx_done := d |}
         {| reader := r; eventChan := {| buf := queued; capacity := cap |};
            received := List.app rc [e]; ctx_done := d |}
| step_cancel : forall r ch rc,
    step {| reader := r; eventChan := ch; received := rc; ctx_done := false |}
         {| reader := r; eventChan := ch; received := rc; ctx_done := true |}.

Inductive steps : System -> System -> Prop :=
| steps_refl : forall s, steps s s
| steps_step : forall s1 s2 s3, steps s1 s2 -> step s2 s3 -> steps s1 s3.

(** The call on a response, with a fresh channel. *)
Definition start (x : Exchange) (capacity : Z) : System :=
  {| reader := StreamEventsSSE x; eventChan := make_chan capacity;
     received := []; ctx_done := false |}.

End WithDeps.
End Client.

(** ** The events screen *)

Module EventsModel.
Section WithDeps.
Context {deps : Deps}.

Record t : Type := mk {
  width : Z;
  height : Z;
  loading : bool;
  error : string;
  events : list models.Event;
  eventsTable : table_Model;
  maxEvents : Z;
  eventChan : Chan;
  streaming : bool;
  lastUpdate : option Z
}.

Definition set_error (m : t) (v : string) : t :=
  let 'mk a b c _ e f g h i j := m in mk a b c v e f g h i j.
Definition set_events (m : t) (v : list models.Event) : t :=
  let 'mk a b c d _ f g h i j := m in mk a b c d v f g h i j.
Definition set_eventsTable (m : t) (v : table_Model) : t :=
  let 'mk a b c d e _ g h i j := m in mk a b c d e v g h i j.
Definition set_streaming (m : t) (v : bool) : t :=
  let 'mk a b c d e f g h _ j := m in mk a b c d e f g h v j.
Definition set_lastUpdate (m : t) (v : option Z) : t :=
  let 'mk a b c d e f g h i _ := m in mk a b c d e f g h i v.

(** [NewEventsModel]. *)
Definition New : t :=
  {| width := 0; height := 0; loading := false; error := "";
     events := []; eventsTable := table_New 20; maxEvents := 100;
     eventChan := make_chan 50; streaming := false; lastUpdate := None |}.

Definition Init (m : t) : Cmd := Batch [[startEventStreaming]; [listenForEvents]].

Definition addEvent (now : Z) (m : t) (event : models.Event) : t :=
  let all := event :: events m in
  let kept :=
    if llen all >? maxEvents m then firstn (Z.to_nat (maxEvents m)) all else all in
  set_lastUpdate (set_events m kept) (Some now).

Definition shorten (s : string) (n : Z) : result string :=
  if len s >? n then head <- slice_to s n ;; Ok (head ++ "...") else Ok s.

Definition event_row (event : models.Event) : result (list string) :=
  let timestamp :=
    match time_reformat (models.Timestamp event) "15:04:05" with
    | Some formatted => formatted
    | None => models.Timestamp event
    end in
  eventType <- shorten (models.Type_ event) 12 ;;
  let message :=
    if models.Message event == "" then "No message" else models.Message event in
  message <- shorten message 47 ;;
  dataStr <-
    match models.Data event with
    | Some data =>
        if llen data >? 0 then
          let dataParts :=
            List.map (fun kv : string * Value =>
                        fst kv ++ ":" ++ print_v (snd kv)) data in
          shorten (Join dataParts ", ") 27
        else Ok ""
    | None => Ok ""
    end ;;
  Ok [timestamp; eventType; message; dataStr].

Definition updateEventsTable (m : t) : result t :=
  rows <- mapM event_row (events m) ;;
  Ok (set_eventsTable m (table_SetRows (eventsTable m) rows)).

Definition Update (now : Z) (m : t) (msg : Msg) : result (t * Cmd) :=
  let browse (m : t) :=
    let (tbl, cmd) := table_Update (eventsTable m) msg in
    (set_eventsTable m tbl, Batch [cmd]) in
  match msg with
  | eventMsg event =>
      m <- updateEventsTable (addEvent now m event) ;; Ok (m, Batch [])
  | eventsErrorMsg err =>
      let m := set_error m ("Event streaming error: " ++ err) in
      let m := set_streaming m false in
      Ok (m, [Tick 5 (KeyMsg "r")])
  | KeyMsg k =>
      if k == "r" then
        Ok (set_error m "", Batch [[startEventStreaming]; [listenForEvents]])
      else if k == "c" then
        m <- updateEventsTable (set_events m []) ;; Ok (m, [])
      else if k == "s" then
        if streaming m then Ok (browse (set_streaming m false))
        else Ok (m, Batch [[startEventStreaming]; [listenForEvents]])
      else Ok (browse m)
  | _ => Ok (m, Batch [])
  end.

(** Running the [startEventStreaming] command to the end of the
    goroutine it starts, on what [StreamEventsSSE] returned and on
    whether [ctx] was cancelled by then: the model afterwards and the
    message the command delivers ([None] for a nil message). *)
Definition run_startEventStreaming
    (m : t) (returned : option string) (ctx_done : bool) : t * option Msg :=
  let m := set_streaming m true in
  let m :=
    match returned with
    | Some _ => if ctx_done then m else set_streaming m false
    | None => m
    end in
  (m, None).

End WithDeps.
End EventsModel.

(** The message an operation delivers when the message does not depend
    on the outside world: [showItemDetailCmd] and [tea.Tick]. *)
Definition delivers (o : Op) : option Msg :=
  match o with
  | showItemDetailCmd itemID => Some (showItemDetailMsg itemID)
  | Tick _ produces => Some produces
  | _ => None
  end.

(** ** The stream protocol in the words of the specification

    Lines beginning with the literal prefix [data: ] carry one
    JSON-encoded event each; every other line is ignored; a line whose
    payload does not decode is skipped. *)
Section Protocol.
Context {deps : Deps}.

Definition payload (line : string) : string :=
  substring 6 (String.length line - 6) line.

Definition decodable (line : string) : bool :=
  HasPrefix line "data: " &&
  match json_Unmarshal (payload line) with Some _ => true | None => false end.

Fixpoint expected_events (lines : list string) : list models.Event :=
  match lines with
  | [] => []
  | line :: rest =>
      if HasPrefix line "data: " then
        match json_Unmarshal (payload line) with
        | Some event => event :: expected_events rest
        | None => expected_events rest
        end
      else expected_events rest
  end.

(** The events a reader still owes the channel. *)
Definition owed (r : Client.Reader) : list models.Event :=
  match r with
  | Client.Scanning lines _ => expected_events lines
  | Client.Sending event lines _ => event :: expected_events lines
  | Client.Returned _ => []
  end.

End Protocol.

(** ** An implementation of the widget interface

    A plain implementation of [Deps], used to run the program on
    concrete inputs: a table that moves a cursor over its rows, a text
    input that appends typed characters, a viewport that keeps its
    content, renderers that return their text, and a decoder that
    accepts a payload opening a JSON object. *)
Module Simple.

Record table : Type := {
  cursor : Z;
  rows : list (list string);
  theight : Z
}.

Definition clamp (v low high : Z) : Z := Z.min (Z.max v low) high.

Definition move (t : table) (by_ : Z) : table :=
  {| cursor := clamp (cursor t + by_) 0 (llen (rows t) - 1);
     rows := rows t; theight := theight t |}.

Definition table_update (t : table) (msg : Msg) : table * Cmd :=
  match msg with
  | KeyMsg k =>
      if mem k table_keys then
        if mem k ["up"; "k"] then (move t (-1), [])
        else if mem k ["down"; "j"] then (move t 1, [])
        else if mem k ["b"; "pgup"] then (move t (- theight t), [])
        else if mem k ["f"; "pgdown"; " "] then (move t (theight t), [])
        else if mem k ["u"; "ctrl+u"] then (move t (- (theight t / 2)), [])
        else if mem k ["d"; "ctrl+d"] then (move t (theight t / 2), [])
        else if mem k ["home"; "g"] then (move t (- cursor t), [])
        else (move t (llen (rows t)), [])
      else (t, [])
  | _ => (t, [])
  end.

Definition table_unbound :
  forall t k, mem k table_keys = false -> table_update t (KeyMsg k) = (t, []).
Proof. intros t k H. unfold table_update. rewrite H. reflexivity. Qed.

Record input : Type := {
  value : string;
  iwidth : Z;
  focused : bool
}.

Definition input_update (i : input) (msg : Msg) : input * Cmd :=
  match msg with
  | KeyMsg k =>
      if Nat.eqb (String.length k) 1
      then ({| value := value i ++ k; iwidth := iwidth i; focused := focused i |}, [])
      else (i, [])
  | _ => (i, [])
  end.

Record viewport : Type := {
  content : string;
  vwidth : Z;
  vheight : Z
}.

Definition unmarshal (data : string) : option models.Event :=
  if HasPrefix data "{"
  then Some {| models.Type_ := "x"; models.Timestamp := "t";
               models.Data := Some []; models.Message := "" |}
  else None.

Definition deps : Deps := {|
  table_Model := table;
  table_New := fun h => {| cursor := 0; rows := []; theight := h |};
  table_SetHeight := fun t h => {| cursor := cursor t; rows := rows t; theight := h |};
  table_SetRows := fun t r => {| cursor := cursor t; rows := r; theight := theight t |};
  table_Cursor := cursor;
  table_Update := table_update;
  table_View := fun t => Join (List.map (fun r => Join r " ") (rows t)) nl;
  table_Update_unbound := table_unbound;
  textinput_Model := input;
  textinput_New := {| value := ""; iwidth := 0; focused := false |};
  textinput_SetWidth := fun i w => {| value := value i; iwidth := w; focused := focused i |};
  textinput_Width := iwidth;
  textinput_Value := value;
  textinput_SetValue := fun i v => {| value := v; iwidth := iwidth i; focused := focused i |};
  textinput_Focus := fun i => {| value := value i; iwidth := iwidth i; focused := true |};
  textinput_Update := input_update;
  textinput_View := value;
  viewport_Model := viewport;
  viewport_New := fun w h => {| content := ""; vwidth := w; vheight := h |};
  viewport_SetSize := fun v w h => {| content := content v; vwidth := w; vheight := h |};
  viewport_SetContent := fun v c => {| content := c; vwidth := vwidth v; vheight := vheight v |};
  viewport_GotoBottom := fun v => v;
  viewport_Update := fun v _ => (v, []);
  viewport_View := content;
  Render_sized := fun _ _ s => s;
  Render := fun s => s;
  JoinVertical := fun l => Join l nl;
  JoinHorizontal := fun l => Join l "";
  json_Unmarshal := unmarshal;
  time_reformat := fun _ _ => None;
  time_Format := itoa
|}.

(** A page of two items, the second with id 42, out of three pages. *)
Definition page : models.ItemsResponse :=
  {| models.Success := true;
     models.Items :=
       [[("id", VOther "7"); ("title", VString "Alien")];
        [("id", VOther "42"); ("title", VString "The Matrix")]];
     models.Page := 1; models.Limit := 50;
     models.TotalItems := 102; models.TotalPages := 3 |}.

(** The program started, resized, switched to the item list, and the
    first page received. *)
Definition browsing : result (@App.t deps * Cmd) :=
  App.run (@App.New deps)
    [(0, WindowSizeMsg 120 40); (1, KeyMsg "m"); (2, itemsMsg (Fetched (Some page)))].

(** From there back on the dashboard. *)
Definition away : result (@App.t deps * Cmd) :=
  out <- browsing ;; App.run (fst out) [(3, KeyMsg "d")].

(** From [browsing] with the search entry open. *)
Definition searching : result (@App.t deps * Cmd) :=
  out <- browsing ;; App.run (fst out) [(3, KeyMsg "/")].

Definition state_of (r : result (@App.t deps * Cmd)) : @App.t deps :=
  match r with Ok (a, _) => a | Panic _ => App.New end.

Definition searching_app : @App.t deps := state_of searching.

Definition away_app : @App.t deps := state_of away.

(** From [browsing] with the cursor moved down to the second row, and
    from there into the detail of that row. *)
Definition on_second_row : @App.t deps :=
  state_of (out <- browsing ;; App.run (fst out) [(3, KeyMsg "j")]).

Definition in_detail : @App.t deps :=
  state_of (App.run on_second_row [(5, showItemDetailMsg "42")]).

(** The item list on its first and on its last page. *)
Definition first_page : @ItemsModel.t deps := App.items (state_of browsing).

Definition last_page : @ItemsModel.t deps :=
  ItemsModel.set_currentPage first_page 3.

(** The JSON text of the one-event example, written without a literal
    quote character. *)
Definition q : string := String (ascii_of_nat 34) "".
Definition example_line : string :=
  "data: {" ++ q ++ "type" ++ q ++ ":" ++ q ++ "x" ++ q ++ "," ++
  q ++ "timestamp" ++ q ++ ":" ++ q ++ "t" ++ q ++ "," ++
  q ++ "data" ++ q ++ ":{}}".

Definition example_event : models.Event :=
  {| models.Type_ := "x"; models.Timestamp := "t";
     models.Data := Some []; models.Message := "" |}.

(** The reader two steps into a body of one event line: the event
    decoded and queued. *)
Definition one_queued : Client.System :=
  {| Client.reader := Client.Scanning [] None;
     Client.eventChan := {| buf := [example_event]; capacity := 50 |};
     Client.received := []; Client.ctx_done := false |}.

End Simple.

(** What handling a timer tick must emit, given the operations of the
    screen's init: the same operations, among them one timer of the given
    period that delivers the next tick, and besides it only fetches. *)
Definition rearms (init cmd : Cmd) (period : Z) : Prop :=
  cmd = init
  /\ List.filter is_tick cmd = [Tick period refreshMsg]
  /\ count_ops is_tick cmd = 1%nat
  /\ count_ops (fun o => negb (is_tick o || is_fetch o)) cmd = 0%nat.

(** What holds of the reader, its channel and its consumer at every
    point of a run on a body whose scanner ends with [scanErr]: the
    channel keeps its capacity and is never fuller than that, and while
    the context is not cancelled the events received, queued and still
    owed are, in this order, the events of the body. *)
Definition stream_invariant {deps : Deps}
    (cap : Z) (scanErr : option string) (all : list models.Event)
    (s : Client.System) : Prop :=
  capacity (Client.eventChan s) = cap
  /\ llen (buf (Client.eventChan s)) <= cap
  /\ (Client.ctx_done s = false ->
      List.app (Client.received s)
        (List.app (buf (Client.eventChan s)) (owed (Client.reader s))) = all
      /\ match Client.reader s with
         | Client.Scanning _ e | Client.Sending _ _ e | Client.Returned e =>
             e = scanErr
         end).

(** What a run shows to the outside: the frame rendered from the state
    reached and the operations emitted. *)
Definition observe {deps : Deps} (r : result (App.t * Cmd))
  : result (result string * Cmd) :=
  match r with
  | Ok (a, c) => Ok (App.View a, c)
  | Panic w => Panic w
  end.

(** Every key with a global binding in [App.Update]. *)
Definition global_keys : list string :=
  List.concat [keys.Quit; keys.Dashboard; keys.Items; keys.Settings; keys.Logs; keys.Help].

(** ** Requests of the item list ([ItemsModel.fetchItems], [Client.GetItems]) *)

Module api.

Record ItemsParams : Type := {
  Limit : option Z;
  Page : option Z;
  Type_ : option string;
  States : option string;
  Sort : option models.SortOrder;
  Search : option string;
  Extended : option bool;
  IsAnime : option bool
}.

(** [url.Values] with one value per key; [Set] replaces the value of a
    key that is present and adds the key otherwise. *)
Definition Values : Type := list (string * string).

Fixpoint Values_Set (v : Values) (key value : string) : Values :=
  match v with
  | [] => [(key, value)]
  | (k, x) :: rest =>
      if k == key then (k, value) :: rest else (k, x) :: Values_Set rest key value
  end.

Definition FormatBool (b : bool) : string := if b then "true" else "false".

Definition set_if {A : Type} (field : option A) (key : string)
    (show : A -> string) (query : Values) : Values :=
  match field with
  | Some x => Values_Set query key (show x)
  | None => query
  end.

(** The query [GetItems] builds from its parameters, before
    [query.Encode()]. *)
Definition GetItems_query (params : ItemsParams) : Values :=
  let query := [] in
  let query := set_if (Limit params) "limit" itoa query in
  let query := set_if (Page params) "page" itoa query in
  let query := set_if (Type_ params) "type" (fun x => x) query in
  let query := set_if (States params) "states" (fun x => x) query in
  let query := set_if (Sort params) "sort" (fun x => x) query in
  let query := set_if (Search params) "search" (fun x => x) query in
  let query := set_if (Extended params) "extended" FormatBool query in
  set_if (IsAnime params) "is_anime" FormatBool query.

(** The request path of [GetItems], given [url.Values.Encode]. *)
Definition GetItems_path (Encode : Values -> string) (params : option ItemsParams)
  : string :=
  match params with
  | Some p =>
      let query := GetItems_query p in
      if llen query >? 0 then "/api/v1/items" ++ "?" ++ Encode query
      else "/api/v1/items"
  | None => "/api/v1/items"
  end.

End api.

(** The parameters the [fetchItems] command passes to [GetItems] when it
    runs on the model [m]. *)
Definition fetchItems_params {deps : Deps} (m : ItemsModel.t) : api.ItemsParams :=
  {| api.Limit := Some (ItemsModel.pageSize m);
     api.Page := Some (ItemsModel.currentPage m);
     api.Type_ := None;
     api.States :=
       if negb (ItemsModel.filterState m == "")
       then Some (ItemsModel.filterState m) else None;
     api.Sort := Some (ItemsModel.sortOrder m);
     api.Search :=
       if negb (ItemsModel.searchQuery m == "")
       then Some (ItemsModel.searchQuery m) else None;
     api.Extended := None;
     api.IsAnime := None |}.

(** Key presses handled one after the other by the item list. *)
Fixpoint press_keys {deps : Deps} (now : Z) (m : ItemsModel.t) (ks : list string)
  : result (ItemsModel.t * Cmd) :=
  match ks with
  | [] => Ok (m, [])
  | k :: rest =>
      out <- ItemsModel.Update now m (KeyMsg k) ;;
      later <- press_keys now (fst out) rest ;;
      Ok (fst later, List.app (snd out) (snd later))
  end.

(** Stream events handled one after the other by the events screen. *)
Fixpoint feed_events {deps : Deps} (now : Z) (m : EventsModel.t)
    (es : list models.Event) : result EventsModel.t :=
  match es with
  | [] => Ok m
  | e :: rest =>
      out <- EventsModel.Update now m (eventMsg e) ;;
      feed_events now (fst out) rest
  end.

(** A value that fits Go's [int]. *)
Definition go_int (z : Z) : Prop := - 2 ^ 63 <= z < 2 ^ 63.

(** A message as the client can deliver it: the page count of a listing
    is a Go [int]. *)
Definition deliverable (msg : Msg) : Prop :=
  match msg with
  | itemsMsg (Fetched (Some r)) => go_int (models.TotalPages r)
  | _ => True
  end.

(** The page of the item list is a positive Go [int], and so is the page
    count of the listing it holds. *)
Definition page_invariant {deps : Deps} (m : ItemsModel.t) : Prop :=
  1 <= ItemsModel.currentPage m < 2 ^ 63
  /\ match ItemsModel.items m with
     | Some r => go_int (models.TotalPages r)
     | None => True
     end.

(** ** Configuration ([pkg/config]) *)

Module config.

Record APIConfig : Type := {
  Endpoint : string;
  Token : string;
  Timeout : Z
}.

Record UIConfig : Type := {
  RefreshInterval : Z;
  Theme : string;
  PageSize : Z
}.

Record Config : Type := {
  API : APIConfig;
  UI : UIConfig
}.

(** [time.Second] in nanoseconds, the unit of [time.Duration]. *)
Definition Second : Z := 1000000000.

Definition DefaultConfig : Config :=
  {| API := {| Endpoint := "http://localhost:8080"; Token := "";
               Timeout := 30 * Second |};
     UI := {| RefreshInterval := 5 * Second; Theme := "default"; PageSize := 50 |} |}.

(** An error return: the value, or the text of the error. *)
Definition or_error (A : Type) : Type := (A + string)%type.

Section Environment.

(** [os.Getenv], [time.ParseDuration] ([None] for a non-nil error),
    [os.Stat] succeeding, [filepath.Join], and [loadFromFile] (which
    reads and parses YAML over the configuration it is given). *)
Variable Getenv : string -> string.
Variable ParseDuration : string -> option Z.
Variable Stat : string -> bool.
Variable Join : list string -> string.
Variable loadFromFile : Config -> string -> or_error Config.

Definition loadFromEnv (config : Config) : Config :=
  let endpoint := Getenv "RIVEN_API_ENDPOINT" in
  let Endpoint' := if negb (endpoint == "") then endpoint else Endpoint (API config) in
  let token := Getenv "RIVEN_API_TOKEN" in
  let apiKey := Getenv "RIVEN_API_KEY" in
  let Token' :=
    if negb (token == "") then token
    else if negb (apiKey == "") then apiKey
    else Token (API config) in
  let timeout := Getenv "RIVEN_API_TIMEOUT" in
  let Timeout' :=
    if negb (timeout == "") then
      match ParseDuration timeout with
      | Some d => d
      | None => Timeout (API config)
      end
    else Timeout (API config) in
  let refreshInterval := Getenv "RIVEN_UI_REFRESH_INTERVAL" in
  let RefreshInterval' :=
    if negb (refreshInterval == "") then
      match ParseDuration refreshInterval with
      | Some d => d
      | None => RefreshInterval (UI config)
      end
    else RefreshInterval (UI config) in
  let theme := Getenv "RIVEN_UI_THEME" in
  let Theme' := if negb (theme == "") then theme else Theme (UI config) in
  {| API := {| Endpoint := Endpoint'; Token := Token'; Timeout := Timeout' |};
     UI := {| RefreshInterval := RefreshInterval'; Theme := Theme';
              PageSize := PageSize (UI config) |} |}.

(** Returns the configuration as it leaves it (the page size may have
    been set), or the error. *)
Definition validateConfig (config : Config) : or_error Config :=
  if Endpoint (API config) == "" then inr "API endpoint is required"
  else if Token (API config) == "" then inr "Bearer token is required"
  else if Timeout (API config) <=? 0 then inr "API timeout must be positive"
  else if RefreshInterval (UI config) <=? 0
  then inr "UI refresh interval must be positive"
  else if PageSize (UI config) <=? 0 then
    inl {| API := API config;
           UI := {| RefreshInterval := RefreshInterval (UI config);
                    Theme := Theme (UI config); PageSize := 50 |} |}
  else inl config.

Definition defaultPaths : list string :=
  [Join [Getenv "HOME"; ".config"; "riven-tui"; "config.yaml"];
   Join [Getenv "HOME"; ".riven-tui.yaml"];
   "config.yaml"].

(** The loop over [defaultPaths]: the first path that exists is loaded,
    and the loop ends there. *)
Fixpoint load_first (config : Config) (paths : list string) : or_error Config :=
  match paths with
  | [] => inl config
  | path :: rest =>
      if Stat path then
        match loadFromFile config path with
        | inl loaded => inl loaded
        | inr err => inr ("failed to load config from " ++ path ++ ": " ++ err)
        end
      else load_first config rest
  end.

Definition LoadConfig (configPath : string) : or_error Config :=
  let config := DefaultConfig in
  let from_file :=
    if negb (configPath == "") then
      match loadFromFile config configPath with
      | inl loaded => inl loaded
      | inr err => inr ("failed to load config from file: " ++ err)
      end
    else load_first config defaultPaths in
  match from_file with
  | inr err => inr err
  | inl config =>
      let config := loadFromEnv config in
      match validateConfig config with
      | inr err => inr ("invalid configuration: " ++ err)
      | inl config => inl config
      end
  end.

End Environment.
End config.

(** ** Further concrete inputs *)

Module Samples.

(** The item list of [Simple.browsing] with a table whose cursor is
    below its first row. *)
Definition negative_cursor : @ItemsModel.t Simple.deps :=
  ItemsModel.set_table Simple.first_page
    {| Simple.cursor := -1; Simple.rows := []; Simple.theight := 20 |}.

(** The item list with its search entry open and "x" typed. *)
Definition typed_x : @ItemsModel.t Simple.deps :=
  ItemsModel.set_searchInput (App.items Simple.searching_app)
    {| Simple.value := "x"; Simple.iwidth := 80; Simple.focused := true |}.

Definition first_event : models.Event :=
  {| models.Type_ := "item.state.changed.with.a.long.name";
     models.Timestamp := "t1"; models.Data := None; models.Message := "" |}.

Definition second_event : models.Event :=
  {| models.Type_ := "ping"; models.Timestamp := "t2";
     models.Data := Some [("id", VOther "42")]; models.Message := "pong" |}.

(** An events screen that keeps one event only. *)
Definition keeps_one : @EventsModel.t Simple.deps :=
  let 'EventsModel.mk a b c d e f _ h i j := EventsModel.New in
  EventsModel.mk a b c d e f 1 h i j.

(** An environment that sets both token variables and a timeout, and a
    file system without configuration files. *)
Definition Getenv (name : string) : string :=
  if name == "RIVEN_API_TOKEN" then "new-token"
  else if name == "RIVEN_API_KEY" then "old-key"
  else if name == "RIVEN_API_TIMEOUT" then "60s"
  else "".

Definition no_env (name : string) : string := "".

Definition ParseDuration (text : string) : option Z :=
  if text == "60s" then Some (60 * config.Second) else None.

Definition no_file (path : string) : bool := false.

Definition Join (parts : list string) : string := Join parts "/".

Definition unreadable (c : config.Config) (path : string)
  : config.or_error config.Config := inr "open: no such file".

Definition zero_page_size : config.Config :=
  {| config.API := {| config.Endpoint := "http://riven:8080";
                      config.Token := "secret";
                      config.Timeout := 30 * config.Second |};
     config.UI := {| config.RefreshInterval := 5 * config.Second;
                     config.Theme := "dark"; config.PageSize := 0 |} |}.

End Samples.

(** * Properties *)

Section Properties.
Context {deps : Deps}.

(** ** Item list: pagination, filter and sort *)

Lemma set_table_same : forall m : ItemsModel.t,
  ItemsModel.set_table m (ItemsModel.table m) = m.
Proof. intros m. destruct m. reflexivity. Qed.

(** In Browsing mode a key that [navigate] leaves to the table, and
    that the table does not bind, changes nothing and emits nothing. *)
Lemma browsing_unbound_key : forall now m k,
  ItemsModel.showSearch m = false ->
  ItemsModel.navigate m k = Ok None ->
  mem k table_keys = false ->
  ItemsModel.Update now m (KeyMsg k) = Ok (m, []).
Proof.
  intros now m k Hsearch Hnav Hkey.
  unfold ItemsModel.Update. rewrite Hsearch, Hnav. simpl.
  rewrite (table_Update_unbound _ _ Hkey). simpl.
  rewrite set_table_same. reflexivity.
Qed.

(** C8. In Browsing mode the filter key and the sort key each set the
    current page to 1 and emit exactly one operation, the fetch of the
    items; the filter, respectively the sort order, moves one step
    along its cycle. *)
Theorem filter_or_sort_resets_page_and_fetches_once : forall now m k,
  ItemsModel.showSearch m = false ->
  k = "f" \/ k = "s" ->
  exists m' cmd,
    ItemsModel.Update now m (KeyMsg k) = Ok (m', cmd)
    /\ ItemsModel.currentPage m' = 1
    /\ cmd = [fetchItems]
    /\ count_ops is_fetch cmd = 1%nat
    /\ count_ops is_tick cmd = 0%nat
    /\ (k = "f" -> ItemsModel.filterState m'
                   = ItemsModel.next_filter (ItemsModel.filterState m))
    /\ (k = "s" -> ItemsModel.sortOrder m'
                   = ItemsModel.next_sort (ItemsModel.sortOrder m)).
Proof.
  intros now m k Hsearch [-> | ->];
    unfold ItemsModel.Update; rewrite Hsearch; simpl;
    eexists; eexists; (split; [reflexivity |]);
    destruct m; simpl; repeat split; intros; try reflexivity; discriminate.
Qed.

Lemma atoi_digit_key : forall k,
  mem k ItemsModel.digit_keys = true ->
  exists page, Atoi k = Some page /\ 1 <= page <= 9.
Proof.
  intros k H. unfold ItemsModel.digit_keys, mem in H. simpl in H.
  repeat (apply orb_prop in H; destruct H as [H | H];
          [apply String.eqb_eq in H; subst k;
           eexists; split; [vm_compute; reflexivity | lia] |]).
  discriminate.
Qed.

(** C9. In Browsing mode: a next-page key on the last known page and a
    previous-page key on page 1 leave the screen as it is and emit
    nothing; a digit key moves to that page, and fetches, exactly when
    a listing is known and the page is at most its total pages, and
    otherwise leaves the screen as it is and emits nothing. *)
Theorem page_keys_respect_bounds : forall now m,
  ItemsModel.showSearch m = false ->
  (forall k r,
      k = "n" \/ k = "right" ->
      ItemsModel.items m = Some r ->
      ItemsModel.currentPage m = models.TotalPages r ->
      ItemsModel.Update now m (KeyMsg k) = Ok (m, []))
  /\ (forall k,
      k = "p" \/ k = "left" ->
      ItemsModel.currentPage m = 1 ->
      ItemsModel.Update now m (KeyMsg k) = Ok (m, []))
  /\ (forall k,
      mem k ItemsModel.digit_keys = true ->
      exists page,
        Atoi k = Some page
        /\ ItemsModel.Update now m (KeyMsg k)
           = match ItemsModel.items m with
             | Some r =>
                 if page <=? models.TotalPages r
                 then Ok (ItemsModel.set_loading
                            (ItemsModel.set_currentPage m page) true,
                          [fetchItems])
                 else Ok (m, [])
             | None => Ok (m, [])
             end).
Proof.
  intros now m Hsearch. split; [| split].
  - intros k r Hk Hitems Hpage.
    apply browsing_unbound_key; trivial.
    + destruct Hk as [-> | ->]; unfold ItemsModel.navigate; simpl;
        rewrite Hitems, Hpage, Z.ltb_irrefl; reflexivity.
    + destruct Hk as [-> | ->]; reflexivity.
  - intros k Hk Hpage.
    apply browsing_unbound_key; trivial.
    + destruct Hk as [-> | ->]; unfold ItemsModel.navigate; simpl;
        rewrite Hpage; reflexivity.
    + destruct Hk as [-> | ->]; reflexivity.
  - intros k Hk.
    destruct (atoi_digit_key k Hk) as [page [Hatoi _]].
    exists page. split; [exact Hatoi |].
    assert (Hnav : ItemsModel.navigate m k
                   = match ItemsModel.items m with
                     | Some r =>
                         if page <=? models.TotalPages r
                         then Ok (Some (ItemsModel.set_loading
                                          (ItemsModel.set_currentPage m page) true,
                                        [fetchItems]))
                         else Ok None
                     | None => Ok None
                     end).
    { unfold ItemsModel.digit_keys, mem in Hk. simpl in Hk.
      repeat (apply orb_prop in Hk; destruct Hk as [Hk | Hk];
              [apply String.eqb_eq in Hk; subst k;
               unfold ItemsModel.navigate; simpl;
               vm_compute in Hatoi; injection Hatoi as <-;
               destruct (ItemsModel.items m); reflexivity |]).
      discriminate. }
    assert (Hunbound : mem k table_keys = false).
    { unfold ItemsModel.digit_keys, mem in Hk. simpl in Hk.
      repeat (apply orb_prop in Hk; destruct Hk as [Hk | Hk];
              [apply String.eqb_eq in Hk; subst k; reflexivity |]).
      discriminate. }
    destruct (ItemsModel.items m) as [r |] eqn:Hitems.
    + destruct (page <=? models.TotalPages r) eqn:Hle.
      * unfold ItemsModel.Update. rewrite Hsearch, Hnav. reflexivity.
      * apply browsing_unbound_key; assumption.
    + apply browsing_unbound_key; assumption.
Qed.

(** ** Auto-refresh *)

(** C6. On each of the four screens with auto-refresh, handling the
    timer message emits exactly the operations of that screen's init:
    its fetches and one timer of the screen's period (30 seconds, 60 for
    the settings) that delivers the next timer message, and nothing
    else. *)
Theorem refresh_rearms_timer_and_refetches : forall now,
  (forall m,
      let (m', cmd) := DashboardModel.Update now m refreshMsg in
      m' = DashboardModel.set_lastUpdate m (Some now)
      /\ rearms (DashboardModel.Init m') cmd 30)
  /\ (forall m,
      exists m' cmd,
        ItemsModel.Update now m refreshMsg = Ok (m', cmd)
        /\ m' = ItemsModel.set_lastUpdate m (Some now)
        /\ rearms (ItemsModel.Init m') cmd 30)
  /\ (forall m,
      let (m', cmd) := ItemDetailModel.Update now m refreshMsg in
      m' = ItemDetailModel.set_lastUpdate m (Some now)
      /\ rearms (ItemDetailModel.Init m') cmd 30)
  /\ (forall m,
      let (m', cmd) := SettingsModel.Update now m refreshMsg in
      m' = SettingsModel.set_lastUpdate m (Some now)
      /\ rearms (SettingsModel.Init m') cmd 60).
Proof.
  intros now. unfold rearms. split; [| split; [| split]].
  - intros m. simpl. repeat split.
  - intros m. eexists. eexists. split; [reflexivity |]. repeat split.
  - intros m. simpl. destruct m. simpl. repeat split.
  - intros m. simpl. repeat split.
Qed.

(** ** Screen switching *)

(** C2, as the program does it. Each of the keys d, m, s and l makes
    its screen the active one, leaves the state of every screen as it
    was, and emits the operations of the target screen's init again:
    its fetches and, for the dashboard, the item list and the
    settings, a new timer. *)
Theorem switch_keeps_state_and_reissues_init : forall now a,
  App.Update now a (KeyMsg "d")
  = Ok (App.set_currentScreen a ScreenDashboard,
        DashboardModel.Init (App.dashboard a))
  /\ App.Update now a (KeyMsg "m")
     = Ok (App.set_currentScreen a ScreenItems, ItemsModel.Init (App.items a))
  /\ App.Update now a (KeyMsg "s")
     = Ok (App.set_currentScreen a ScreenSettings,
           SettingsModel.Init (App.settings a))
  /\ App.Update now a (KeyMsg "l")
     = Ok (App.set_currentScreen a ScreenLogs, LogsModel.Init (App.logs a))
  /\ (forall target,
        let a' := App.set_currentScreen a target in
        App.dashboard a' = App.dashboard a
        /\ App.items a' = App.items a
        /\ App.itemDetail a' = App.itemDetail a
        /\ App.settings a' = App.settings a
        /\ App.logs a' = App.logs a
        /\ App.help a' = App.help a)
  /\ DashboardModel.Init (App.dashboard a)
     = [fetchStats; fetchServices; fetchRDUser; Tick 30 refreshMsg]
  /\ ItemsModel.Init (App.items a) = [fetchItems; fetchStates; Tick 30 refreshMsg]
  /\ SettingsModel.Init (App.settings a) = [fetchSettings; Tick 60 refreshMsg]
  /\ LogsModel.Init (App.logs a) = [fetchLogs].
Proof.
  intros now a. destruct a as [screen w h d i det st lg hp sh sc le].
  repeat split; destruct screen; reflexivity.
Qed.

(** ** Search mode under the router *)

Lemma mem_global_false : forall k,
  mem k global_keys = false ->
  mem k keys.Quit = false /\ mem k keys.Dashboard = false
  /\ mem k keys.Items = false /\ mem k keys.Settings = false
  /\ mem k keys.Logs = false /\ mem k keys.Help = false.
Proof.
  intros k H. unfold global_keys, mem in H. simpl in H.
  repeat (apply orb_false_elim in H; destruct H as [? H]).
  unfold mem. simpl. repeat split;
    repeat (apply orb_false_intro; trivial).
Qed.

(** C1, evaluated on the program. With the item list active and its
    search entry open, a key without a global binding (other than
    enter and esc) reaches the text input and leaves the active screen
    alone; but d, s, l and ? switch the active screen, m re-emits the
    item list's init, and q and ctrl+c quit, each without the text
    input seeing the key. *)
Theorem search_mode_keys_reach_global_bindings : forall now a,
  App.currentScreen a = ScreenItems ->
  ItemsModel.showSearch (App.items a) = true ->
  (forall k,
      mem k global_keys = false -> k <> "enter" -> k <> "esc" ->
      App.Update now a (KeyMsg k)
      = let (input, cmd) :=
          textinput_Update (ItemsModel.searchInput (App.items a)) (KeyMsg k) in
        Ok (App.set_items a (ItemsModel.set_searchInput (App.items a) input),
            cmd))
  /\ App.Update now a (KeyMsg "d")
     = Ok (App.set_currentScreen a ScreenDashboard,
           DashboardModel.Init (App.dashboard a))
  /\ App.Update now a (KeyMsg "s")
     = Ok (App.set_currentScreen a ScreenSettings,
           SettingsModel.Init (App.settings a))
  /\ App.Update now a (KeyMsg "l")
     = Ok (App.set_currentScreen a ScreenLogs, LogsModel.Init (App.logs a))
  /\ App.Update now a (KeyMsg "?") = Ok (App.set_currentScreen a ScreenHelp, [])
  /\ App.Update now a (KeyMsg "m") = Ok (a, ItemsModel.Init (App.items a))
  /\ App.Update now a (KeyMsg "q") = Ok (a, [Quit])
  /\ App.Update now a (KeyMsg "ctrl+c") = Ok (a, [Quit]).
Proof.
  intros now a Hscreen Hsearch. split.
  - intros k Hglobal Henter Hesc.
    destruct (mem_global_false k Hglobal) as (Hq & Hd & Hm & Hs & Hl & Hh).
    apply String.eqb_neq in Henter. apply String.eqb_neq in Hesc.
    unfold App.Update. rewrite Hesc, Hq, Hd, Hm, Hs, Hl, Hh. simpl.
    unfold App.updateCurrent. rewrite Hscreen.
    unfold ItemsModel.Update. rewrite Hsearch, Henter, Hesc.
    destruct (textinput_Update (ItemsModel.searchInput (App.items a)) (KeyMsg k))
      as [input cmd].
    simpl. rewrite app_nil_r. reflexivity.
  - destruct a as [screen w h d i det st lg hp sh sc le].
    simpl in Hscreen. subst screen. repeat split.
Qed.

(** ** Stream failure and reconnection *)

(** C3, evaluated on the program. When the stream request is answered
    with status 500, or the connection fails, [StreamEventsSSE] returns
    an error; the command that started it then only clears the
    streaming flag and delivers no message, so the events screen never
    receives a stream-error message.  Were one delivered, the screen
    would schedule a timer of 5 seconds that delivers the key r, and
    that key re-issues the connect and listen operations. *)
Theorem stream_failure_delivers_no_error_message :
  forall now (m : EventsModel.t) body scanErr failure,
    exists err,
      Client.StreamEventsSSE (Client.Responded 500 body scanErr)
      = Client.Returned (Some err)
      /\ Client.StreamEventsSSE (Client.DoFailed failure)
         = Client.Returned (Some failure)
      /\ EventsModel.run_startEventStreaming m (Some err) false
         = (EventsModel.set_streaming m false, None)
      /\ EventsModel.run_startEventStreaming m (Some failure) false
         = (EventsModel.set_streaming m false, None)
      /\ EventsModel.Update now m (eventsErrorMsg err)
         = Ok (EventsModel.set_streaming
                 (EventsModel.set_error m ("Event streaming error: " ++ err)) false,
               [Tick 5 (KeyMsg "r")])
      /\ EventsModel.Update now m (KeyMsg "r")
         = Ok (EventsModel.set_error m "", [startEventStreaming; listenForEvents]).
Proof.
  intros now m body scanErr failure. eexists.
  split; [reflexivity |]. destruct m. repeat split.
Qed.

(** ** Navigation to the item detail and back *)

Lemma View_without_detail : forall a stale,
  App.currentScreen a <> ScreenItemDetail ->
  App.View (App.set_itemDetail a stale) = App.View a.
Proof.
  intros a stale H. destruct a as [screen w h d i det st lg hp sh sc le].
  simpl in H. destruct screen; try reflexivity. contradiction.
Qed.

(** Off the item detail screen, one step of the router does not look
    at the item detail model: it is carried along, or replaced. *)
Lemma Update_without_detail : forall now a stale msg,
  App.currentScreen a <> ScreenItemDetail ->
  App.Update now (App.set_itemDetail a stale) msg
  = match App.Update now a msg with
    | Ok (a1, c) =>
        Ok (if Screen_eqb (App.currentScreen a1) ScreenItemDetail
            then a1 else App.set_itemDetail a1 stale, c)
    | Panic w => Panic w
    end.
Proof.
  intros now a stale msg H.
  destruct a as [screen w h d i det st lg hp sh sc le]. simpl in H.
  assert (Hcur : forall w' h' d' i' st' lg' hp' m,
    App.updateCurrent now (App.mk screen w' h' d' i' stale st' lg' hp' sh sc le) m
    = match App.updateCurrent now (App.mk screen w' h' d' i' det st' lg' hp' sh sc le) m with
      | Ok (a1, c) =>
          Ok (if Screen_eqb (App.currentScreen a1) ScreenItemDetail
              then a1 else App.set_itemDetail a1 stale, c)
      | Panic w => Panic w
      end).
  { intros w' h' d' i' st' lg' hp' m. unfold App.updateCurrent. simpl.
    destruct screen; try contradiction; simpl.
    - destruct (DashboardModel.Update now d' m); reflexivity.
    - destruct (ItemsModel.Update now i' m) as [[? ?] | ?]; reflexivity.
    - destruct (SettingsModel.Update now st' m); reflexivity.
    - destruct (LogsModel.Update lg' m); reflexivity.
    - reflexivity. }
  destruct msg; try apply Hcur.
  - unfold App.Update. simpl.
    replace ((key == "esc") && Screen_eqb screen ScreenItemDetail) with false
      by (destruct screen; try contradiction; rewrite andb_false_r; reflexivity).
    destruct (key == "q");
      [destruct screen; try contradiction; reflexivity |].
    destruct (key == "ctrl+c");
      [destruct screen; try contradiction; reflexivity |].
    destruct (key == "d"); [reflexivity |].
    destruct (key == "m"); [reflexivity |].
    destruct (key == "s"); [reflexivity |].
    destruct (key == "l"); [reflexivity |].
    destruct (key == "?"); [reflexivity |].
    apply Hcur.
  - reflexivity.
Qed.

Lemma run_without_detail : forall msgs a stale,
  App.currentScreen a <> ScreenItemDetail ->
  observe (App.run (App.set_itemDetail a stale) msgs) = observe (App.run a msgs).
Proof.
  induction msgs as [| [now msg] rest IH]; intros a stale H.
  - simpl. rewrite View_without_detail by assumption. reflexivity.
  - simpl. rewrite Update_without_detail by assumption.
    destruct (App.Update now a msg) as [[a1 c] | w]; [| reflexivity].
    simpl.
    destruct (Screen_eqb (App.currentScreen a1) ScreenItemDetail) eqn:E;
      [reflexivity |].
    assert (H1 : App.currentScreen a1 <> ScreenItemDetail)
      by (intros Heq; rewrite Heq in E; discriminate).
    specialize (IH a1 stale H1).
    destruct (App.run (App.set_itemDetail a1 stale) rest) as [[a2 c2] | w2];
      destruct (App.run a1 rest) as [[a3 c3] | w3]; simpl in *;
      try discriminate; try (injection IH as ->; reflexivity).
    injection IH as -> ->. reflexivity.
Qed.

(** C7. (1) On the item list in Browsing mode, enter on a row whose id
    is X (not empty) emits the one operation that delivers the
    navigate-to-detail message for X.  (2) Handling that message makes
    the item detail screen active with a new model for X, in its
    loading state and without payload, and emits that model's init:
    the two fetches for X and a timer.  (3) Escape on the item detail
    screen makes the item list active and emits nothing.  (4) From
    then on the old item detail model is dead: whatever it holds, and
    also if it were nil, every later run renders the same frames and
    emits the same operations; re-entry goes through (2) again. *)
Theorem detail_navigation_roundtrip : forall now a,
  (forall r item X,
      App.currentScreen a = ScreenItems ->
      ItemsModel.showSearch (App.items a) = false ->
      ItemsModel.items (App.items a) = Some r ->
      index (models.Items r) (table_Cursor (ItemsModel.table (App.items a)))
      = Ok item ->
      getStringFromMap item "id" "" = X ->
      X <> "" ->
      App.Update now a (KeyMsg "enter") = Ok (a, [showItemDetailCmd X])
      /\ delivers (showItemDetailCmd X) = Some (showItemDetailMsg X))
  /\ (forall X,
      exists a' d,
        App.Update now a (showItemDetailMsg X) = Ok (a', ItemDetailModel.Init d)
        /\ App.currentScreen a' = ScreenItemDetail
        /\ App.itemDetail a' = Some d
        /\ d = ItemDetailModel.SetSize (ItemDetailModel.New X)
                 (App.width a) (App.height a)
        /\ ItemDetailModel.itemID d = X
        /\ ItemDetailModel.loading d = true
        /\ ItemDetailModel.itemData d = None
        /\ ItemDetailModel.streams d = None
        /\ ItemDetailModel.Init d
           = [fetchItemDetail X; fetchItemStreams X; Tick 30 refreshMsg])
  /\ (App.currentScreen a = ScreenItemDetail ->
      App.Update now a (KeyMsg "esc") = Ok (App.set_currentScreen a ScreenItems, [])
      /\ forall stale msgs,
          observe (App.run (App.set_itemDetail
                              (App.set_currentScreen a ScreenItems) stale) msgs)
          = observe (App.run (App.set_currentScreen a ScreenItems) msgs)).
Proof.
  intros now a. split; [| split].
  - intros r item X Hscreen Hsearch Hitems Hindex Hid HX.
    split; [| reflexivity].
    assert (Hrange : (llen (models.Items r) >? 0) = true
                     /\ (table_Cursor (ItemsModel.table (App.items a))
                          <? llen (models.Items r)) = true).
    { unfold index in Hindex.
      destruct ((table_Cursor (ItemsModel.table (App.items a)) <? 0)
                || (llen (models.Items r)
                    <=? table_Cursor (ItemsModel.table (App.items a)))) eqn:E;
        [discriminate |].
      apply orb_false_elim in E. destruct E as [E1 E2].
      apply Z.ltb_ge in E1. apply Z.leb_gt in E2.
      split; [apply Z.gtb_lt | apply Z.ltb_lt]; lia. }
    destruct Hrange as [Hlen Hcur].
    apply String.eqb_neq in HX.
    unfold App.Update. simpl. unfold App.updateCurrent. rewrite Hscreen.
    unfold ItemsModel.Update. rewrite Hsearch.
    unfold ItemsModel.navigate. simpl.
    rewrite Hitems, Hlen, Hcur, Hindex. simpl. rewrite Hid, HX. simpl.
    destruct a. reflexivity.
  - intros X. eexists. eexists. split; [reflexivity |].
    destruct a. repeat split.
  - intros Hscreen. split.
    + unfold App.Update. rewrite Hscreen. reflexivity.
    + intros stale msgs. apply run_without_detail.
      destruct a. simpl. discriminate.
Qed.

(** ** Rendering *)

Lemma mapM_ok : forall (A B : Type) (f : A -> result B) (l : list A),
  (forall x, In x l -> exists y, f x = Ok y) ->
  exists ys, mapM f l = Ok ys.
Proof.
  intros A B f l. induction l as [| x rest IH]; intros H.
  - exists []. reflexivity.
  - destruct (H x (or_introl eq_refl)) as [y Hy].
    destruct IH as [ys Hys]; [intros z Hz; apply H; right; exact Hz |].
    exists (y :: ys). simpl. rewrite Hy. simpl. rewrite Hys. reflexivity.
Qed.

Lemma category_line_ok : forall settingsMap category,
  In category SettingsModel.categories ->
  exists l, SettingsModel.category_line settingsMap category = Ok l.
Proof.
  intros settingsMap category H. unfold SettingsModel.category_line.
  destruct (lookup settingsMap category) as [[s | entries printed | printed] |];
    try (eexists; reflexivity).
  unfold SettingsModel.categories in H. simpl in H.
  repeat (destruct H as [<- | H]; [eexists; reflexivity |]).
  contradiction.
Qed.

Lemma DashboardModel_View_ok : forall m,
  exists frame, DashboardModel.View m = Ok frame.
Proof.
  intros m. unfold DashboardModel.View.
  destruct (DashboardModel.loading m); [eexists; reflexivity |].
  destruct (negb (DashboardModel.error m == "")); [eexists; reflexivity |].
  unfold DashboardModel.renderDashboard, DashboardModel.renderStats,
    DashboardModel.renderRDUser.
  destruct (DashboardModel.stats m), (DashboardModel.rdUser m);
    simpl; eexists; reflexivity.
Qed.

Lemma ItemsModel_View_ok : forall m,
  exists frame, ItemsModel.View m = Ok frame.
Proof.
  intros m. unfold ItemsModel.View, ItemsModel.renderItems.
  destruct (ItemsModel.loading m); [eexists; reflexivity |].
  destruct (negb (ItemsModel.error m == "")); eexists; reflexivity.
Qed.

Lemma SettingsModel_View_ok : forall m,
  exists frame, SettingsModel.View m = Ok frame.
Proof.
  intros m. unfold SettingsModel.View.
  destruct (SettingsModel.loading m); [eexists; reflexivity |].
  destruct (negb (SettingsModel.error m == "")); [eexists; reflexivity |].
  unfold SettingsModel.renderSettings.
  destruct (SettingsModel.settings m) as [[s | settingsMap printed | printed] |];
    try (simpl; eexists; reflexivity).
  destruct (mapM_ok (SettingsModel.category_line settingsMap)
              SettingsModel.categories) as [lines Hlines].
  { intros c Hc. apply category_line_ok. exact Hc. }
  rewrite Hlines. simpl. eexists. reflexivity.
Qed.

Lemma App_View_ok : forall a, exists frame, App.View a = Ok frame.
Proof.
  intros a. unfold App.View.
  destruct ((App.width a =? 0) || (App.height a =? 0));
    [eexists; reflexivity |].
  destruct (App.currentScreen a).
  - destruct (DashboardModel_View_ok (App.dashboard a)) as [f Hf].
    rewrite Hf. simpl. eexists. reflexivity.
  - destruct (ItemsModel_View_ok (App.items a)) as [f Hf].
    rewrite Hf. simpl. eexists. reflexivity.
  - destruct (App.itemDetail a); simpl; eexists; reflexivity.
  - destruct (SettingsModel_View_ok (App.settings a)) as [f Hf].
    rewrite Hf. simpl. eexists. reflexivity.
  - simpl. eexists. reflexivity.
  - simpl. eexists. reflexivity.
Qed.

(** C10. [View] returns a frame, and never panics, on every
    application state, so in particular on the state reached from
    [NewApp] by any sequence of messages and on the initial state
    itself, where no payload has been fetched.  A screen that is
    loading renders its loading frame, and a screen that is not loading
    and has an error renders its error frame, whatever payload it
    holds.  (The bubbles and lipgloss functions it calls are taken to
    return.) *)
Theorem view_never_panics :
  (forall a, exists frame, App.View a = Ok frame)
  /\ (forall msgs,
        match App.run App.New msgs with
        | Ok (a, _) => exists frame, App.View a = Ok frame
        | Panic _ => True
        end)
  /\ (forall w h,
        App.View (App.resize App.New w h)
        = if (w =? 0) || (h =? 0) then Ok "Loading..."
          else Ok (JoinVertical
                     [App.renderNavBar (App.resize App.New w h);
                      Render_sized w (int_sub h 3) "Loading dashboard..."]))
  /\ (forall m,
        DashboardModel.View (DashboardModel.set_loading m true)
        = Ok (Render_sized (DashboardModel.width m) (DashboardModel.height m)
                "Loading dashboard..."))
  /\ (forall m,
        ItemsModel.View (ItemsModel.set_loading m true)
        = Ok (Render_sized (ItemsModel.width m) (ItemsModel.height m)
                "Loading media items..."))
  /\ (forall m,
        SettingsModel.View (SettingsModel.set_loading m true)
        = Ok (Render_sized (SettingsModel.width m) (SettingsModel.height m)
                "Loading settings..."))
  /\ (forall m c rest,
        ItemsModel.View (ItemsModel.set_error (ItemsModel.set_loading m false)
                           (String c rest))
        = Ok (Render_sized (ItemsModel.width m) (ItemsModel.height m)
                ("Error: " ++ String c rest ++ nl ++ nl ++ "Press 'r' to refresh"))).
Proof.
  split; [exact App_View_ok |].
  split.
  { intros msgs. destruct (App.run App.New msgs) as [[a c] | w]; [| exact I].
    apply App_View_ok. }
  split.
  { intros w h. unfold App.View. simpl.
    destruct ((w =? 0) || (h =? 0)); reflexivity. }
  repeat split; intros m; destruct m; reflexivity.
Qed.

(** ** The event stream *)

Lemma TrimPrefix_payload : forall line,
  HasPrefix line "data: " = true -> TrimPrefix line "data: " = payload line.
Proof. intros line H. unfold TrimPrefix. rewrite H. reflexivity. Qed.

(** The loop body decodes what the protocol says the line carries. *)
Lemma scan_line_spec : forall line,
  Client.scan_line line
  = if HasPrefix line "data: " then json_Unmarshal (payload line) else None.
Proof.
  intros line. unfold Client.scan_line.
  destruct (HasPrefix line "data: ") eqn:H; [| reflexivity].
  rewrite TrimPrefix_payload by exact H. reflexivity.
Qed.

Lemma expected_events_cons : forall line rest,
  expected_events (line :: rest)
  = List.app (match Client.scan_line line with Some e => [e] | None => [] end)
             (expected_events rest).
Proof.
  intros line rest. rewrite scan_line_spec. simpl.
  destruct (HasPrefix line "data: "); [| reflexivity].
  destruct (json_Unmarshal (payload line)); reflexivity.
Qed.

Lemma expected_events_app : forall pre post,
  expected_events (List.app pre post)
  = List.app (expected_events pre) (expected_events post).
Proof.
  induction pre as [| line pre IH]; intros post; [reflexivity |].
  change (List.app (line :: pre) post) with (line :: List.app pre post).
  rewrite !expected_events_cons, IH, app_assoc. reflexivity.
Qed.

Lemma owed_scan : forall lines scanErr,
  owed (Client.scan lines scanErr) = expected_events lines.
Proof.
  intros [| line rest] scanErr; [reflexivity |].
  rewrite expected_events_cons. unfold Client.scan.
  destruct (Client.scan_line line); reflexivity.
Qed.

Lemma steps_trans : forall s1 s2 s3,
  Client.steps s1 s2 -> Client.steps s2 s3 -> Client.steps s1 s3.
Proof.
  intros s1 s2 s3 H12 H23. induction H23 as [| s2 s3 s4 _ IH Hstep].
  - exact H12.
  - apply Client.steps_step with s3; [apply IH; exact H12 | exact Hstep].
Qed.

Lemma steps_one : forall s1 s2, Client.step s1 s2 -> Client.steps s1 s2.
Proof.
  intros s1 s2 H. apply Client.steps_step with s1; [constructor | exact H].
Qed.

Lemma llen_app_one : forall (A : Type) (l : list A) (x : A),
  llen (List.app l [x]) = llen l + 1.
Proof. intros A l x. unfold llen. rewrite length_app. simpl. lia. Qed.

Lemma step_keeps_invariant : forall cap scanErr all s s',
  stream_invariant cap scanErr all s ->
  Client.step s s' ->
  stream_invariant cap scanErr all s'.
Proof.
  intros cap scanErr all s s' (Hcap & Hlen & Hlive) Hstep.
  destruct Hstep; unfold stream_invariant in *; simpl in *.
  - split; [exact Hcap |]. split; [exact Hlen |].
    intros Hd. destruct (Hlive Hd) as [Hall Herr]. rewrite owed_scan. split.
    + exact Hall.
    + subst scanErr0. destruct lines as [| line rest]; simpl; [reflexivity |].
      destruct (Client.scan_line line); reflexivity.
  - unfold can_send in H. apply Z.ltb_lt in H.
    split; [exact Hcap |]. split; [rewrite llen_app_one; lia |].
    intros Hd. destruct (Hlive Hd) as [Hall Herr]. split; [| exact Herr].
    rewrite <- Hall, <- !app_assoc. reflexivity.
  - split; [exact Hcap |]. split; [exact Hlen |]. discriminate.
  - split; [exact Hcap |].
    split; [unfold llen in *; simpl in Hlen; lia |].
    intros Hd. destruct (Hlive Hd) as [Hall Herr]. split; [| exact Herr].
    rewrite <- Hall, <- !app_assoc. reflexivity.
  - split; [exact Hcap |]. split; [exact Hlen |]. discriminate.
Qed.

Lemma run_keeps_invariant : forall cap body scanErr s,
  0 <= cap ->
  Client.steps (Client.start (Client.Responded 200 body scanErr) cap) s ->
  stream_invariant cap scanErr (expected_events body) s.
Proof.
  intros cap body scanErr s Hcap Hsteps.
  remember (Client.start (Client.Responded 200 body scanErr) cap) as s0 eqn:E.
  induction Hsteps as [| s0 s1 s2 _ IH Hstep].
  - subst s. unfold stream_invariant. simpl.
    split; [reflexivity |]. split; [exact Hcap |].
    intros _. split; reflexivity.
  - apply step_keeps_invariant with s1; [apply IH; exact E | exact Hstep].
Qed.

(** With a consumer that takes each event as it arrives, the reader
    gets through all its lines. *)
Lemma drained_run : forall lines scanErr cap rc,
  0 < cap ->
  Client.steps
    {| Client.reader := Client.Scanning lines scanErr;
       Client.eventChan := make_chan cap;
       Client.received := rc; Client.ctx_done := false |}
    {| Client.reader := Client.Returned scanErr;
       Client.eventChan := make_chan cap;
       Client.received := List.app rc (expected_events lines);
       Client.ctx_done := false |}.
Proof.
  induction lines as [| line rest IH]; intros scanErr cap rc Hcap.
  - simpl. rewrite app_nil_r. apply steps_one. apply Client.step_scan.
  - rewrite expected_events_cons.
    eapply steps_trans; [apply steps_one; apply Client.step_scan |].
    unfold Client.scan. destruct (Client.scan_line line) as [e |].
    + eapply steps_trans.
      { apply steps_one. apply Client.step_send.
        unfold can_send. simpl. apply Z.ltb_lt. exact Hcap. }
      eapply steps_trans.
      { apply steps_one. unfold send, make_chan. simpl.
        apply Client.step_receive. }
      simpl. change (e :: expected_events rest)
        with (List.app [e] (expected_events rest)).
      rewrite app_assoc. apply IH. exact Hcap.
    + simpl. apply IH. exact Hcap.
Qed.

(** C4. On a stream that opened with status 200, with the channel of
    [NewEventsModel] (capacity 50), at every point of every interleaving
    of the reader, its consumer and cancellation: the channel holds at
    most 50 events; as long as the context is not cancelled no decoded
    event is lost (received, queued and still to come make up, in
    order, the events of the body); and a reader that holds an event
    while the channel is full makes no step of its own until the
    consumer takes an event, after which the send can proceed. *)
Theorem channel_bounded_blocking_lossless : forall body scanErr s,
  let cap := capacity (EventsModel.eventChan EventsModel.New) in
  Client.steps (Client.start (Client.Responded 200 body scanErr) cap) s ->
  cap = 50
  /\ capacity (Client.eventChan s) = 50
  /\ llen (buf (Client.eventChan s)) <= 50
  /\ (Client.ctx_done s = false ->
      List.app (Client.received s)
        (List.app (buf (Client.eventChan s)) (owed (Client.reader s)))
      = expected_events body)
  /\ (forall e lines err s',
      Client.reader s = Client.Sending e lines err ->
      can_send (Client.eventChan s) = false ->
      Client.ctx_done s = false ->
      Client.step s s' ->
      Client.reader s' = Client.Sending e lines err
      /\ Client.received s' = Client.received s \/
         (Client.reader s' = Client.Sending e lines err
          /\ exists taken,
               Client.received s' = List.app (Client.received s) [taken]
               /\ buf (Client.eventChan s) = taken :: buf (Client.eventChan s')
               /\ can_send (Client.eventChan s') = true)).
Proof.
  intros body scanErr s cap Hsteps.
  assert (Hinv : stream_invariant 50 scanErr (expected_events body) s)
    by (apply run_keeps_invariant; [lia | exact Hsteps]).
  destruct Hinv as (Hcap & Hlen & Hlive).
  split; [reflexivity |]. split; [exact Hcap |]. split; [exact Hlen |].
  split; [intros Hd; apply Hlive; exact Hd |].
  intros e lines err s' Hreader Hfull Hlivectx Hstep.
  destruct Hstep; simpl in *.
  - discriminate.
  - rewrite Hfull in H. discriminate.
  - discriminate.
  - right. split; [exact Hreader |]. exists e0.
    split; [reflexivity |]. split; [reflexivity |].
    unfold can_send. simpl. apply Z.ltb_lt.
    unfold llen in *. simpl in Hlen. lia.
  - left. split; [exact Hreader | reflexivity].
Qed.

Lemma expected_events_length : forall lines,
  List.length (expected_events lines) = List.length (List.filter decodable lines).
Proof.
  induction lines as [| line rest IH]; [reflexivity |].
  simpl. unfold decodable.
  destruct (HasPrefix line "data: "); simpl; [| exact IH].
  destruct (json_Unmarshal (payload line)); simpl; [rewrite IH |]; auto.
Qed.

(** C5. On a stream that opened with status 200 the reader, run to its
    end without cancellation, has handed over exactly the events of
    the protocol, in order, and returns what the scanner ended with
    (no error at a clean end of stream); such a run exists for every
    body.  Line by line: the loop body decodes the payload of a line
    with the prefix [data: ] and nothing else; a line that carries a
    decodable payload adds exactly one event; any other line (no
    prefix, or a payload that does not decode) adds none and leaves
    the events of the lines around it as they are. *)
Theorem parser_decodes_data_lines_and_skips_others : forall body scanErr,
  let s0 := Client.start (Client.Responded 200 body scanErr) 50 in
  (exists s,
      Client.steps s0 s
      /\ Client.reader s = Client.Returned scanErr
      /\ buf (Client.eventChan s) = []
      /\ Client.ctx_done s = false
      /\ Client.received s = expected_events body)
  /\ (forall s err,
      Client.steps s0 s ->
      Client.ctx_done s = false ->
      Client.reader s = Client.Returned err ->
      buf (Client.eventChan s) = [] ->
      Client.received s = expected_events body /\ err = scanErr)
  /\ List.length (expected_events body) = List.length (List.filter decodable body)
  /\ (forall line,
      Client.scan_line line
      = if HasPrefix line "data: " then json_Unmarshal (payload line) else None)
  /\ (forall pre line post,
      decodable line = true ->
      exists event,
        Client.scan_line line = Some event
        /\ expected_events (List.app pre (line :: post))
           = List.app (expected_events pre) (event :: expected_events post))
  /\ (forall pre line post,
      decodable line = false ->
      Client.scan_line line = None
      /\ expected_events (List.app pre (line :: post))
         = List.app (expected_events pre) (expected_events post)).
Proof.
  intros body scanErr s0. split; [| split; [| split; [| split; [| split]]]].
  - eexists. split; [apply drained_run with (rc := []); lia |].
    repeat split.
  - intros s err Hsteps Hlive Hret Hempty.
    assert (Hinv : stream_invariant 50 scanErr (expected_events body) s)
      by (apply run_keeps_invariant; [lia | exact Hsteps]).
    destruct Hinv as (_ & _ & Hall). destruct (Hall Hlive) as [Hev Herr].
    rewrite Hret in Hev, Herr. rewrite Hempty in Hev. simpl in Hev.
    rewrite app_nil_r in Hev. split; assumption.
  - apply expected_events_length.
  - apply scan_line_spec.
  - intros pre line post Hdec. unfold decodable in Hdec.
    apply andb_prop in Hdec. destruct Hdec as [Hprefix Hjson].
    destruct (json_Unmarshal (payload line)) as [event |] eqn:E;
      [| discriminate].
    exists event.
    assert (Hscan : Client.scan_line line = Some event)
      by (rewrite scan_line_spec, Hprefix; exact E).
    split; [exact Hscan |].
    rewrite expected_events_app, expected_events_cons, Hscan. reflexivity.
  - intros pre line post Hdec.
    assert (Hscan : Client.scan_line line = None).
    { rewrite scan_line_spec. unfold decodable in Hdec.
      destruct (HasPrefix line "data: "); [| reflexivity].
      destruct (json_Unmarshal (payload line)); [discriminate | reflexivity]. }
    split; [exact Hscan |].
    rewrite expected_events_app, expected_events_cons, Hscan. reflexivity.
Qed.

End Properties.

(** * The program on concrete inputs *)

(** C2, as stated, fails: with the item list visited and its first page
    received, back on the dashboard, the key m keeps the page that was
    fetched but emits the item list's init again, two fetches and a
    timer. *)
Lemma switch_back_to_items_refetches :
  App.currentScreen Simple.away_app = ScreenDashboard
  /\ ItemsModel.items (App.items Simple.away_app) = Some Simple.page
  /\ match App.Update 4 Simple.away_app (KeyMsg "m") with
     | Ok (a', cmd) =>
         App.currentScreen (deps := Simple.deps) a' = ScreenItems
         /\ ItemsModel.items (App.items (deps := Simple.deps) a') = Some Simple.page
         /\ cmd = [fetchItems; fetchStates; Tick 30 refreshMsg]
         /\ count_ops is_fetch cmd = 2%nat
         /\ count_ops is_fetch cmd <> 0%nat
     | Panic _ => False
     end.
Proof.
  vm_compute. repeat split. discriminate.
Qed.

(** The filter key on a fresh item list. *)
Lemma filter_key_witness :
  ItemsModel.showSearch (@ItemsModel.New Simple.deps) = false
  /\ exists m' cmd,
      ItemsModel.Update 0 (@ItemsModel.New Simple.deps) (KeyMsg "f") = Ok (m', cmd)
      /\ ItemsModel.currentPage m' = 1
      /\ cmd = [fetchItems]
      /\ ItemsModel.filterState m' = "Failed".
Proof.
  split; [reflexivity |].
  destruct (@filter_or_sort_resets_page_and_fetches_once Simple.deps 0
              ItemsModel.New "f" eq_refl (or_introl eq_refl))
    as (m' & cmd & Hupd & Hpage & Hcmd & _ & _ & Hfilter & _).
  exists m', cmd. repeat split; try assumption.
  rewrite (Hfilter eq_refl). reflexivity.
Defined.

(** Page keys at the ends of a listing of three pages. *)
Lemma page_keys_witness :
  ItemsModel.showSearch Simple.last_page = false
  /\ ItemsModel.currentPage Simple.last_page = 3
  /\ ItemsModel.Update 0 Simple.last_page (KeyMsg "n") = Ok (Simple.last_page, [])
  /\ ItemsModel.Update 0 Simple.first_page (KeyMsg "p") = Ok (Simple.first_page, [])
  /\ ItemsModel.Update 0 Simple.first_page (KeyMsg "5") = Ok (Simple.first_page, [])
  /\ ItemsModel.Update 0 Simple.first_page (KeyMsg "2")
     = Ok (ItemsModel.set_loading (ItemsModel.set_currentPage Simple.first_page 2) true,
           [fetchItems]).
Proof.
  destruct (@page_keys_respect_bounds Simple.deps 0 Simple.last_page eq_refl)
    as (Hnext & _ & _).
  destruct (@page_keys_respect_bounds Simple.deps 0 Simple.first_page eq_refl)
    as (_ & Hprev & Hdigit).
  split; [reflexivity |]. split; [reflexivity |].
  split; [apply (Hnext "n" Simple.page); [left |  |]; reflexivity |].
  split; [apply Hprev; [left |]; reflexivity |].
  split.
  - destruct (Hdigit "5" eq_refl) as (page & Hatoi & Hupd).
    vm_compute in Hatoi. injection Hatoi as <-. exact Hupd.
  - destruct (Hdigit "2" eq_refl) as (page & Hatoi & Hupd).
    vm_compute in Hatoi. injection Hatoi as <-. exact Hupd.
Defined.

(** Typing in the open search entry: x reaches the text input, d leaves
    the item list. *)
Lemma search_mode_witness :
  App.currentScreen Simple.searching_app = ScreenItems
  /\ ItemsModel.showSearch (App.items Simple.searching_app) = true
  /\ (exists a',
        App.Update 4 Simple.searching_app (KeyMsg "x") = Ok (a', [])
        /\ App.currentScreen a' = ScreenItems
        /\ textinput_Value (ItemsModel.searchInput (App.items a')) = "x")
  /\ (exists a',
        App.Update 4 Simple.searching_app (KeyMsg "d")
        = Ok (a', [fetchStats; fetchServices; fetchRDUser; Tick 30 refreshMsg])
        /\ App.currentScreen a' = ScreenDashboard
        /\ textinput_Value (ItemsModel.searchInput (App.items a')) = "").
Proof.
  destruct (@search_mode_keys_reach_global_bindings Simple.deps 4
              Simple.searching_app eq_refl eq_refl) as (Hinput & Hd & _).
  split; [reflexivity |]. split; [reflexivity |]. split.
  - eexists. split.
    + rewrite (Hinput "x" eq_refl); [reflexivity | discriminate | discriminate].
    + split; reflexivity.
  - eexists. split; [rewrite Hd; reflexivity |]. split; reflexivity.
Defined.

(** Into the detail of item 42 and back. *)
Lemma detail_navigation_witness :
  App.Update 4 Simple.on_second_row (KeyMsg "enter")
  = Ok (Simple.on_second_row, [showItemDetailCmd "42"])
  /\ App.currentScreen Simple.in_detail = ScreenItemDetail
  /\ App.Update 6 Simple.in_detail (KeyMsg "esc")
     = Ok (App.set_currentScreen Simple.in_detail ScreenItems, [])
  /\ observe (App.run (App.set_itemDetail
                         (App.set_currentScreen Simple.in_detail ScreenItems) None)
                      [(7, KeyMsg "n")])
     = observe (App.run (App.set_currentScreen Simple.in_detail ScreenItems)
                        [(7, KeyMsg "n")]).
Proof.
  destruct (@detail_navigation_roundtrip Simple.deps 4 Simple.on_second_row)
    as (Henter & _ & _).
  destruct (@detail_navigation_roundtrip Simple.deps 6 Simple.in_detail)
    as (_ & _ & Hesc).
  destruct (Hesc eq_refl) as (Hback & Hdead).
  split.
  - apply (Henter Simple.page
             [("id", VOther "42"); ("title", VString "The Matrix")] "42");
      try reflexivity. discriminate.
  - split; [reflexivity |]. split; [exact Hback |]. apply Hdead.
Defined.

(** One event line read and queued. *)
Lemma channel_witness :
  Client.steps (deps := Simple.deps)
    (Client.start (Client.Responded 200 [Simple.example_line] None) 50)
    Simple.one_queued
  /\ llen (buf (Client.eventChan Simple.one_queued)) <= 50
  /\ List.app (Client.received Simple.one_queued)
       (List.app (buf (Client.eventChan Simple.one_queued))
                 (owed (deps := Simple.deps) (Client.reader Simple.one_queued)))
     = expected_events (deps := Simple.deps) [Simple.example_line].
Proof.
  assert (Hsteps : Client.steps (deps := Simple.deps)
            (Client.start (Client.Responded 200 [Simple.example_line] None) 50)
            Simple.one_queued).
  { eapply Client.steps_step.
    - eapply Client.steps_step; [apply Client.steps_refl |].
      apply Client.step_scan.
    - apply (@Client.step_send Simple.deps Simple.example_event [] None
               (make_chan 50) [] false).
      reflexivity. }
  destruct (@channel_bounded_blocking_lossless Simple.deps
              [Simple.example_line] None Simple.one_queued Hsteps)
    as (_ & _ & Hlen & Hall & _).
  split; [exact Hsteps |]. split; [exact Hlen |]. apply Hall. reflexivity.
Defined.

(** The two scenarios of the protocol: an event line followed by a
    keep-alive comment, and a malformed line followed by an event
    line. *)
Lemma parser_witness :
  decodable (deps := Simple.deps) Simple.example_line = true
  /\ decodable (deps := Simple.deps) ": keep-alive" = false
  /\ decodable (deps := Simple.deps) "data: not-json" = false
  /\ expected_events (deps := Simple.deps) [Simple.example_line; ": keep-alive"]
     = [Simple.example_event]
  /\ expected_events (deps := Simple.deps) ["data: not-json"; Simple.example_line]
     = [Simple.example_event].
Proof.
  destruct (@parser_decodes_data_lines_and_skips_others Simple.deps
              [Simple.example_line; ": keep-alive"] None)
    as (_ & _ & _ & _ & Hone & Hnone).
  split; [reflexivity |]. split; [reflexivity |]. split; [reflexivity |].
  split.
  - destruct (Hnone [Simple.example_line] ": keep-alive" [] eq_refl) as (_ & H).
    exact H.
  - destruct (Hone ["data: not-json"] Simple.example_line [] eq_refl)
      as (event & Hscan & H).
    vm_compute in Hscan. injection Hscan as <-. exact H.
Defined.

(** * Further properties of the code *)

Section More.
Context {deps : Deps}.

(** ** Helpers of the item list *)

Lemma pow63 : 2 ^ 63 = 9223372036854775808.
Proof. reflexivity. Qed.

Lemma pow64 : 2 ^ 64 = 18446744073709551616.
Proof. reflexivity. Qed.

Lemma wrap64_id : forall z, go_int z -> wrap64 z = z.
Proof.
  intros z H. unfold go_int in H. unfold wrap64.
  rewrite pow63, pow64 in *. rewrite Z.mod_small; lia.
Qed.

Lemma length_substring_0 : forall s n,
  (n <= String.length s)%nat -> String.length (substring 0 n s) = n.
Proof.
  induction s as [| c s IH]; intros n H; simpl in *.
  - destruct n; [reflexivity | lia].
  - destruct n; [reflexivity |]. simpl. rewrite IH; [reflexivity | lia].
Qed.

Lemma length_append : forall a b,
  String.length (a ++ b) = (String.length a + String.length b)%nat.
Proof.
  induction a as [| c a IH]; intros b; simpl; [reflexivity |].
  rewrite IH. reflexivity.
Qed.

(** X1. [truncateString] with a limit of at least 3 returns a string of
    at most that many bytes: the string itself when it fits, otherwise
    its first limit-3 bytes followed by three dots, exactly the limit
    long.  With a limit below 3 and a longer string it panics, slicing
    at a negative bound. *)
Theorem truncateString_bounds : forall s maxLen,
  (3 <= maxLen < 2 ^ 63 ->
   exists t,
     truncateString s maxLen = Ok t
     /\ len t <= maxLen
     /\ (len s <= maxLen -> t = s)
     /\ (maxLen < len s ->
         t = substring 0 (Z.to_nat (maxLen - 3)) s ++ "..." /\ len t = maxLen))
  /\ (0 <= maxLen < 3 -> maxLen < len s ->
      truncateString s maxLen = Panic "slice bounds out of range").
Proof.
  intros s maxLen. unfold truncateString, int_sub, slice_to. split.
  - intros Hmax. rewrite pow63 in Hmax.
    destruct (len s <=? maxLen) eqn:Hfit.
    + apply Z.leb_le in Hfit. exists s. repeat split; try lia; reflexivity.
    + apply Z.leb_gt in Hfit.
      rewrite wrap64_id by (unfold go_int; rewrite pow63; lia).
      replace ((maxLen - 3 <? 0) || (len s <? maxLen - 3)) with false
        by (symmetry; apply orb_false_intro; apply Z.ltb_ge; lia).
      simpl. eexists. split; [reflexivity |].
      assert (Hlen : len (substring 0 (Z.to_nat (maxLen - 3)) s ++ "...") = maxLen).
      { unfold len in *. rewrite length_append, length_substring_0 by lia.
        simpl. lia. }
      repeat split; try lia; reflexivity.
  - intros Hmax Hlong.
    replace (len s <=? maxLen) with false by (symmetry; apply Z.leb_gt; lia).
    rewrite wrap64_id by (unfold go_int; rewrite pow63; lia).
    replace (maxLen - 3 <? 0) with true by (symmetry; apply Z.ltb_lt; lia).
    reflexivity.
Qed.

Lemma truncate_38 : forall s,
  exists t, truncateString s 38 = Ok t /\ len t <= 38.
Proof.
  intros s. unfold truncateString, slice_to.
  destruct (len s <=? 38) eqn:Hfit.
  - apply Z.leb_le in Hfit. exists s. split; [reflexivity | exact Hfit].
  - apply Z.leb_gt in Hfit.
    change (int_sub 38 3) with 35.
    replace ((35 <? 0) || (len s <? 35)) with false
      by (symmetry; apply orb_false_intro; apply Z.ltb_ge; lia).
    simpl. eexists. split; [reflexivity |].
    unfold len in *. rewrite length_append, length_substring_0 by lia.
    simpl. lia.
Qed.

Lemma row_of_shape : forall item,
  exists short,
    ItemsModel.row_of item
    = Ok [getStringFromMap item "id" ""; short;
          getStringFromMap item "type" ""; getStringFromMap item "state" "";
          getStringFromMap item "year" "";
          (let updatedAt := getStringFromMap item "updated_at" "" in
           if updatedAt == "" then updatedAt
           else match time_reformat updatedAt "2006-01-02" with
                | Some formatted => formatted
                | None => updatedAt
                end)]
    /\ len short <= 38.
Proof.
  intros item. unfold ItemsModel.row_of.
  destruct (truncate_38 (getStringFromMap item "title" "Unknown"))
    as (short & Hshort & Hlen).
  exists short. rewrite Hshort. split; [reflexivity | exact Hlen].
Qed.

(** X2. The rows built for the table of the item list: one row per item
    and in the same order, each of six cells, the first the item's id
    (so that the cursor index of a row is the index of its item) and
    the second a title of at most 38 bytes; building them never
    panics. *)
Theorem table_rows_follow_items : forall items,
  exists rows,
    mapM ItemsModel.row_of items = Ok rows
    /\ List.length rows = List.length items
    /\ (forall i item,
          nth_error items i = Some item ->
          exists row title,
            nth_error rows i = Some row
            /\ List.length row = 6%nat
            /\ nth_error row 0 = Some (getStringFromMap item "id" "")
            /\ nth_error row 1 = Some title
            /\ len title <= 38).
Proof.
  induction items as [| item rest IH].
  - exists []. repeat split. intros i item H. destruct i; discriminate.
  - destruct IH as (rows & Hrows & Hlen & Hnth).
    destruct (row_of_shape item) as (short & Hrow & Hshort).
    eexists. simpl. rewrite Hrow, Hrows. simpl.
    split; [reflexivity |]. split; [simpl; rewrite Hlen; reflexivity |].
    intros i it Hi. destruct i as [| i].
    + simpl in Hi. injection Hi as <-.
      eexists. exists short. repeat split. exact Hshort.
    + simpl in Hi. simpl. apply Hnth. exact Hi.
Qed.

Lemma updateTable_ok : forall m,
  exists rows,
    ItemsModel.updateTable m
    = Ok (ItemsModel.set_table m (table_SetRows (ItemsModel.table m) rows)).
Proof.
  intros m. unfold ItemsModel.updateTable.
  destruct (ItemsModel.items m) as [r |]; [| eexists; reflexivity].
  destruct (llen (models.Items r) =? 0); [eexists; reflexivity |].
  destruct (mapM_ok ItemsModel.row_of (models.Items r)) as (rows & Hrows).
  { intros item _. destruct (row_of_shape item) as (short & Hrow & _).
    eexists. exact Hrow. }
  rewrite Hrows. eexists. reflexivity.
Qed.

(** ** What the item list does on a message *)

(** Case analysis along the conditionals at the head of a hypothesis. *)
Ltac head_cases H :=
  repeat (cbv beta iota zeta in H;
          match type of H with
          | (if ?b then _ else _) = _ => destruct b eqn:?
          | match ?x with Some _ => _ | None => _ end = _ => destruct x eqn:?
          | match ?x with Ok _ => _ | Panic _ => _ end = _ => destruct x eqn:?
          | bind ?r _ = _ => unfold bind in H
          | (let (_, _) := ?p in _) = _ => destruct p eqn:?
          end).

Lemma Update_browsing : forall now m k,
  ItemsModel.showSearch m = false ->
  ItemsModel.Update now m (KeyMsg k)
  = match ItemsModel.navigate m k with
    | Ok (Some out) => Ok out
    | Ok None =>
        let (tbl, cmd) := table_Update (ItemsModel.table m) (KeyMsg k) in
        Ok (ItemsModel.set_table m tbl, Batch [cmd])
    | Panic w => Panic w
    end.
Proof.
  intros now m k H. unfold ItemsModel.Update. rewrite H.
  destruct (ItemsModel.navigate m k) as [[out |] | w]; reflexivity.
Qed.

Lemma index_panic : forall (A : Type) (l : list A) i w,
  index l i = Panic w -> i < 0 \/ llen l <= i.
Proof.
  intros A l i w H. unfold index in H.
  destruct ((i <? 0) || (llen l <=? i)) eqn:E.
  - apply orb_prop in E. destruct E as [E | E];
      [left; apply Z.ltb_lt | right; apply Z.leb_le]; exact E.
  - apply orb_false_elim in E. destruct E as [E1 E2].
    apply Z.ltb_ge in E1. apply Z.leb_gt in E2.
    destruct (nth_error l (Z.to_nat i)) eqn:N; [discriminate |].
    apply nth_error_None in N. unfold llen in E2. lia.
Qed.

(** X3. [ItemsModel.Update] returns normally on every message but one:
    it panics exactly on enter in Browsing mode when a non-empty listing
    is held and the table cursor is negative, where the bound check
    [selectedRow < len(items)] lets the index through. *)
Theorem items_update_panics_only_on_negative_cursor : forall now m msg,
  (exists w, ItemsModel.Update now m msg = Panic w)
  <-> (msg = KeyMsg "enter"
       /\ ItemsModel.showSearch m = false
       /\ exists r,
           ItemsModel.items m = Some r
           /\ llen (models.Items r) > 0
           /\ table_Cursor (ItemsModel.table m) < 0).
Proof.
  intros now m msg. split.
  - intros [w H]. destruct msg; try discriminate.
    + destruct (ItemsModel.showSearch m) eqn:Hsearch.
      * unfold ItemsModel.Update in H. rewrite Hsearch in H.
        head_cases H; discriminate.
      * rewrite Update_browsing in H by exact Hsearch.
        destruct (ItemsModel.navigate m key) as [[out |] | w'] eqn:Hnav;
          [discriminate | head_cases H; discriminate |].
        clear H. unfold ItemsModel.navigate in Hnav.
        head_cases Hnav; try discriminate.
        match goal with
        | E : (key == "enter") = true |- _ => apply String.eqb_eq in E; subst key
        end.
        split; [reflexivity |]. split; [reflexivity |].
        eexists. split; [reflexivity |].
        match goal with
        | E : index _ _ = Panic _ |- _ => apply index_panic in E; destruct E as [E | E]
        end.
        -- split; [| assumption].
           match goal with
           | E : (_ >? 0) = true |- _ => apply Z.gtb_lt in E; lia
           end.
        -- match goal with
           | E : (_ <? _) = true |- _ => apply Z.ltb_lt in E; lia
           end.
    + unfold ItemsModel.Update in H. destruct r as [its | err]; [| discriminate].
      destruct (updateTable_ok
                  (ItemsModel.set_error
                     (ItemsModel.set_items (ItemsModel.set_loading m false) its) ""))
        as [rows Hrows].
      rewrite Hrows in H. discriminate.
    + unfold ItemsModel.Update in H. destruct r; discriminate.
  - intros (-> & Hsearch & r & Hitems & Hlen & Hcur).
    rewrite Update_browsing by exact Hsearch.
    unfold ItemsModel.navigate. simpl. rewrite Hitems.
    replace (llen (models.Items r) >? 0) with true
      by (symmetry; apply Z.gtb_lt; lia).
    replace (table_Cursor (ItemsModel.table m) <? llen (models.Items r)) with true
      by (symmetry; apply Z.ltb_lt; lia).
    unfold index.
    replace (table_Cursor (ItemsModel.table m) <? 0) with true
      by (symmetry; apply Z.ltb_lt; lia).
    simpl. eexists. reflexivity.
Qed.

Ltac to_props :=
  repeat match goal with
         | E : (_ <? _) = true |- _ => apply Z.ltb_lt in E
         | E : (_ <? _) = false |- _ => apply Z.ltb_ge in E
         | E : (_ >? _) = true |- _ => apply Z.gtb_lt in E
         | E : (_ <=? _) = true |- _ => apply Z.leb_le in E
         | E : (_ <=? _) = false |- _ => apply Z.leb_gt in E
         end.

Ltac page_arith :=
  to_props; unfold int_add, int_sub in *;
  rewrite ?wrap64_id by (unfold go_int; rewrite pow63; lia);
  repeat split; try lia; try assumption; try exact I.

Ltac open_model m :=
  unfold page_invariant, go_int in *; rewrite ?pow63 in *;
  destruct m; cbn [ItemsModel.currentPage ItemsModel.items
                   ItemsModel.set_width ItemsModel.set_height
                   ItemsModel.set_loading ItemsModel.set_error
                   ItemsModel.set_items ItemsModel.set_states
                   ItemsModel.set_table ItemsModel.set_searchInput
                   ItemsModel.set_currentPage ItemsModel.set_searchQuery
                   ItemsModel.set_filterState ItemsModel.set_sortOrder
                   ItemsModel.set_showSearch ItemsModel.set_lastUpdate
                   ItemsModel.set_showActions ItemsModel.table
                   ItemsModel.searchInput ItemsModel.showActions
                   ItemsModel.filterState ItemsModel.sortOrder] in *.

(** X4. The page of the item list stays a positive Go [int]: it is 1
    in a new model, and no message changes that, given that the page
    count of every listing delivered is a Go [int] (the increment of the
    next-page key cannot wrap). *)
Theorem page_stays_positive :
  page_invariant ItemsModel.New
  /\ forall now m msg m' cmd,
      page_invariant m ->
      deliverable msg ->
      ItemsModel.Update now m msg = Ok (m', cmd) ->
      page_invariant m'.
Proof.
  split; [unfold page_invariant; simpl; split; [lia | exact I] |].
  intros now m msg m' cmd Hinv Hmsg H.
  destruct msg as [w h | key | | err | r | r | r | r | r | r | r | r | r
                  | id | ev | err];
    try (injection H as <- <-; exact Hinv).
  - destruct (ItemsModel.showSearch m) eqn:Hsearch.
    + unfold ItemsModel.Update in H. rewrite Hsearch in H.
      head_cases H; injection H as <- <-;
        open_model m; destruct Hinv as [Hpage Htotal]; page_arith.
    + rewrite Update_browsing in H by exact Hsearch.
      destruct (ItemsModel.navigate m key) as [[out |] | w'] eqn:Hnav;
        [| head_cases H; injection H as <- <-; open_model m; exact Hinv
         | discriminate].
      injection H as ->.
      unfold ItemsModel.navigate in Hnav.
      head_cases Hnav; try discriminate; injection Hnav as <- <-;
        try match goal with
            | Hk : mem key ItemsModel.digit_keys = true,
              Ha : Atoi key = Some ?page |- _ =>
                let p := fresh "p" in
                let Hp := fresh "Hp" in
                let Hr := fresh "Hr" in
                destruct (atoi_digit_key key Hk) as (p & Hp & Hr);
                rewrite Ha in Hp; injection Hp as <-
            end;
        open_model m; subst;
        destruct Hinv as [Hpage Htotal]; page_arith.
  - unfold ItemsModel.Update in H. injection H as <- <-.
    open_model m; exact Hinv.
  - unfold ItemsModel.Update in H. destruct r as [its | err].
    + destruct (updateTable_ok
                  (ItemsModel.set_error
                     (ItemsModel.set_items (ItemsModel.set_loading m false) its) ""))
        as [rows Hrows].
      rewrite Hrows in H. simpl in H. injection H as <- <-.
      unfold deliverable in Hmsg. open_model m.
      split; [apply Hinv |]. destruct its; [exact Hmsg | exact I].
    + injection H as <- <-. open_model m. exact Hinv.
  - unfold ItemsModel.Update in H.
    destruct r; injection H as <- <-; open_model m; exact Hinv.
Qed.

(** X5. In Browsing mode four presses of the sort key bring a known
    sort order back to itself, passing date descending, date ascending,
    title ascending and title descending in this order, and four presses
    of the filter key bring a known filter back (none, Failed,
    Completed, Downloaded); each press emits one fetch.  An unknown
    filter is reset to none by one press, while an unknown sort order is
    left as it is. *)
Theorem sort_and_filter_cycle_in_four : forall now m,
  ItemsModel.showSearch m = false ->
  (In (ItemsModel.sortOrder m)
      [models.SortDateDesc; models.SortDateAsc; models.SortTitleAsc;
       models.SortTitleDesc] ->
   exists m',
     press_keys now m ["s"; "s"; "s"; "s"]
     = Ok (m', [fetchItems; fetchItems; fetchItems; fetchItems])
     /\ ItemsModel.sortOrder m' = ItemsModel.sortOrder m)
  /\ (In (ItemsModel.filterState m) [""; "Failed"; "Completed"; "Downloaded"] ->
      exists m',
        press_keys now m ["f"; "f"; "f"; "f"]
        = Ok (m', [fetchItems; fetchItems; fetchItems; fetchItems])
        /\ ItemsModel.filterState m' = ItemsModel.filterState m)
  /\ List.map ItemsModel.next_sort
       [models.SortDateDesc; models.SortDateAsc; models.SortTitleAsc;
        models.SortTitleDesc]
     = [models.SortDateAsc; models.SortTitleAsc; models.SortTitleDesc;
        models.SortDateDesc]
  /\ List.map ItemsModel.next_filter [""; "Failed"; "Completed"; "Downloaded"]
     = ["Failed"; "Completed"; "Downloaded"; ""]
  /\ (forall f,
        ~ In f [""; "Failed"; "Completed"; "Downloaded"] ->
        ItemsModel.next_filter f = "")
  /\ (forall o,
        ~ In o [models.SortDateDesc; models.SortDateAsc; models.SortTitleAsc;
                models.SortTitleDesc] ->
        ItemsModel.next_sort o = o).
Proof.
  intros now m Hsearch.
  destruct m as [w h ld er its sts tbl inp pg ps sq fs so ss lu sel sa].
  simpl in Hsearch. subst ss.
  split; [| split; [| split; [| split; [| split]]]].
  - simpl. intros [<- | [<- | [<- | [<- | []]]]];
      eexists; (split; [reflexivity |]); reflexivity.
  - simpl. intros [<- | [<- | [<- | [<- | []]]]];
      eexists; (split; [reflexivity |]); reflexivity.
  - reflexivity.
  - reflexivity.
  - intros f Hf. unfold ItemsModel.next_filter.
    destruct (f == "") eqn:E1;
      [apply String.eqb_eq in E1; subst f; exfalso; apply Hf; simpl; auto |].
    destruct (f == "Failed") eqn:E2;
      [apply String.eqb_eq in E2; subst f; exfalso; apply Hf; simpl; auto |].
    destruct (f == "Completed") eqn:E3;
      [apply String.eqb_eq in E3; subst f; exfalso; apply Hf; simpl; auto |].
    reflexivity.
  - intros o Ho. unfold ItemsModel.next_sort.
    destruct (o == models.SortDateDesc) eqn:E1;
      [apply String.eqb_eq in E1; subst o; exfalso; apply Ho; simpl; auto |].
    destruct (o == models.SortDateAsc) eqn:E2;
      [apply String.eqb_eq in E2; subst o; exfalso; apply Ho; simpl; auto |].
    destruct (o == models.SortTitleAsc) eqn:E3;
      [apply String.eqb_eq in E3; subst o; exfalso; apply Ho; simpl; auto |].
    destruct (o == models.SortTitleDesc) eqn:E4;
      [apply String.eqb_eq in E4; subst o; exfalso; apply Ho; simpl; auto 6 |].
    reflexivity.
Qed.

(** A message other than the sort key leaves a date-descending sort order
    in place. *)
Lemma items_keep_default_sort : forall now m msg m' cmd,
  ItemsModel.Update now m msg = Ok (m', cmd) ->
  msg <> KeyMsg "s" ->
  ItemsModel.sortOrder m = models.SortDateDesc ->
  ItemsModel.sortOrder m' = models.SortDateDesc.
Proof.
  intros now m msg m' cmd H Hmsg Hsort.
  destruct msg as [w h | key | | err | r | r | r | r | r | r | r | r | r
                  | id | ev | err];
    try (injection H as <- <-; exact Hsort).
  - destruct (ItemsModel.showSearch m) eqn:Hsearch.
    + unfold ItemsModel.Update in H. rewrite Hsearch in H.
      head_cases H; injection H as <- <-; destruct m; exact Hsort.
    + rewrite Update_browsing in H by exact Hsearch.
      destruct (ItemsModel.navigate m key) as [[out |] | w'] eqn:Hnav;
        [| head_cases H; injection H as <- <-; destruct m; exact Hsort
         | discriminate].
      injection H as ->.
      unfold ItemsModel.navigate in Hnav.
      head_cases Hnav; try discriminate; injection Hnav as <- <-;
        try (destruct m; first [exact Hsort | reflexivity]).
      exfalso. apply Hmsg.
      match goal with
      | E : (key == "s") = true |- _ => apply String.eqb_eq in E; subst key
      end.
      reflexivity.
  - unfold ItemsModel.Update in H. injection H as <- <-. destruct m; exact Hsort.
  - unfold ItemsModel.Update in H. destruct r as [its | err].
    + destruct (updateTable_ok
                  (ItemsModel.set_error
                     (ItemsModel.set_items (ItemsModel.set_loading m false) its) ""))
        as [rows Hrows].
      rewrite Hrows in H. simpl in H. injection H as <- <-.
      destruct m; exact Hsort.
    + injection H as <- <-. destruct m; exact Hsort.
  - unfold ItemsModel.Update in H.
    destruct r; injection H as <- <-; destruct m; exact Hsort.
Qed.

Lemma app_keeps_default_sort : forall now a msg a' cmd,
  App.Update now a msg = Ok (a', cmd) ->
  ItemsModel.sortOrder (App.items a) = models.SortDateDesc ->
  ItemsModel.sortOrder (App.items a') = models.SortDateDesc.
Proof.
  intros now a msg a' cmd H Hsort.
  assert (Hcur : forall b m b' c,
            App.updateCurrent now b m = Ok (b', c) ->
            m <> KeyMsg "s" ->
            ItemsModel.sortOrder (App.items b) = models.SortDateDesc ->
            ItemsModel.sortOrder (App.items b') = models.SortDateDesc).
  { intros b m b' c Hb Hm Hs. unfold App.updateCurrent in Hb.
    destruct b as [screen w h d i det st lg hp sh sc le]. simpl in *.
    destruct screen.
    - destruct (DashboardModel.Update now d m). injection Hb as <- <-. exact Hs.
    - destruct (ItemsModel.Update now i m) as [[m1 c1] | w1] eqn:Hi;
        [| discriminate].
      simpl in Hb. injection Hb as <- <-. simpl.
      eapply items_keep_default_sort; eassumption.
    - destruct det as [dm |].
      + destruct (ItemDetailModel.Update now dm m). injection Hb as <- <-. exact Hs.
      + injection Hb as <- <-. exact Hs.
    - destruct (SettingsModel.Update now st m). injection Hb as <- <-. exact Hs.
    - destruct (LogsModel.Update lg m). injection Hb as <- <-. exact Hs.
    - injection Hb as <- <-. exact Hs. }
  destruct msg as [w h | key | | err | r | r | r | r | r | r | r | r | r
                  | id | ev | err];
    try (eapply Hcur; [exact H | discriminate | exact Hsort]).
  - unfold App.Update in H. eapply Hcur; [exact H | discriminate |].
    destruct a as [screen w0 h0 d i det st lg hp sh sc le]. simpl in *.
    destruct i. exact Hsort.
  - unfold App.Update in H.
    destruct ((key == "esc") && Screen_eqb (App.currentScreen a) ScreenItemDetail);
      [injection H as <- <-; destruct a; exact Hsort |].
    destruct (mem key keys.Quit); [injection H as <- <-; exact Hsort |].
    destruct (mem key keys.Dashboard);
      [injection H as <- <-; destruct a; exact Hsort |].
    destruct (mem key keys.Items);
      [injection H as <- <-; destruct a; exact Hsort |].
    destruct (mem key keys.Settings) eqn:Hs;
      [injection H as <- <-; destruct a; exact Hsort |].
    destruct (mem key keys.Logs);
      [injection H as <- <-; destruct a; exact Hsort |].
    destruct (mem key keys.Help);
      [injection H as <- <-; destruct a; exact Hsort |].
    eapply Hcur; [exact H | | exact Hsort].
    intros E. injection E as ->. discriminate.
  - unfold App.Update in H. injection H as <- <-. destruct a; exact Hsort.
Qed.

(** X6. Through the application the sort order of the item list never
    changes: the router takes the key s for the settings screen before
    the item list sees it, so in every state reached from [NewApp] the
    order is still date descending. *)
Theorem sort_key_never_reaches_item_list : forall msgs,
  match App.run App.New msgs with
  | Ok (a, _) => ItemsModel.sortOrder (App.items a) = models.SortDateDesc
  | Panic _ => True
  end.
Proof.
  assert (Hrun : forall msgs a,
            ItemsModel.sortOrder (App.items a) = models.SortDateDesc ->
            match App.run a msgs with
            | Ok (a', _) => ItemsModel.sortOrder (App.items a') = models.SortDateDesc
            | Panic _ => True
            end).
  { induction msgs as [| [now msg] rest IH]; intros a Ha; simpl; [exact Ha |].
    destruct (App.Update now a msg) as [[a1 c1] | w1] eqn:Hstep; simpl;
      [| exact I].
    specialize (IH a1 (app_keeps_default_sort _ _ _ Hstep Ha)).
    destruct (App.run a1 rest) as [[a2 c2] | w2]; simpl; [exact IH | exact I]. }
  intros msgs. apply Hrun. reflexivity.
Qed.

(** ** Payloads and requests *)

(** X7. The payload a screen holds is replaced only by a successful
    fetch result for it: on the item list, the dashboard, the settings,
    the logs and the item detail, every other message (keys, the
    refresh key among them, timer ticks, failed fetches, results meant
    for other screens) leaves the listing, statistics, settings, logs or
    item data as they were. *)
Theorem payload_replaced_only_by_fetch_result : forall now,
  (forall m msg m' cmd,
      ItemsModel.Update now m msg = Ok (m', cmd) ->
      (forall r, msg <> itemsMsg (Fetched r)) ->
      ItemsModel.items m' = ItemsModel.items m)
  /\ (forall m msg,
      (forall r, msg <> statsMsg (Fetched r)) ->
      DashboardModel.stats (fst (DashboardModel.Update now m msg))
      = DashboardModel.stats m)
  /\ (forall m msg,
      (forall r, msg <> settingsMsg (Fetched r)) ->
      SettingsModel.settings (fst (SettingsModel.Update now m msg))
      = SettingsModel.settings m)
  /\ (forall m msg,
      (forall r, msg <> logsMsg (Fetched r)) ->
      LogsModel.logs (fst (LogsModel.Update m msg)) = LogsModel.logs m)
  /\ (forall m msg,
      (forall r, msg <> itemDetailMsg (Fetched r)) ->
      ItemDetailModel.itemData (fst (ItemDetailModel.Update now m msg))
      = ItemDetailModel.itemData m).
Proof.
  intros now. split; [| split; [| split; [| split]]].
  - intros m msg m' cmd H Hmsg.
    destruct msg as [w h | key | | err | r | r | r | r | r | r | r | r | r
                    | id | ev | err];
      try (injection H as <- <-; reflexivity).
    + destruct (ItemsModel.showSearch m) eqn:Hsearch.
      * unfold ItemsModel.Update in H. rewrite Hsearch in H.
        head_cases H; injection H as <- <-; destruct m; reflexivity.
      * rewrite Update_browsing in H by exact Hsearch.
        destruct (ItemsModel.navigate m key) as [[out |] | w'] eqn:Hnav;
          [| head_cases H; injection H as <- <-; destruct m; reflexivity
           | discriminate].
        injection H as ->. unfold ItemsModel.navigate in Hnav.
        head_cases Hnav; try discriminate; injection Hnav as <- <-;
          destruct m; first [reflexivity | simpl in *; congruence].
    + unfold ItemsModel.Update in H. injection H as <- <-. destruct m; reflexivity.
    + destruct r as [its | err]; [exfalso; apply (Hmsg its); reflexivity |].
      unfold ItemsModel.Update in H. injection H as <- <-. destruct m; reflexivity.
    + unfold ItemsModel.Update in H.
      destruct r; injection H as <- <-; destruct m; reflexivity.
  - intros m msg Hmsg.
    destruct msg as [w h | key | | err | r | r | r | r | r | r | r | r | r
                    | id | ev | err];
      try (destruct m; reflexivity);
      destruct r as [x | err]; try (destruct m; reflexivity).
    exfalso; apply (Hmsg x); reflexivity.
  - intros m msg Hmsg.
    destruct msg as [w h | key | | err | r | r | r | r | r | r | r | r | r
                    | id | ev | err];
      try (destruct m; reflexivity).
    + simpl. destruct (key == "r"); destruct m; reflexivity.
    + destruct r as [x | err]; [exfalso; apply (Hmsg x); reflexivity |].
      destruct m; reflexivity.
  - intros m msg Hmsg. unfold LogsModel.Update.
    destruct msg as [w h | key | | err | r | r | r | r | r | r | r | r | r
                    | id | ev | err];
      try (destruct (viewport_Update (LogsModel.viewport m) _);
           destruct m; reflexivity).
    + destruct (key == "r"); [destruct m; reflexivity |].
      destruct (viewport_Update (LogsModel.viewport m) (KeyMsg key)).
      destruct m; reflexivity.
    + destruct r as [x | err]; [exfalso; apply (Hmsg x); reflexivity |].
      match goal with
      | |- context [viewport_Update ?v ?g] => destruct (viewport_Update v g)
      end.
      destruct m; reflexivity.
  - intros m msg Hmsg. unfold ItemDetailModel.Update.
    destruct msg as [w h | key | | err | r | r | r | r | r | r | r | r | r
                    | id | ev | err];
      try (destruct m; reflexivity).
    + repeat match goal with
             | |- context [if ?b then _ else _] => destruct b
             end;
        try (destruct m; reflexivity).
      destruct (table_Update (ItemDetailModel.streamsTable m) (KeyMsg key)).
      destruct m; reflexivity.
    + destruct r as [x | err]; [exfalso; apply (Hmsg x); reflexivity |].
      destruct m; reflexivity.
    + destruct r as [x | err]; destruct m; reflexivity.
Qed.

Lemma lookup_Values_Set_same : forall v key value,
  lookup (api.Values_Set v key value) key = Some value.
Proof.
  induction v as [| [k x] rest IH]; intros key value; simpl.
  - rewrite String.eqb_refl. reflexivity.
  - destruct (k == key) eqn:E; simpl; rewrite E; [reflexivity | apply IH].
Qed.

Lemma lookup_Values_Set_other : forall v key value other,
  key <> other ->
  lookup (api.Values_Set v key value) other = lookup v other.
Proof.
  induction v as [| [k x] rest IH]; intros key value other H; simpl.
  - apply String.eqb_neq in H. rewrite H. reflexivity.
  - destruct (k == key) eqn:E; simpl.
    + apply String.eqb_eq in E. subst k.
      apply String.eqb_neq in H. rewrite H. reflexivity.
    + destruct (k == other); [reflexivity | apply IH; exact H].
Qed.

(** X8. The request the item list sends: the query always carries the
    page size as [limit], the current page as [page] and the sort order
    as [sort], carries [states] and [search] exactly when the filter,
    respectively the search text, is not empty, and never carries
    [type], [extended] or [is_anime]; so the path always has a query
    string. *)
Theorem item_list_request : forall (m : ItemsModel.t) Encode,
  let query := api.GetItems_query (fetchItems_params m) in
  lookup query "limit" = Some (itoa (ItemsModel.pageSize m))
  /\ lookup query "page" = Some (itoa (ItemsModel.currentPage m))
  /\ lookup query "sort" = Some (ItemsModel.sortOrder m)
  /\ lookup query "states"
     = (if ItemsModel.filterState m == "" then None
        else Some (ItemsModel.filterState m))
  /\ lookup query "search"
     = (if ItemsModel.searchQuery m == "" then None
        else Some (ItemsModel.searchQuery m))
  /\ lookup query "type" = None
  /\ lookup query "extended" = None
  /\ lookup query "is_anime" = None
  /\ api.GetItems_path Encode (Some (fetchItems_params m))
     = "/api/v1/items?" ++ Encode query.
Proof.
  intros m Encode query. subst query.
  unfold api.GetItems_path, api.GetItems_query, fetchItems_params. simpl.
  destruct (ItemsModel.filterState m == ""), (ItemsModel.searchQuery m == "");
    simpl; repeat split.
Qed.

(** X9. The search entry and the request.  Submitting (enter) closes
    the entry, emits one fetch, and the request then carries page 1 and
    the text of the entry as [search], or no [search] at all when the
    entry is empty, with limit, filter and sort as before.  Cancelling
    (esc) and every other key in the entry leave the parameters of the
    request as they were; cancelling emits nothing. *)
Theorem search_entry_and_request : forall now m,
  ItemsModel.showSearch m = true ->
  (exists m',
      ItemsModel.Update now m (KeyMsg "enter") = Ok (m', [fetchItems])
      /\ ItemsModel.showSearch m' = false
      /\ fetchItems_params m'
         = {| api.Limit := api.Limit (fetchItems_params m);
              api.Page := Some 1;
              api.Type_ := None;
              api.States := api.States (fetchItems_params m);
              api.Sort := api.Sort (fetchItems_params m);
              api.Search :=
                (let typed := textinput_Value (ItemsModel.searchInput m) in
                 if typed == "" then None else Some typed);
              api.Extended := None;
              api.IsAnime := None |})
  /\ (exists m',
      ItemsModel.Update now m (KeyMsg "esc") = Ok (m', [])
      /\ ItemsModel.showSearch m' = false
      /\ fetchItems_params m' = fetchItems_params m)
  /\ (forall k m' cmd,
      k <> "enter" -> k <> "esc" ->
      ItemsModel.Update now m (KeyMsg k) = Ok (m', cmd) ->
      ItemsModel.showSearch m' = true
      /\ fetchItems_params m' = fetchItems_params m
      /\ cmd = snd (textinput_Update (ItemsModel.searchInput m) (KeyMsg k))).
Proof.
  intros now m Hsearch. unfold ItemsModel.Update. rewrite Hsearch.
  split; [| split].
  - simpl. eexists. split; [reflexivity |].
    destruct m. unfold fetchItems_params. simpl.
    destruct (textinput_Value searchInput == ""); split; reflexivity.
  - simpl. eexists. split; [reflexivity |]. destruct m. split; reflexivity.
  - intros k m' cmd Henter Hesc H.
    apply String.eqb_neq in Henter. apply String.eqb_neq in Hesc.
    rewrite Henter, Hesc in H.
    destruct (textinput_Update (ItemsModel.searchInput m) (KeyMsg k)) as [input c].
    injection H as <- <-. destruct m. simpl in Hsearch. subst.
    repeat split.
Qed.

(** ** The events screen *)

Lemma shorten_ok : forall s n,
  0 <= n ->
  exists t, EventsModel.shorten s n = Ok t /\ len t <= n + 3.
Proof.
  intros s n Hn. unfold EventsModel.shorten, slice_to.
  destruct (len s >? n) eqn:Hlong.
  - apply Z.gtb_lt in Hlong.
    replace ((n <? 0) || (len s <? n)) with false
      by (symmetry; apply orb_false_intro; apply Z.ltb_ge; lia).
    simpl. eexists. split; [reflexivity |].
    unfold len in *. rewrite length_append, length_substring_0 by lia.
    simpl. lia.
  - exists s. split; [reflexivity |].
    destruct (Z.gtb_spec (len s) n); [discriminate | lia].
Qed.

Lemma event_row_cells : forall event,
  exists timestamp eventType message dataStr,
    EventsModel.event_row event = Ok [timestamp; eventType; message; dataStr]
    /\ len eventType <= 15 /\ len message <= 50 /\ len dataStr <= 30.
Proof.
  intros event. unfold EventsModel.event_row.
  destruct (@shorten_ok (models.Type_ event) 12) as (ty & Hty & Lty); [lia |].
  rewrite Hty. cbn [bind].
  destruct (@shorten_ok
              (if models.Message event == "" then "No message"
               else models.Message event) 47) as (ms & Hms & Lms); [lia |].
  rewrite Hms. cbn [bind].
  destruct (models.Data event) as [data |].
  - destruct (llen data >? 0).
    + match goal with
      | |- context [EventsModel.shorten ?x 27] =>
          destruct (@shorten_ok x 27) as (ds & Hds & Lds); [lia |]; rewrite Hds
      end.
      cbn [bind]. do 4 eexists. split; [reflexivity |].
      repeat split; lia.
    + cbn [bind]. do 4 eexists. split; [reflexivity |].
      repeat split; try lia. unfold len. simpl. lia.
  - cbn [bind]. do 4 eexists. split; [reflexivity |].
    repeat split; try lia. unfold len. simpl. lia.
Qed.

Lemma updateEventsTable_ok : forall m,
  exists rows,
    EventsModel.updateEventsTable m
    = Ok (EventsModel.set_eventsTable m
            (table_SetRows (EventsModel.eventsTable m) rows)).
Proof.
  intros m. unfold EventsModel.updateEventsTable.
  destruct (mapM_ok EventsModel.event_row (EventsModel.events m)) as (rows & Hrows).
  { intros e _. destruct (event_row_cells e) as (a & b & c & d & H & _).
    eexists. exact H. }
  rewrite Hrows. eexists. reflexivity.
Qed.


Lemma firstn_app_firstn : forall (A : Type) (a b : list A) n k,
  (n <= k)%nat ->
  firstn n (List.app a (firstn k b)) = firstn n (List.app a b).
Proof.
  intros A a. induction a as [| x a IH]; intros b n k H; simpl.
  - rewrite firstn_firstn. rewrite Nat.min_l by exact H. reflexivity.
  - destruct n as [| n]; [reflexivity |]. simpl.
    rewrite (IH b n k) by lia. reflexivity.
Qed.

Lemma addEvent_events : forall now m event,
  0 <= EventsModel.maxEvents m ->
  EventsModel.events (EventsModel.addEvent now m event)
  = firstn (Z.to_nat (EventsModel.maxEvents m)) (event :: EventsModel.events m)
  /\ EventsModel.maxEvents (EventsModel.addEvent now m event)
     = EventsModel.maxEvents m.
Proof.
  intros now m event Hmax. unfold EventsModel.addEvent.
  destruct m as [w h ld er evs tbl mx ch st lu]. simpl in *.
  split; [| destruct (llen (event :: evs) >? mx); reflexivity].
  destruct (llen (event :: evs) >? mx) eqn:E; simpl; [reflexivity |].
  symmetry. apply firstn_all2.
  destruct (Z.gtb_spec (llen (event :: evs)) mx); [discriminate |].
  unfold llen in *. simpl in *. lia.
Qed.

Lemma feed_step : forall now m e,
  0 <= EventsModel.maxEvents m ->
  exists m1,
    EventsModel.Update now m (eventMsg e) = Ok (m1, [])
    /\ EventsModel.events m1
       = firstn (Z.to_nat (EventsModel.maxEvents m)) (e :: EventsModel.events m)
    /\ EventsModel.maxEvents m1 = EventsModel.maxEvents m.
Proof.
  intros now m e Hmax. unfold EventsModel.Update.
  destruct (updateEventsTable_ok (EventsModel.addEvent now m e)) as [rows H].
  rewrite H. simpl. eexists. split; [reflexivity |].
  destruct (addEvent_events now m e Hmax) as [Hev Hmx].
  destruct (EventsModel.addEvent now m e). simpl in *.
  split; assumption.
Qed.

(** X11. The events screen keeps the newest events first and at most
    [maxEvents] of them (100 in a new model), dropping the oldest: after
    handling a sequence of stream events it holds the first [maxEvents]
    entries of the arrivals in reverse order followed by what it held
    before. *)
Theorem events_kept_newest_first : forall now es m,
  0 <= EventsModel.maxEvents m ->
  llen (EventsModel.events m) <= EventsModel.maxEvents m ->
  exists m',
    feed_events now m es = Ok m'
    /\ EventsModel.events m'
       = firstn (Z.to_nat (EventsModel.maxEvents m))
                (List.app (List.rev es) (EventsModel.events m))
    /\ EventsModel.maxEvents m' = EventsModel.maxEvents m
    /\ llen (EventsModel.events m') <= EventsModel.maxEvents m.
Proof.
  intros now es. induction es as [| e rest IH]; intros m Hmax Hlen.
  - exists m. simpl. split; [reflexivity |].
    split; [| split; [reflexivity | exact Hlen]].
    symmetry. apply firstn_all2. unfold llen in Hlen. lia.
  - destruct (feed_step now m e Hmax) as (m1 & Hstep & Hev & Hmx).
    assert (Hlen1 : llen (EventsModel.events m1) <= EventsModel.maxEvents m1).
    { rewrite Hev, Hmx. unfold llen. rewrite length_firstn. lia. }
    destruct (IH m1 ltac:(rewrite Hmx; exact Hmax) Hlen1)
      as (m' & Hfeed & Hev' & Hmx' & Hlen').
    exists m'. cbn [feed_events]. rewrite Hstep. cbn [bind fst].
    split; [exact Hfeed |].
    split; [| split; [congruence | rewrite <- Hmx; exact Hlen']].
    rewrite Hev', Hmx, Hev.
    rewrite firstn_app_firstn by lia.
    cbn [List.rev]. rewrite <- app_assoc. reflexivity.
Qed.

(** ** The item detail screen *)

Lemma tab_cases : forall t, 0 <= t < 3 -> t = 0 \/ t = 1 \/ t = 2.
Proof. intros t H. lia. Qed.

(** X12. The tab of the item detail screen stays one of 0, 1, 2 on
    every message; the tab key moves to the next tab and wraps from the
    last to the first, shift+tab undoes it, three tab keys come back to
    the same tab, and the keys 1, 2, 3 select a tab whatever the tab
    was; none of these keys emits an operation. *)
Theorem detail_tabs_wrap : forall now m,
  0 <= ItemDetailModel.activeTab m < 3 ->
  (forall msg,
      0 <= ItemDetailModel.activeTab (fst (ItemDetailModel.Update now m msg)) < 3)
  /\ ItemDetailModel.Update now m (KeyMsg "tab")
     = (ItemDetailModel.set_activeTab m ((ItemDetailModel.activeTab m + 1) mod 3), [])
  /\ ItemDetailModel.Update now m (KeyMsg "shift+tab")
     = (ItemDetailModel.set_activeTab m ((ItemDetailModel.activeTab m + 2) mod 3), [])
  /\ fst (ItemDetailModel.Update now
            (fst (ItemDetailModel.Update now m (KeyMsg "tab"))) (KeyMsg "shift+tab"))
     = m
  /\ fst (ItemDetailModel.Update now
            (fst (ItemDetailModel.Update now
                    (fst (ItemDetailModel.Update now m (KeyMsg "tab")))
                    (KeyMsg "tab")))
            (KeyMsg "tab"))
     = m
  /\ ItemDetailModel.Update now m (KeyMsg "1") = (ItemDetailModel.set_activeTab m 0, [])
  /\ ItemDetailModel.Update now m (KeyMsg "2") = (ItemDetailModel.set_activeTab m 1, [])
  /\ ItemDetailModel.Update now m (KeyMsg "3") = (ItemDetailModel.set_activeTab m 2, []).
Proof.
  intros now m Htab.
  destruct m as [w h ld er id dat st tab tbl lu]. simpl in Htab.
  split.
  - intros msg. unfold ItemDetailModel.Update.
    destruct msg as [w' h' | key | | err | r | r | r | r | r | r | r | r | r
                    | id' | ev | err];
      try (simpl; exact Htab);
      try (destruct r; simpl; exact Htab).
    cbn [ItemDetailModel.activeTab].
    destruct (key == "tab").
    { cbn [fst ItemDetailModel.set_activeTab ItemDetailModel.activeTab].
      unfold int_add. rewrite wrap64_id by (unfold go_int; rewrite pow63; lia).
      apply Z.rem_bound_pos; lia. }
    destruct (key == "shift+tab").
    { cbn [fst ItemDetailModel.set_activeTab ItemDetailModel.activeTab].
      unfold int_add, int_sub.
      rewrite (wrap64_id (z := tab - 1)) by (unfold go_int; rewrite pow63; lia).
      rewrite wrap64_id by (unfold go_int; rewrite pow63; lia).
      apply Z.rem_bound_pos; lia. }
    destruct (key == "r"); [simpl; exact Htab |].
    destruct (key == "1"); [simpl; lia |].
    destruct (key == "2"); [simpl; lia |].
    destruct (key == "3"); [simpl; lia |].
    destruct (tab =? 1); [| simpl; exact Htab].
    match goal with
    | |- context [table_Update ?t ?g] => destruct (table_Update t g)
    end.
    simpl. exact Htab.
  - destruct (tab_cases Htab) as [-> | [-> | ->]]; repeat split.
Qed.

(** ** The router *)

Lemma updateCurrent_frame : forall now a msg a' cmd,
  App.updateCurrent now a msg = Ok (a', cmd) ->
  App.currentScreen a' = App.currentScreen a
  /\ App.width a' = App.width a /\ App.height a' = App.height a
  /\ (App.currentScreen a <> ScreenDashboard -> App.dashboard a' = App.dashboard a)
  /\ (App.currentScreen a <> ScreenItems -> App.items a' = App.items a)
  /\ (App.currentScreen a <> ScreenItemDetail -> App.itemDetail a' = App.itemDetail a)
  /\ (App.currentScreen a <> ScreenSettings -> App.settings a' = App.settings a)
  /\ (App.currentScreen a <> ScreenLogs -> App.logs a' = App.logs a)
  /\ App.help a' = App.help a
  /\ (App.itemDetail a <> None -> App.itemDetail a' <> None).
Proof.
  intros now a msg a' cmd H. unfold App.updateCurrent in H.
  destruct a as [screen w h d i det st lg hp sh sc le]. simpl in *.
  destruct screen.
  - destruct (DashboardModel.Update now d msg). injection H as <- <-.
    simpl. repeat split; intros; try reflexivity; try contradiction; assumption.
  - destruct (ItemsModel.Update now i msg) as [[m1 c1] | w1]; [| discriminate].
    simpl in H. injection H as <- <-.
    simpl. repeat split; intros; try reflexivity; try contradiction; assumption.
  - destruct det as [dm |].
    + destruct (ItemDetailModel.Update now dm msg). injection H as <- <-.
      simpl. repeat split; intros; try reflexivity; try contradiction; discriminate.
    + injection H as <- <-.
      simpl. repeat split; intros; try reflexivity; try contradiction; assumption.
  - destruct (SettingsModel.Update now st msg). injection H as <- <-.
    simpl. repeat split; intros; try reflexivity; try contradiction; assumption.
  - destruct (LogsModel.Update lg msg). injection H as <- <-.
    simpl. repeat split; intros; try reflexivity; try contradiction; assumption.
  - injection H as <- <-.
    simpl. repeat split; intros; try reflexivity; try contradiction; assumption.
Qed.

(** X13. A message is handled by the active screen only.  Apart from a
    resize, handling a message changes no screen model but that of the
    screen active when it arrives (and the item detail model when the
    message opens an item), and never the terminal size; so the result
    of a fetch, or a timer tick, that arrives after its screen was left
    is dropped.  With the help screen active, such a message changes
    nothing at all and emits nothing, so no timer is re-armed. *)
Theorem message_reaches_active_screen_only : forall now a msg a' cmd,
  App.Update now a msg = Ok (a', cmd) ->
  (forall w h, msg <> WindowSizeMsg w h) ->
  App.width a' = App.width a /\ App.height a' = App.height a
  /\ (App.currentScreen a <> ScreenDashboard -> App.dashboard a' = App.dashboard a)
  /\ (App.currentScreen a <> ScreenItems -> App.items a' = App.items a)
  /\ (App.currentScreen a <> ScreenSettings -> App.settings a' = App.settings a)
  /\ (App.currentScreen a <> ScreenLogs -> App.logs a' = App.logs a)
  /\ App.help a' = App.help a
  /\ (App.currentScreen a <> ScreenItemDetail ->
      (forall id, msg <> showItemDetailMsg id) ->
      App.itemDetail a' = App.itemDetail a)
  /\ (App.currentScreen a = ScreenHelp ->
      (forall k, msg <> KeyMsg k) ->
      (forall id, msg <> showItemDetailMsg id) ->
      a' = a /\ cmd = []).
Proof.
  intros now a msg a' cmd H Hsize.
  assert (Hcur : App.updateCurrent now a msg = Ok (a', cmd) ->
                 App.width a' = App.width a /\ App.height a' = App.height a
                 /\ (App.currentScreen a <> ScreenDashboard ->
                     App.dashboard a' = App.dashboard a)
                 /\ (App.currentScreen a <> ScreenItems -> App.items a' = App.items a)
                 /\ (App.currentScreen a <> ScreenSettings ->
                     App.settings a' = App.settings a)
                 /\ (App.currentScreen a <> ScreenLogs -> App.logs a' = App.logs a)
                 /\ App.help a' = App.help a
                 /\ (App.currentScreen a <> ScreenItemDetail ->
                     (forall id, msg <> showItemDetailMsg id) ->
                     App.itemDetail a' = App.itemDetail a)
                 /\ (App.currentScreen a = ScreenHelp ->
                     (forall k, msg <> KeyMsg k) ->
                     (forall id, msg <> showItemDetailMsg id) ->
                     a' = a /\ cmd = [])).
  { intros Hc.
    destruct (updateCurrent_frame _ _ _ Hc)
      as (_ & Hw & Hh & Hd & Hi & Hdet & Hst & Hlg & Hhp & _).
    repeat split; try assumption.
    - intros Hscr _. apply Hdet. exact Hscr.
    - unfold App.updateCurrent in Hc. rewrite H0 in Hc. simpl in Hc.
      injection Hc as <- _. destruct a; reflexivity.
    - unfold App.updateCurrent in Hc. rewrite H0 in Hc. simpl in Hc.
      injection Hc as _ <-. reflexivity. }
  destruct msg as [w h | key | | err | r | r | r | r | r | r | r | r | r
                  | id | ev | err];
    try (apply Hcur; exact H).
  - exfalso. apply (Hsize w h). reflexivity.
  - unfold App.Update in H.
    assert (Hkey : forall target c,
              Ok (App.set_currentScreen a target, c) = Ok (a', cmd) ->
              App.width a' = App.width a /\ App.height a' = App.height a
              /\ (App.currentScreen a <> ScreenDashboard ->
                  App.dashboard a' = App.dashboard a)
              /\ (App.currentScreen a <> ScreenItems -> App.items a' = App.items a)
              /\ (App.currentScreen a <> ScreenSettings ->
                  App.settings a' = App.settings a)
              /\ (App.currentScreen a <> ScreenLogs -> App.logs a' = App.logs a)
              /\ App.help a' = App.help a
              /\ (App.currentScreen a <> ScreenItemDetail ->
                  (forall id, KeyMsg key <> showItemDetailMsg id) ->
                  App.itemDetail a' = App.itemDetail a)
              /\ (App.currentScreen a = ScreenHelp ->
                  (forall k, KeyMsg key <> KeyMsg k) ->
                  (forall id, KeyMsg key <> showItemDetailMsg id) ->
                  a' = a /\ cmd = [])).
    { intros target c E. injection E as <- <-. destruct a. simpl.
      repeat split; intros; try reflexivity;
        match goal with
        | Hk : forall k, KeyMsg _ <> KeyMsg k |- _ =>
            exfalso; apply (Hk key); reflexivity
        end. }
    destruct ((key == "esc") && Screen_eqb (App.currentScreen a) ScreenItemDetail);
      [eapply Hkey; exact H |].
    destruct (mem key keys.Quit).
    { injection H as <- <-. repeat split; intros; try reflexivity;
        match goal with
        | Hk : forall k, KeyMsg _ <> KeyMsg k |- _ =>
            exfalso; apply (Hk key); reflexivity
        end. }
    destruct (mem key keys.Dashboard); [eapply Hkey; exact H |].
    destruct (mem key keys.Items); [eapply Hkey; exact H |].
    destruct (mem key keys.Settings); [eapply Hkey; exact H |].
    destruct (mem key keys.Logs); [eapply Hkey; exact H |].
    destruct (mem key keys.Help); [eapply Hkey; exact H |].
    apply Hcur. exact H.
  - unfold App.Update in H. injection H as <- <-. destruct a. simpl.
    repeat split; intros; try reflexivity;
      match goal with
      | Hid : forall i, showItemDetailMsg _ <> showItemDetailMsg i |- _ =>
          exfalso; apply (Hid id); reflexivity
      end.
Qed.

Lemma detail_screen_has_model_step : forall now a msg a' cmd,
  App.Update now a msg = Ok (a', cmd) ->
  (App.currentScreen a = ScreenItemDetail -> App.itemDetail a <> None) ->
  App.currentScreen a' = ScreenItemDetail -> App.itemDetail a' <> None.
Proof.
  intros now a msg a' cmd H Hinv.
  assert (Hcur : forall b, App.updateCurrent now b msg = Ok (a', cmd) ->
            (App.currentScreen b = ScreenItemDetail -> App.itemDetail b <> None) ->
            App.currentScreen a' = ScreenItemDetail -> App.itemDetail a' <> None).
  { intros b Hb Hbinv Hscr.
    destruct (updateCurrent_frame _ _ _ Hb) as (Hs & _ & _ & _ & _ & _ & _ & _ & _ & Hsome).
    apply Hsome. apply Hbinv. rewrite <- Hs. exact Hscr. }
  destruct msg as [w h | key | | err | r | r | r | r | r | r | r | r | r
                  | id | ev | err];
    try (apply Hcur with a; assumption).
  - unfold App.Update in H. apply Hcur with (App.resize a w h); [exact H |].
    destruct a. exact Hinv.
  - unfold App.Update in H.
    destruct ((key == "esc") && Screen_eqb (App.currentScreen a) ScreenItemDetail);
      [injection H as <- <-; destruct a; discriminate |].
    destruct (mem key keys.Quit); [injection H as <- <-; exact Hinv |].
    destruct (mem key keys.Dashboard);
      [injection H as <- <-; destruct a; discriminate |].
    destruct (mem key keys.Items);
      [injection H as <- <-; destruct a; discriminate |].
    destruct (mem key keys.Settings);
      [injection H as <- <-; destruct a; discriminate |].
    destruct (mem key keys.Logs);
      [injection H as <- <-; destruct a; discriminate |].
    destruct (mem key keys.Help);
      [injection H as <- <-; destruct a; discriminate |].
    apply Hcur with a; assumption.
  - unfold App.Update in H. injection H as <- <-. destruct a. discriminate.
Qed.

(** X14. In every state reached from [NewApp], whenever the item detail
    screen is the active one its model is there: the nil checks on
    [a.itemDetail] in [Update] and [View] never take their nil
    branch. *)
Theorem detail_screen_has_model : forall msgs,
  match App.run App.New msgs with
  | Ok (a, _) =>
      App.currentScreen a = ScreenItemDetail ->
      exists d, App.itemDetail a = Some d
  | Panic _ => True
  end.
Proof.
  assert (Hrun : forall msgs a,
            (App.currentScreen a = ScreenItemDetail -> App.itemDetail a <> None) ->
            match App.run a msgs with
            | Ok (a', _) =>
                App.currentScreen a' = ScreenItemDetail -> App.itemDetail a' <> None
            | Panic _ => True
            end).
  { induction msgs as [| [now msg] rest IH]; intros a Ha; simpl; [exact Ha |].
    destruct (App.Update now a msg) as [[a1 c1] | w1] eqn:Hstep; simpl;
      [| exact I].
    specialize (IH a1 (@detail_screen_has_model_step _ _ _ _ _ Hstep Ha)).
    destruct (App.run a1 rest) as [[a2 c2] | w2]; simpl; [exact IH | exact I]. }
  intros msgs. specialize (Hrun msgs App.New ltac:(discriminate)).
  destruct (App.run App.New msgs) as [[a c] | w]; [| exact I].
  intros Hscr. specialize (Hrun Hscr).
  destruct (App.itemDetail a) as [d |]; [exists d; reflexivity | contradiction].
Qed.

(** X15. A resize never panics, keeps the active screen, records the
    new terminal size, and gives the dashboard, the item list, the
    settings, the logs and the help screen the new width and the new
    height less 3 for the navigation bar.  The item detail model is not
    among them: it keeps the size it was opened with.  Unless the logs
    screen is active the resize emits nothing. *)
Theorem resize_reaches_all_screens_but_detail : forall now a w h,
  exists a' cmd,
    App.Update now a (WindowSizeMsg w h) = Ok (a', cmd)
    /\ App.currentScreen a' = App.currentScreen a
    /\ App.width a' = w /\ App.height a' = h
    /\ DashboardModel.width (App.dashboard a') = w
    /\ DashboardModel.height (App.dashboard a') = int_sub h 3
    /\ ItemsModel.width (App.items a') = w
    /\ ItemsModel.height (App.items a') = int_sub h 3
    /\ SettingsModel.width (App.settings a') = w
    /\ SettingsModel.height (App.settings a') = int_sub h 3
    /\ LogsModel.width (App.logs a') = w
    /\ LogsModel.height (App.logs a') = int_sub h 3
    /\ HelpModel.width (App.help a') = w
    /\ HelpModel.height (App.help a') = int_sub h 3
    /\ App.itemDetail a' = App.itemDetail a
    /\ (App.currentScreen a <> ScreenLogs -> cmd = []).
Proof.
  intros now a w h. unfold App.Update, App.updateCurrent.
  destruct a as [screen w0 h0 d i det st lg hp sh sc le]. simpl.
  destruct screen; simpl.
  - do 2 eexists. split; [reflexivity |].
    destruct d, i, st, lg, hp. simpl. repeat split.
  - do 2 eexists. split; [reflexivity |].
    destruct d, i, st, lg, hp. simpl. repeat split.
  - destruct det as [dm |]; do 2 eexists; (split; [reflexivity |]);
      destruct d, i, st, lg, hp; simpl; repeat split.
  - do 2 eexists. split; [reflexivity |].
    destruct d, i, st, lg, hp. simpl. repeat split.
  - unfold LogsModel.Update.
    match goal with
    | |- context [viewport_Update ?v ?g] => destruct (viewport_Update v g)
    end.
    do 2 eexists. split; [reflexivity |].
    destruct d, i, st, lg, hp. simpl. repeat split. intros H. contradiction.
  - do 2 eexists. split; [reflexivity |].
    destruct d, i, st, lg, hp. simpl. repeat split.
Qed.

(** ** The event stream, continued *)

(** X16. [StreamEventsSSE] fails fast: when the request fails or the
    status is not 200 it returns its error at once, and at no later
    point has any event been queued or received, whatever the body
    holds. *)
Theorem stream_fails_fast : forall x cap s,
  match x with
  | Client.DoFailed _ => True
  | Client.Responded StatusCode _ _ => StatusCode <> 200
  end ->
  Client.steps (Client.start x cap) s ->
  (exists err, Client.reader s = Client.Returned (Some err))
  /\ Client.reader s = Client.StreamEventsSSE x
  /\ buf (Client.eventChan s) = []
  /\ Client.received s = [].
Proof.
  intros x cap s Hx Hsteps.
  assert (Hstart : exists err, Client.StreamEventsSSE x = Client.Returned (Some err)).
  { destruct x as [e | status body scanErr]; simpl.
    - eexists. reflexivity.
    - destruct (status =? 200) eqn:E; [apply Z.eqb_eq in E; contradiction |].
      simpl. eexists. reflexivity. }
  destruct Hstart as [err Herr].
  remember (Client.start x cap) as s0 eqn:Es0.
  assert (Hinv : Client.reader s = Client.Returned (Some err)
                 /\ buf (Client.eventChan s) = [] /\ Client.received s = []).
  { induction Hsteps as [| s0 s1 s2 _ IH Hstep].
    - subst s. unfold Client.start. simpl. repeat split. exact Herr.
    - destruct (IH Es0) as (Hr & Hb & Hc).
      destruct Hstep; simpl in *; try discriminate.
      repeat split; assumption. }
  destruct Hinv as (Hr & Hb & Hc).
  split; [exists err; exact Hr |]. split; [congruence |]. split; assumption.
Qed.


End More.

(** ** Configuration *)

Lemma validateConfig_accepts : forall c c',
  config.validateConfig c = inl c' ->
  config.Endpoint (config.API c') <> ""
  /\ config.Token (config.API c') <> ""
  /\ 0 < config.Timeout (config.API c')
  /\ 0 < config.RefreshInterval (config.UI c')
  /\ 0 < config.PageSize (config.UI c')
  /\ config.API c' = config.API c.
Proof.
  intros c c'. unfold config.validateConfig.
  destruct c as [[ep tk to] [ri th pz]]. simpl.
  destruct (ep == "") eqn:Eep; [discriminate |].
  destruct (tk == "") eqn:Etk; [discriminate |].
  destruct (to <=? 0) eqn:Eto; [discriminate |].
  destruct (ri <=? 0) eqn:Eri; [discriminate |].
  apply String.eqb_neq in Eep. apply String.eqb_neq in Etk.
  apply Z.leb_gt in Eto. apply Z.leb_gt in Eri.
  destruct (pz <=? 0) eqn:Epz; intros H; injection H as <-; simpl;
    repeat split; try assumption; try lia.
Qed.

(** X18. [validateConfig] accepts a configuration only with an
    endpoint, a token, a positive timeout and a positive refresh
    interval; what it returns then also has a positive page size (a
    page size of zero or less is replaced by 50, nothing else is
    touched) and is accepted unchanged when validated again.  The
    default configuration has no token and is rejected for that. *)
Theorem validated_config_is_well_formed : forall c c',
  (config.validateConfig c = inl c' ->
   config.Endpoint (config.API c') <> ""
   /\ config.Token (config.API c') <> ""
   /\ 0 < config.Timeout (config.API c')
   /\ 0 < config.RefreshInterval (config.UI c')
   /\ 0 < config.PageSize (config.UI c')
   /\ config.API c' = config.API c
   /\ config.RefreshInterval (config.UI c') = config.RefreshInterval (config.UI c)
   /\ config.Theme (config.UI c') = config.Theme (config.UI c)
   /\ config.PageSize (config.UI c')
      = (if config.PageSize (config.UI c) <=? 0 then 50
         else config.PageSize (config.UI c))
   /\ config.validateConfig c' = inl c')
  /\ config.validateConfig config.DefaultConfig = inr "Bearer token is required".
Proof.
  intros c c'. split; [| reflexivity].
  unfold config.validateConfig.
  destruct c as [[ep tk to] [ri th pz]]. simpl.
  destruct (ep == "") eqn:Eep; [discriminate |].
  destruct (tk == "") eqn:Etk; [discriminate |].
  destruct (to <=? 0) eqn:Eto; [discriminate |].
  destruct (ri <=? 0) eqn:Eri; [discriminate |].
  apply String.eqb_neq in Eep. apply String.eqb_neq in Etk.
  assert (Eep' := Eep). assert (Etk' := Etk).
  apply String.eqb_neq in Eep'. apply String.eqb_neq in Etk'.
  apply Z.leb_gt in Eto. assert (Eto' := Eto). apply Z.leb_gt in Eto'.
  apply Z.leb_gt in Eri. assert (Eri' := Eri). apply Z.leb_gt in Eri'.
  destruct (pz <=? 0) eqn:Epz; intros H; injection H as <-; simpl;
    rewrite ?Eep', ?Etk', ?Eto', ?Eri', ?Epz;
    repeat split; try assumption; try lia; try reflexivity.
Qed.

(** X19. Loading the configuration.  Whatever the files and the
    environment hold, a configuration that [LoadConfig] returns has an
    endpoint, a token, positive timeout and refresh interval and a
    positive page size.  When [RIVEN_API_TOKEN] is set, that is the
    token of the result, whatever a file or [RIVEN_API_KEY] says.  With
    no configuration file at any default path and neither token variable
    set, loading fails for want of a token. *)
Theorem load_config_needs_a_token :
  forall Getenv ParseDuration Stat Join loadFromFile,
    let load := config.LoadConfig Getenv ParseDuration Stat Join loadFromFile in
    (forall path c,
        load path = inl c ->
        config.Endpoint (config.API c) <> ""
        /\ config.Token (config.API c) <> ""
        /\ 0 < config.Timeout (config.API c)
        /\ 0 < config.RefreshInterval (config.UI c)
        /\ 0 < config.PageSize (config.UI c))
    /\ (forall path c,
        Getenv "RIVEN_API_TOKEN" <> "" ->
        load path = inl c ->
        config.Token (config.API c) = Getenv "RIVEN_API_TOKEN")
    /\ ((forall path, Stat path = false) ->
        Getenv "RIVEN_API_TOKEN" = "" ->
        Getenv "RIVEN_API_KEY" = "" ->
        load "" = inr "invalid configuration: Bearer token is required").
Proof.
  intros Getenv ParseDuration Stat Join loadFromFile load. subst load.
  unfold config.LoadConfig. split; [| split].
  - intros path c H.
    match type of H with
    | match ?f with _ => _ end = _ => destruct f as [c0 | e]; [| discriminate]
    end.
    destruct (config.validateConfig (config.loadFromEnv Getenv ParseDuration c0))
      as [c1 | e] eqn:Hv; [| discriminate].
    injection H as <-.
    destruct (validateConfig_accepts _ Hv) as (H1 & H2 & H3 & H4 & H5 & _).
    repeat split; assumption.
  - intros path c Htoken H.
    match type of H with
    | match ?f with _ => _ end = _ => destruct f as [c0 | e]; [| discriminate]
    end.
    destruct (config.validateConfig (config.loadFromEnv Getenv ParseDuration c0))
      as [c1 | e] eqn:Hv; [| discriminate].
    injection H as <-.
    destruct (validateConfig_accepts _ Hv) as (_ & _ & _ & _ & _ & Hapi).
    rewrite Hapi. unfold config.loadFromEnv. simpl.
    apply String.eqb_neq in Htoken. rewrite Htoken. reflexivity.
  - intros Hstat Htoken Hkey. simpl.
    unfold config.defaultPaths. simpl. rewrite !Hstat.
    unfold config.loadFromEnv, config.validateConfig. simpl.
    rewrite Htoken, Hkey. simpl.
    destruct (Getenv "RIVEN_API_ENDPOINT" == "") eqn:E; simpl;
      [reflexivity | rewrite E; reflexivity].
Qed.

(** * Further properties on concrete inputs *)

Lemma truncate_witness :
  3 <= 5 < 2 ^ 63
  /\ truncateString "abcdefgh" 5 = Ok "ab..."
  /\ truncateString "abc" 5 = Ok "abc"
  /\ truncateString "abcd" 2 = Panic "slice bounds out of range".
Proof.
  destruct (truncateString_bounds "abcdefgh" 5) as [Hfit _].
  destruct (truncateString_bounds "abc" 5) as [Hfit' _].
  destruct (truncateString_bounds "abcd" 2) as [_ Hpanic].
  assert (H5 : 3 <= 5 < 2 ^ 63) by (rewrite pow63; lia).
  destruct (Hfit H5) as (t & Ht & _ & _ & Hlong).
  destruct (Hfit' H5) as (t' & Ht' & _ & Hshort & _).
  split; [exact H5 |]. split; [| split].
  - destruct Hlong as [-> _]; [unfold len; simpl; lia |]. exact Ht.
  - rewrite Hshort in Ht'; [exact Ht' | unfold len; simpl; lia].
  - apply Hpanic; [lia | unfold len; simpl; lia].
Defined.

Lemma table_rows_witness :
  nth_error (models.Items Simple.page) 1
  = Some [("id", VOther "42"); ("title", VString "The Matrix")]
  /\ exists rows row,
      mapM (ItemsModel.row_of (deps := Simple.deps)) (models.Items Simple.page)
      = Ok rows
      /\ List.length rows = 2%nat
      /\ nth_error rows 1 = Some row
      /\ nth_error row 0 = Some "42".
Proof.
  split; [reflexivity |].
  destruct (@table_rows_follow_items Simple.deps (models.Items Simple.page))
    as (rows & Hrows & Hlen & Hnth).
  destruct (Hnth 1%nat [("id", VOther "42"); ("title", VString "The Matrix")]
              eq_refl) as (row & title & Hrow & _ & Hid & _).
  exists rows, row. repeat split; assumption.
Defined.

Lemma negative_cursor_witness :
  ItemsModel.showSearch Samples.negative_cursor = false
  /\ table_Cursor (ItemsModel.table Samples.negative_cursor) < 0
  /\ exists w,
      ItemsModel.Update 0 Samples.negative_cursor (KeyMsg "enter") = Panic w.
Proof.
  split; [reflexivity |]. split; [reflexivity |].
  apply (proj2 (@items_update_panics_only_on_negative_cursor Simple.deps 0
                  Samples.negative_cursor (KeyMsg "enter"))).
  split; [reflexivity |]. split; [reflexivity |].
  exists Simple.page. split; [reflexivity |]. split; reflexivity.
Defined.

Lemma page_invariant_witness :
  page_invariant Simple.first_page
  /\ deliverable (KeyMsg "n")
  /\ page_invariant
       (ItemsModel.set_loading (ItemsModel.set_currentPage Simple.first_page 2) true).
Proof.
  assert (Hinv : page_invariant Simple.first_page).
  { unfold page_invariant, go_int. rewrite pow63. simpl. lia. }
  split; [exact Hinv |]. split; [exact I |].
  destruct (@page_stays_positive Simple.deps) as [_ Hstep].
  apply (Hstep 0 Simple.first_page (KeyMsg "n") _ [fetchItems] Hinv I).
  reflexivity.
Defined.

Lemma sort_cycle_witness :
  ItemsModel.showSearch (@ItemsModel.New Simple.deps) = false
  /\ exists m',
      press_keys 0 (@ItemsModel.New Simple.deps) ["s"; "s"; "s"; "s"]
      = Ok (m', [fetchItems; fetchItems; fetchItems; fetchItems])
      /\ ItemsModel.sortOrder m' = models.SortDateDesc.
Proof.
  split; [reflexivity |].
  destruct (@sort_and_filter_cycle_in_four Simple.deps 0 ItemsModel.New eq_refl)
    as (Hsort & _).
  apply Hsort. left. reflexivity.
Defined.

Lemma failed_fetch_witness :
  ItemsModel.items Simple.first_page = Some Simple.page
  /\ ItemsModel.items
       (ItemsModel.set_error (ItemsModel.set_loading Simple.first_page false)
          "Failed to fetch items: timeout")
     = Some Simple.page.
Proof.
  split; [reflexivity |].
  destruct (@payload_replaced_only_by_fetch_result Simple.deps 0) as (Hitems & _).
  apply (Hitems Simple.first_page (itemsMsg (Failed "timeout")) _ []).
  - reflexivity.
  - intros r. discriminate.
Defined.

Lemma search_entry_witness :
  ItemsModel.showSearch Samples.typed_x = true
  /\ exists m',
      ItemsModel.Update 0 Samples.typed_x (KeyMsg "enter") = Ok (m', [fetchItems])
      /\ api.Page (fetchItems_params m') = Some 1
      /\ api.Search (fetchItems_params m') = Some "x".
Proof.
  split; [reflexivity |].
  destruct (@search_entry_and_request Simple.deps 0 Samples.typed_x eq_refl)
    as ((m' & Hupd & _ & Hparams) & _).
  exists m'. split; [exact Hupd |]. rewrite Hparams. split; reflexivity.
Defined.

Lemma events_order_witness :
  0 <= EventsModel.maxEvents Samples.keeps_one
  /\ llen (EventsModel.events Samples.keeps_one)
     <= EventsModel.maxEvents Samples.keeps_one
  /\ exists m',
      feed_events 0 Samples.keeps_one [Samples.first_event; Samples.second_event]
      = Ok m'
      /\ EventsModel.events m' = [Samples.second_event].
Proof.
  assert (H0 : 0 <= EventsModel.maxEvents Samples.keeps_one) by (simpl; lia).
  assert (H1 : llen (EventsModel.events Samples.keeps_one)
               <= EventsModel.maxEvents Samples.keeps_one)
    by (unfold llen; simpl; lia).
  split; [exact H0 |]. split; [exact H1 |].
  destruct (@events_kept_newest_first Simple.deps 0
              [Samples.first_event; Samples.second_event] Samples.keeps_one H0 H1)
    as (m' & Hfeed & Hev & _).
  exists m'. split; [exact Hfeed |]. rewrite Hev. reflexivity.
Defined.

Lemma detail_tabs_witness :
  0 <= ItemDetailModel.activeTab (@ItemDetailModel.New Simple.deps "42") < 3
  /\ ItemDetailModel.activeTab
       (fst (ItemDetailModel.Update 0 (@ItemDetailModel.New Simple.deps "42")
               (KeyMsg "shift+tab")))
     = 2.
Proof.
  assert (H : 0 <= ItemDetailModel.activeTab (@ItemDetailModel.New Simple.deps "42") < 3)
    by (simpl; lia).
  split; [exact H |].
  destruct (@detail_tabs_wrap Simple.deps 0 (ItemDetailModel.New "42") H)
    as (_ & _ & Hback & _).
  rewrite Hback. reflexivity.
Defined.

Lemma late_result_witness :
  App.currentScreen Simple.away_app = ScreenDashboard
  /\ App.Update 4 Simple.away_app (itemsMsg (Failed "timeout"))
     = Ok (Simple.away_app, [])
  /\ App.items Simple.away_app = App.items Simple.away_app.
Proof.
  assert (Hupd : App.Update 4 Simple.away_app (itemsMsg (Failed "timeout"))
                 = Ok (Simple.away_app, [])) by reflexivity.
  split; [reflexivity |]. split; [exact Hupd |].
  destruct (@message_reaches_active_screen_only Simple.deps 4 Simple.away_app
              (itemsMsg (Failed "timeout")) Simple.away_app [] Hupd)
    as (_ & _ & _ & Hitems & _).
  - intros w h. discriminate.
  - apply Hitems. discriminate.
Defined.

Lemma fail_fast_witness :
  Client.steps (deps := Simple.deps)
    (Client.start (Client.Responded 503 [Simple.example_line] None) 50)
    (Client.start (Client.Responded 503 [Simple.example_line] None) 50)
  /\ Client.received
       (Client.start (Client.Responded 503 [Simple.example_line] None) 50) = []
  /\ exists err,
      Client.reader (Client.start (Client.Responded 503 [Simple.example_line] None) 50)
      = Client.Returned (Some err).
Proof.
  assert (Hsteps : Client.steps (deps := Simple.deps)
            (Client.start (Client.Responded 503 [Simple.example_line] None) 50)
            (Client.start (Client.Responded 503 [Simple.example_line] None) 50))
    by apply Client.steps_refl.
  destruct (@stream_fails_fast Simple.deps
              (Client.Responded 503 [Simple.example_line] None) 50 _
              ltac:(discriminate) Hsteps) as (Herr & _ & _ & Hrec).
  split; [exact Hsteps |]. split; [exact Hrec | exact Herr].
Defined.



Lemma validate_witness :
  config.validateConfig Samples.zero_page_size
  = inl {| config.API := config.API Samples.zero_page_size;
           config.UI := {| config.RefreshInterval := 5 * config.Second;
                           config.Theme := "dark"; config.PageSize := 50 |} |}
  /\ 0 < config.PageSize
           (config.UI
              {| config.API := config.API Samples.zero_page_size;
                 config.UI := {| config.RefreshInterval := 5 * config.Second;
                                 config.Theme := "dark"; config.PageSize := 50 |} |}).
Proof.
  assert (H : config.validateConfig Samples.zero_page_size
              = inl {| config.API := config.API Samples.zero_page_size;
                       config.UI := {| config.RefreshInterval := 5 * config.Second;
                                       config.Theme := "dark";
                                       config.PageSize := 50 |} |})
    by reflexivity.
  split; [exact H |].
  destruct (validated_config_is_well_formed Samples.zero_page_size
              {| config.API := config.API Samples.zero_page_size;
                 config.UI := {| config.RefreshInterval := 5 * config.Second;
                                 config.Theme := "dark"; config.PageSize := 50 |} |})
    as [Hok _].
  destruct (Hok H) as (_ & _ & _ & _ & Hpage & _). exact Hpage.
Defined.

Lemma load_config_witness :
  (forall path, Samples.no_file path = false)
  /\ Samples.no_env "RIVEN_API_TOKEN" = ""
  /\ Samples.no_env "RIVEN_API_KEY" = ""
  /\ config.LoadConfig Samples.no_env Samples.ParseDuration Samples.no_file
       Samples.Join Samples.unreadable ""
     = inr "invalid configuration: Bearer token is required"
  /\ Samples.Getenv "RIVEN_API_TOKEN" <> ""
  /\ exists c,
      config.LoadConfig Samples.Getenv Samples.ParseDuration Samples.no_file
        Samples.Join Samples.unreadable "" = inl c
      /\ config.Token (config.API c) = "new-token"
      /\ 0 < config.Timeout (config.API c).
Proof.
  destruct (load_config_needs_a_token Samples.no_env Samples.ParseDuration
              Samples.no_file Samples.Join Samples.unreadable)
    as (_ & _ & Hnone).
  destruct (load_config_needs_a_token Samples.Getenv Samples.ParseDuration
              Samples.no_file Samples.Join Samples.unreadable)
    as (Hok & Htoken & _).
  split; [reflexivity |]. split; [reflexivity |]. split; [reflexivity |].
  split; [apply Hnone; reflexivity |].
  split; [discriminate |].
  eexists. split; [reflexivity |].
  split.
  - rewrite (Htoken "" _ ltac:(discriminate) eq_refl). reflexivity.
  - destruct (Hok "" _ eq_refl) as (_ & _ & Htimeout & _). exact Htimeout.
Defined.

Lemma detail_model_witness :
  match App.run (deps := Simple.deps) App.New [(0, showItemDetailMsg "42")] with
  | Ok (a, _) =>
      App.currentScreen a = ScreenItemDetail
      /\ exists d, App.itemDetail a = Some d
  | Panic _ => False
  end.
Proof.
  assert (Hscreen :
            match App.run (deps := Simple.deps) App.New [(0, showItemDetailMsg "42")] with
            | Ok (a, _) => App.currentScreen a = ScreenItemDetail
            | Panic _ => False
            end) by (vm_compute; reflexivity).
  pose proof (@detail_screen_has_model Simple.deps [(0, showItemDetailMsg "42")]) as Hmodel.
  destruct (App.run (deps := Simple.deps) App.New [(0, showItemDetailMsg "42")])
    as [[a c] | w]; [| exact Hscreen].
  split; [exact Hscreen | exact (Hmodel Hscreen)].
Defined.

Lemma resize_witness :
  App.currentScreen (@App.New Simple.deps) <> ScreenLogs
  /\ match App.Update 0 (@App.New Simple.deps) (WindowSizeMsg 100 40) with
     | Ok (a', cmd) =>
         cmd = []
         /\ ItemsModel.height (App.items a') = 37
         /\ App.itemDetail a' = None
     | Panic _ => False
     end.
Proof.
  assert (Hscreen : App.currentScreen (@App.New Simple.deps) <> ScreenLogs)
    by discriminate.
  split; [exact Hscreen |].
  destruct (@resize_reaches_all_screens_but_detail Simple.deps 0 App.New 100 40)
    as (a' & cmd & Hupd & H).
  rewrite Hupd.
  destruct H as (_ & _ & _ & _ & _ & _ & Hheight & _ & _ & _ & _ & _ & _ & Hdetail & Hcmd).
  split; [exact (Hcmd Hscreen) |].
  split; [rewrite Hheight; reflexivity | rewrite Hdetail; reflexivity].
Defined.
